(** * ARM PMU counter lifecycle engine (drivers/perf/arm_pmu.c)

    A shallow embedding of the driver's accounting, lifecycle, validation,
    interrupt-request and registration code, followed by the properties
    established for it.

    Conventions.  C integers are values of [Z]; every conversion or
    arithmetic operation that wraps in C is written with one of the
    wrappers of [Int].  Bitmaps ([used_mask], cpumasks) are non-negative
    [Z] read with [Z.testbit].  Pointers to events are [nat] addresses into
    the event memory of a [world].  The capability operations that a
    concrete bank supplies through function pointers are the function
    fields of [arm_pmu].

    [perf_event_update_userpage], the [WARN_ON_ONCE] checks and the [pr_*]
    messages act on nothing that is modelled here and are left out.  The
    lifecycle callbacks and the power-state notifier are called with
    interrupts off and are modelled as running undisturbed; the retry loop
    of [armpmu_event_update] is modelled under interference as well. *)

From Stdlib Require Import ZArith List Bool Lia String.
Import ListNotations.
Local Open Scope Z_scope.

(** ** Fixed-width integers *)

Module Int.

Definition u64 (z : Z) : Z := z mod 2 ^ 64.
Definition s64 (z : Z) : Z := (z + 2 ^ 63) mod 2 ^ 64 - 2 ^ 63.
Definition u32 (z : Z) : Z := z mod 2 ^ 32.
Definition s32 (z : Z) : Z := (z + 2 ^ 31) mod 2 ^ 32 - 2 ^ 31.

End Int.
Import Int.

(** ** Constants declared in headers outside this file

    [errno] values, the [PERF_HES_*] and [PERF_EF_*] flag bits, the
    [PERF_EVENT_STATE_*] scheduler states, the [PERF_TYPE_*] kinds, the
    [CPU_PM_*] commands, the [IRQF_*] flags and the notifier return codes
    are declared in kernel headers that the driver includes; they carry
    the values of those headers. *)

Definition ENOENT : Z := 2.
Definition EBUSY : Z := 16.
Definition EINVAL : Z := 22.
Definition EOPNOTSUPP : Z := 95.

Definition PERF_HES_STOPPED : Z := 1.
Definition PERF_HES_UPTODATE : Z := 2.

Definition PERF_EF_START : Z := 1.
Definition PERF_EF_RELOAD : Z := 2.
Definition PERF_EF_UPDATE : Z := 4.

Definition PERF_EVENT_STATE_OFF : Z := -1.
Definition PERF_EVENT_STATE_INACTIVE : Z := 0.
Definition PERF_EVENT_STATE_ACTIVE : Z := 1.

Definition NOTIFY_DONE : Z := 0.
Definition NOTIFY_OK : Z := 1.

Definition CPU_PM_ENTER : Z := 0.
Definition CPU_PM_ENTER_FAILED : Z := 1.
Definition CPU_PM_EXIT : Z := 2.

Definition PERF_TYPE_HARDWARE : Z := 0.
Definition PERF_TYPE_HW_CACHE : Z := 3.
Definition PERF_TYPE_RAW : Z := 4.

Definition IRQF_PERCPU : Z := 1024.
Definition IRQF_NOBALANCING : Z := 2048.
Definition IRQF_NO_THREAD : Z := 65536.

(** ** Data model *)

(** [struct perf_event_attr], the fields the driver reads. *)
Record perf_event_attr := {
  attr_type : Z;
  attr_config : Z;
  attr_sample_period : Z;
  sample_type : Z;
  enable_on_exec : bool;
  exclude_idle : bool;
  exclude_user : bool;
  exclude_kernel : bool;
  exclude_hv : bool
}.

(** [struct hw_perf_event]. *)
Record hw_perf_event := {
  idx : Z;
  hwc_state : Z;
  sample_period : Z;
  last_period : Z;
  period_left : Z;
  prev_count : Z;
  config_base : Z;
  config : Z;
  event_base : Z
}.

(** [struct perf_event].  [group_leader] and [sibling_list] hold addresses
    of other events. *)
Record perf_event := {
  attr : perf_event_attr;
  hw : hw_perf_event;
  count : Z;
  ev_state : Z;
  cpu : Z;
  pmu : nat;
  group_leader : nat;
  sibling_list : list nat
}.

(** [struct pmu_hw_events], one per core. *)
Record pmu_hw_events := {
  events : Z -> option nat;
  used_mask : Z;
  irq : Z
}.

Definition set_idx (v : Z) (h : hw_perf_event) : hw_perf_event :=
  {| idx := v; hwc_state := hwc_state h; sample_period := sample_period h;
     last_period := last_period h; period_left := period_left h;
     prev_count := prev_count h; config_base := config_base h;
     config := config h; event_base := event_base h |}.

Definition set_hwc_state (v : Z) (h : hw_perf_event) : hw_perf_event :=
  {| idx := idx h; hwc_state := v; sample_period := sample_period h;
     last_period := last_period h; period_left := period_left h;
     prev_count := prev_count h; config_base := config_base h;
     config := config h; event_base := event_base h |}.

Definition set_sample_period (v : Z) (h : hw_perf_event) : hw_perf_event :=
  {| idx := idx h; hwc_state := hwc_state h; sample_period := v;
     last_period := last_period h; period_left := period_left h;
     prev_count := prev_count h; config_base := config_base h;
     config := config h; event_base := event_base h |}.

Definition set_last_period (v : Z) (h : hw_perf_event) : hw_perf_event :=
  {| idx := idx h; hwc_state := hwc_state h; sample_period := sample_period h;
     last_period := v; period_left := period_left h;
     prev_count := prev_count h; config_base := config_base h;
     config := config h; event_base := event_base h |}.

Definition set_period_left (v : Z) (h : hw_perf_event) : hw_perf_event :=
  {| idx := idx h; hwc_state := hwc_state h; sample_period := sample_period h;
     last_period := last_period h; period_left := v;
     prev_count := prev_count h; config_base := config_base h;
     config := config h; event_base := event_base h |}.

Definition set_prev_count (v : Z) (h : hw_perf_event) : hw_perf_event :=
  {| idx := idx h; hwc_state := hwc_state h; sample_period := sample_period h;
     last_period := last_period h; period_left := period_left h;
     prev_count := v; config_base := config_base h;
     config := config h; event_base := event_base h |}.

(** [hwc->idx = -1; hwc->config_base = 0; hwc->config = 0;
    hwc->event_base = 0]. *)
Definition clear_hwc_config (h : hw_perf_event) : hw_perf_event :=
  {| idx := -1; hwc_state := hwc_state h; sample_period := sample_period h;
     last_period := last_period h; period_left := period_left h;
     prev_count := prev_count h; config_base := 0;
     config := 0; event_base := 0 |}.

Definition set_config_base (v : Z) (h : hw_perf_event) : hw_perf_event :=
  {| idx := idx h; hwc_state := hwc_state h; sample_period := sample_period h;
     last_period := last_period h; period_left := period_left h;
     prev_count := prev_count h; config_base := v;
     config := config h; event_base := event_base h |}.

Definition set_hw (h : hw_perf_event) (e : perf_event) : perf_event :=
  {| attr := attr e; hw := h; count := count e; ev_state := ev_state e;
     cpu := cpu e; pmu := pmu e; group_leader := group_leader e;
     sibling_list := sibling_list e |}.

Definition set_count (v : Z) (e : perf_event) : perf_event :=
  {| attr := attr e; hw := hw e; count := v; ev_state := ev_state e;
     cpu := cpu e; pmu := pmu e; group_leader := group_leader e;
     sibling_list := sibling_list e |}.

Definition set_events (f : Z -> option nat) (c : pmu_hw_events) : pmu_hw_events :=
  {| events := f; used_mask := used_mask c; irq := irq c |}.

Definition set_used_mask (m : Z) (c : pmu_hw_events) : pmu_hw_events :=
  {| events := events c; used_mask := m; irq := irq c |}.

(** Functional update of an array or of a memory. *)
Definition upd_nat {A : Type} (k : nat) (v : A) (f : nat -> A) : nat -> A :=
  fun k' => if Nat.eqb k' k then v else f k'.

Definition upd_Z {A : Type} (k : Z) (v : A) (f : Z -> A) : Z -> A :=
  fun k' => if Z.eqb k' k then v else f k'.

(** ** Bitmaps and cpumasks *)

Definition test_bit (i : Z) (m : Z) : bool := Z.testbit m i.
Definition cpumask_test_cpu (c : Z) (m : Z) : bool := Z.testbit m c.
Definition cpumask_set_cpu (c : Z) (m : Z) : Z := Z.setbit m c.
Definition cpumask_empty (m : Z) : bool := m =? 0.

(** [cpumask_first(mask)]: the lowest set bit, or [nr_cpu_ids] when no bit
    below [nr_cpu_ids] is set. *)
Fixpoint find_first_bit (m : Z) (i : Z) (nbits : nat) : Z :=
  match nbits with
  | O => i
  | S n => if Z.testbit m i then i else find_first_bit m (i + 1) n
  end.

Definition cpumask_first (nr_cpu_ids : nat) (m : Z) : Z :=
  find_first_bit m 0 nr_cpu_ids.

(** [bitmap_weight(map, nbits)]: the number of set bits below [nbits]. *)
Fixpoint bitmap_weight_nat (m : Z) (nbits : nat) : Z :=
  match nbits with
  | O => 0
  | S n => bitmap_weight_nat m n + (if Z.testbit m (Z.of_nat n) then 1 else 0)
  end.

Definition bitmap_weight (m : Z) (nbits : Z) : Z :=
  bitmap_weight_nat m (Z.to_nat nbits).

(** ** The bank and the state it acts on *)

Section Driver.

(** The bank's register file: whatever the capability operations act on. *)
Variable HW : Type.

(** [struct arm_pmu]: the read-only descriptor with its capability
    operations.  [max_period] is a [u64] and [num_events] an [int].
    [get_event_idx] is the slot-selection strategy: it reads and marks the
    [used_mask] it is handed and returns the chosen index or a negative
    error. *)
Record arm_pmu := {
  armpmu_pmu : nat;
  name : string;
  num_events : Z;
  max_period : Z;
  supported_cpus : Z;
  enable : perf_event -> HW -> HW;
  disable : perf_event -> HW -> HW;
  read_counter : perf_event -> HW -> Z;
  write_counter : perf_event -> Z -> HW -> HW;
  get_event_idx : Z -> perf_event -> Z * Z;
  set_event_filter : option (hw_perf_event -> perf_event_attr -> Z * hw_perf_event);
  map_event : perf_event -> Z;
  start : HW -> HW;
  stop : HW -> HW;
  reset : option (HW -> HW)
}.

(** The mutable state: hardware registers, the events in memory, and the
    per-core [pmu_hw_events]. *)
Record world := {
  regs : HW;
  mem : nat -> perf_event;
  percpu : Z -> pmu_hw_events
}.

Definition set_regs (r : HW) (w : world) : world :=
  {| regs := r; mem := mem w; percpu := percpu w |}.

Definition store (e : nat) (v : perf_event) (w : world) : world :=
  {| regs := regs w; mem := upd_nat e v (mem w); percpu := percpu w |}.

Definition set_percpu (c : Z) (v : pmu_hw_events) (w : world) : world :=
  {| regs := regs w; mem := mem w; percpu := upd_Z c v (percpu w) |}.

Variable armpmu : arm_pmu.

(** *** armpmu_event_update *)

(** The tail of [armpmu_event_update] once the compare-and-exchange has
    succeeded: [local64_add(delta, &event->count)] and
    [local64_sub(delta, &hwc->period_left)], with [prev_count] already
    replaced by [new_raw_count]. *)
Definition event_update_commit (evt : perf_event) (prev_raw_count new_raw_count : Z)
  : perf_event :=
  let delta := Z.land (u64 (new_raw_count - prev_raw_count)) (max_period armpmu) in
  let hwc := set_prev_count new_raw_count (hw evt) in
  let hwc := set_period_left (s64 (period_left hwc - delta)) hwc in
  set_hw hwc (set_count (u64 (count evt + delta)) evt).

(** The retry loop.  [irqs] lists what other contexts do to the world
    during an attempt, one entry per attempt: the first component runs
    between [local64_read(&hwc->prev_count)] and [read_counter], the second
    between [read_counter] and [local64_cmpxchg]; once the list is exhausted
    nothing interferes.  An attempt that finds [prev_count] different from
    the value read at its top jumps back to [again]. *)
Fixpoint armpmu_event_update_loop
         (irqs : list ((world -> world) * (world -> world))) (e : nat) (w : world)
  : Z * world :=
  let prev_raw_count := prev_count (hw (mem w e)) in
  match irqs with
  | [] =>
      let new_raw_count := u64 (read_counter armpmu (mem w e) (regs w)) in
      (new_raw_count,
       store e (event_update_commit (mem w e) prev_raw_count new_raw_count) w)
  | (irq1, irq2) :: rest =>
      let w1 := irq1 w in
      let new_raw_count := u64 (read_counter armpmu (mem w1 e) (regs w1)) in
      let w2 := irq2 w1 in
      if prev_count (hw (mem w2 e)) =? prev_raw_count
      then (new_raw_count,
            store e (event_update_commit (mem w2 e) prev_raw_count new_raw_count) w2)
      else armpmu_event_update_loop rest e w2
  end.

(** [armpmu_event_update] run with nothing else touching the event. *)
Definition armpmu_event_update (e : nat) (w : world) : Z * world :=
  armpmu_event_update_loop [] e w.

(** *** armpmu_event_set_period *)

(** The event-side effect of [armpmu_event_set_period]: the reconciled and
    clamped [left], the updated event and the return value.  The comparison
    against [max_period >> 1] is between an [s64] and a [u64] and is
    therefore carried out on [u64]. *)
Definition set_period_event (evt : perf_event) : Z * perf_event * Z :=
  let hwc := hw evt in
  let left0 := period_left hwc in
  let period := s64 (sample_period hwc) in
  let '(left1, hwc, ret) :=
    if left0 <=? s64 (- period)
    then (period, set_last_period (u64 period) (set_period_left period hwc), 1)
    else (left0, hwc, 0) in
  let '(left2, hwc, ret) :=
    if left1 <=? 0
    then (s64 (left1 + period),
          set_last_period (u64 period) (set_period_left (s64 (left1 + period)) hwc),
          1)
    else (left1, hwc, ret) in
  let left3 :=
    if u64 left2 >? Z.shiftr (max_period armpmu) 1
    then s64 (Z.shiftr (max_period armpmu) 1)
    else left2 in
  let hwc := set_prev_count (u64 (- left3)) hwc in
  (left3, set_hw hwc evt, ret).

Definition armpmu_event_set_period (e : nat) (w : world) : Z * world :=
  let '(left3, evt, ret) := set_period_event (mem w e) in
  let w := store e evt w in
  (ret, set_regs (write_counter armpmu evt (Z.land (u64 (- left3)) 4294967295) (regs w)) w).

(** *** armpmu_stop, armpmu_start *)

Definition armpmu_stop (e : nat) (flags : Z) (w : world) : world :=
  if Z.land (hwc_state (hw (mem w e))) PERF_HES_STOPPED =? 0 then
    let w := set_regs (disable armpmu (mem w e) (regs w)) w in
    let w := snd (armpmu_event_update e w) in
    let evt := mem w e in
    store e (set_hw (set_hwc_state
                       (Z.lor (hwc_state (hw evt))
                              (Z.lor PERF_HES_STOPPED PERF_HES_UPTODATE))
                       (hw evt)) evt) w
  else w.

Definition armpmu_start (e : nat) (flags : Z) (w : world) : world :=
  let evt := mem w e in
  let w := store e (set_hw (set_hwc_state 0 (hw evt)) evt) w in
  let w := snd (armpmu_event_set_period e w) in
  set_regs (enable armpmu (mem w e) (regs w)) w.

(** *** Inline helpers of the perf core

    [is_software_event], [is_sampling_event] and [has_branch_stack] are
    inline predicates of <linux/perf_event.h>; they are taken as given. *)
Variable is_software_event : perf_event -> bool.
Variable is_sampling_event : perf_event -> bool.
Variable has_branch_stack : perf_event -> bool.

(** *** armpmu_add *)

(** [cur] is [smp_processor_id()]; [this_cpu_ptr(armpmu->hw_events)] is
    [percpu w cur].  The strategy is handed the core's real [used_mask]. *)
Definition armpmu_add (e : nat) (flags : Z) (cur : Z) (w : world) : Z * world :=
  if negb (cpumask_test_cpu cur (supported_cpus armpmu)) then (- ENOENT, w)
  else
    let '(i, m) := get_event_idx armpmu (used_mask (percpu w cur)) (mem w e) in
    let w := set_percpu cur (set_used_mask m (percpu w cur)) w in
    if i <? 0 then (i, w)
    else
      let w := store e (set_hw (set_idx i (hw (mem w e))) (mem w e)) w in
      let w := set_percpu cur
                 (set_events (upd_Z i (Some e) (events (percpu w cur))) (percpu w cur)) w in
      let w := store e (set_hw (set_hwc_state
                                  (Z.lor PERF_HES_STOPPED PERF_HES_UPTODATE)
                                  (hw (mem w e))) (mem w e)) w in
      let w := if negb (Z.land flags PERF_EF_START =? 0)
               then armpmu_start e PERF_EF_RELOAD w
               else w in
      (0, w).

(** *** validate_event, validate_group *)

(** Returns the C truth value together with the scratch [used_mask] as the
    strategy left it.  [armpmu] is [to_arm_pmu(event->pmu)], reached only
    when [event->pmu == pmu]. *)
Definition validate_event (pmu_ : nat) (fake_used_mask : Z) (evt : perf_event)
  : Z * Z :=
  if is_software_event evt then (1, fake_used_mask)
  else if negb (Nat.eqb (pmu evt) pmu_) then (0, fake_used_mask)
  else if ev_state evt <? PERF_EVENT_STATE_OFF then (1, fake_used_mask)
  else if (ev_state evt =? PERF_EVENT_STATE_OFF) && negb (enable_on_exec (attr evt))
       then (1, fake_used_mask)
  else
    let '(i, m) := get_event_idx armpmu fake_used_mask evt in
    ((if i >=? 0 then 1 else 0), m).

(** The [list_for_each_entry] loop over the leader's siblings: [None] when
    the loop body returned [-EINVAL], otherwise the scratch mask after the
    last sibling. *)
Fixpoint validate_siblings (pmu_ : nat) (fake_used_mask : Z)
         (siblings : list perf_event) : option Z :=
  match siblings with
  | [] => Some fake_used_mask
  | sibling :: rest =>
      let '(ok, m) := validate_event pmu_ fake_used_mask sibling in
      if ok =? 0 then None else validate_siblings pmu_ m rest
  end.

Definition validate_group (e : nat) (w : world) : Z :=
  let event := mem w e in
  let leader := mem w (group_leader event) in
  let '(ok, m) := validate_event (pmu event) 0 leader in
  if ok =? 0 then - EINVAL
  else
    match validate_siblings (pmu event) m (map (mem w) (sibling_list leader)) with
    | None => - EINVAL
    | Some m =>
        let '(ok, _) := validate_event (pmu event) m event in
        if ok =? 0 then - EINVAL else 0
    end.

(** *** Admission: __hw_perf_event_init, armpmu_event_init *)

Definition event_requires_mode_exclusion (a : perf_event_attr) : bool :=
  exclude_idle a || exclude_user a || exclude_kernel a || exclude_hv a.

Definition __hw_perf_event_init (e : nat) (w : world) : Z * world :=
  let evt := mem w e in
  let mapping := map_event armpmu evt in
  if mapping <? 0 then (mapping, w)
  else
    let hwc := clear_hwc_config (hw evt) in
    let '(unfiltered, hwc) :=
      match set_event_filter armpmu with
      | None => (true, hwc)
      | Some f => let '(r, h) := f hwc (attr evt) in (negb (r =? 0), h)
      end in
    if unfiltered && event_requires_mode_exclusion (attr evt)
    then (- EOPNOTSUPP, store e (set_hw hwc evt) w)
    else
      let hwc := set_config_base (Z.lor (config_base hwc) mapping) hwc in
      let hwc :=
        if negb (is_sampling_event evt)
        then
          let p := Z.shiftr (max_period armpmu) 1 in
          set_period_left (s64 p) (set_last_period p (set_sample_period p hwc))
        else hwc in
      let w := store e (set_hw hwc evt) w in
      if negb (Nat.eqb (group_leader evt) e)
      then if negb (validate_group e w =? 0) then (- EINVAL, w) else (0, w)
      else (0, w).

Definition armpmu_event_init (e : nat) (w : world) : Z * world :=
  let evt := mem w e in
  if negb (cpu evt =? -1) && negb (cpumask_test_cpu (cpu evt) (supported_cpus armpmu))
  then (- ENOENT, w)
  else if has_branch_stack evt then (- EOPNOTSUPP, w)
  else if map_event armpmu evt =? - ENOENT then (- ENOENT, w)
  else __hw_perf_event_init e w.

(** *** Power-state notifier (CONFIG_CPU_PM) *)

(** One iteration of the [for] loop of [cpu_pm_pmu_setup]. *)
Definition cpu_pm_pmu_setup_slot (cmd : Z) (cur : Z) (w : world) (i : Z) : world :=
  let hw_events := percpu w cur in
  if negb (test_bit i (used_mask hw_events)) then w
  else
    match events hw_events i with
    | None => w
    | Some e =>
        if negb (ev_state (mem w e) =? PERF_EVENT_STATE_ACTIVE) then w
        else if cmd =? CPU_PM_ENTER then armpmu_stop e PERF_EF_UPDATE w
        else if (cmd =? CPU_PM_EXIT) || (cmd =? CPU_PM_ENTER_FAILED)
             then armpmu_start e PERF_EF_RELOAD w
        else w
    end.

Definition cpu_pm_pmu_setup (cmd : Z) (cur : Z) (w : world) : world :=
  fold_left (cpu_pm_pmu_setup_slot cmd cur)
            (map Z.of_nat (seq 0 (Z.to_nat (num_events armpmu)))) w.

(** Returns [data->ret] and the new world; [cur] is both [data->cpu] and
    the core whose [hw_events] [this_cpu_ptr] yields. *)
Definition cpu_pm_pmu_common (cmd : Z) (cur : Z) (w : world) : Z * world :=
  let enabled := bitmap_weight (used_mask (percpu w cur)) (num_events armpmu) in
  if negb (cpumask_test_cpu cur (supported_cpus armpmu)) then (NOTIFY_DONE, w)
  else
    let w :=
      match reset armpmu with
      | Some r => if cmd =? CPU_PM_EXIT then set_regs (r (regs w)) w else w
      | None => w
      end in
    if enabled =? 0 then (NOTIFY_OK, w)
    else if cmd =? CPU_PM_ENTER
         then (NOTIFY_OK, cpu_pm_pmu_setup cmd cur (set_regs (stop armpmu (regs w)) w))
    else if (cmd =? CPU_PM_EXIT) || (cmd =? CPU_PM_ENTER_FAILED)
         then let w := cpu_pm_pmu_setup cmd cur w in
              (NOTIFY_OK, set_regs (start armpmu (regs w)) w)
    else (NOTIFY_DONE, w).

End Driver.

Arguments armpmu_pmu {HW}.
Arguments name {HW}.
Arguments num_events {HW}.
Arguments max_period {HW}.
Arguments supported_cpus {HW}.
Arguments enable {HW}.
Arguments disable {HW}.
Arguments read_counter {HW}.
Arguments write_counter {HW}.
Arguments get_event_idx {HW}.
Arguments set_event_filter {HW}.
Arguments map_event {HW}.
Arguments start {HW}.
Arguments stop {HW}.
Arguments reset {HW}.
Arguments regs {HW}.
Arguments mem {HW}.
Arguments percpu {HW}.
Arguments set_regs {HW}.
Arguments store {HW}.
Arguments set_percpu {HW}.
Arguments event_update_commit {HW}.
Arguments armpmu_event_update_loop {HW}.
Arguments armpmu_event_update {HW}.
Arguments set_period_event {HW}.
Arguments armpmu_event_set_period {HW}.
Arguments armpmu_stop {HW}.
Arguments armpmu_start {HW}.
Arguments armpmu_add {HW}.
Arguments validate_event {HW}.
Arguments validate_siblings {HW}.
Arguments validate_group {HW}.
Arguments __hw_perf_event_init {HW}.
Arguments armpmu_event_init {HW}.
Arguments cpu_pm_pmu_setup_slot {HW}.
Arguments cpu_pm_pmu_setup {HW}.
Arguments cpu_pm_pmu_common {HW}.

(** ** EventMapper *)

Section EventMapper.

(** Enumeration bounds and sentinels of <linux/perf_event.h> and
    <linux/perf/arm_pmu.h>, taken as given. *)
Variable PERF_COUNT_HW_MAX : Z.
Variable PERF_COUNT_HW_CACHE_MAX : Z.
Variable PERF_COUNT_HW_CACHE_OP_MAX : Z.
Variable PERF_COUNT_HW_CACHE_RESULT_MAX : Z.
Variable HW_OP_UNSUPPORTED : Z.
Variable CACHE_OP_UNSUPPORTED : Z.

(** The three [unsigned int] locals of [armpmu_map_cache_event]. *)
Definition cache_type (config : Z) : Z := Z.land (Z.shiftr config 0) 255.
Definition cache_op (config : Z) : Z := Z.land (Z.shiftr config 8) 255.
Definition cache_result (config : Z) : Z := Z.land (Z.shiftr config 16) 255.

(** [cache_map] is [None] for a NULL table pointer.  [ret] is an
    [unsigned int]; the function returns it as an [int]. *)
Definition armpmu_map_cache_event (cache_map : option (Z -> Z -> Z -> Z)) (config : Z)
  : Z :=
  if cache_type config >=? PERF_COUNT_HW_CACHE_MAX then - EINVAL
  else if cache_op config >=? PERF_COUNT_HW_CACHE_OP_MAX then - EINVAL
  else if cache_result config >=? PERF_COUNT_HW_CACHE_RESULT_MAX then - EINVAL
  else
    match cache_map with
    | None => - ENOENT
    | Some tbl =>
        let ret := u32 (tbl (cache_type config) (cache_op config) (cache_result config)) in
        if ret =? CACHE_OP_UNSUPPORTED then - ENOENT else s32 ret
    end.

Definition armpmu_map_hw_event (event_map : option (Z -> Z)) (config : Z) : Z :=
  if config >=? PERF_COUNT_HW_MAX then - EINVAL
  else
    match event_map with
    | None => - ENOENT
    | Some tbl =>
        let mapping := s32 (tbl config) in
        if mapping =? HW_OP_UNSUPPORTED then - ENOENT else mapping
    end.

Definition armpmu_map_raw_event (raw_event_mask : Z) (config : Z) : Z :=
  s32 (Z.land config raw_event_mask).

(** [pmu_type] is [event->pmu->type]. *)
Definition armpmu_map_event (pmu_type : Z) (a : perf_event_attr)
           (event_map : option (Z -> Z)) (cache_map : option (Z -> Z -> Z -> Z))
           (raw_event_mask : Z) : Z :=
  let config := attr_config a in
  let type := s32 (attr_type a) in
  if type =? pmu_type then armpmu_map_raw_event raw_event_mask config
  else if type =? PERF_TYPE_HARDWARE then armpmu_map_hw_event event_map config
  else if type =? PERF_TYPE_HW_CACHE then armpmu_map_cache_event cache_map config
  else if type =? PERF_TYPE_RAW then armpmu_map_raw_event raw_event_mask config
  else - ENOENT.

End EventMapper.

(** ** InterruptRouter: armpmu_request_irq *)

(** [enum arm_pmu_state]. *)
Inductive arm_pmu_state :=
  | ARM_PMU_STATE_OFF
  | ARM_PMU_STATE_GOING_DOWN
  | ARM_PMU_STATE_RUNNING.

(** The mutable fields of [struct arm_pmu]. *)
Record arm_pmu_irqs := {
  pmu_state : arm_pmu_state;
  percpu_irq : Z;
  active_irqs : Z
}.

(** What the interrupt core and the platform answer: the results of
    [irq_is_percpu], [request_percpu_irq], [irq_force_affinity] and
    [request_irq] (by line, flags and core), [num_possible_cpus()],
    [nr_cpu_ids], and [platdata->irq_flags] ([None] when there is no
    platform data). *)
Record irq_core := {
  irq_is_percpu : Z -> bool;
  request_percpu_irq : Z -> Z;
  irq_force_affinity : Z -> Z -> Z;
  request_irq : Z -> Z -> Z -> Z;
  num_possible_cpus : Z;
  nr_cpu_ids : nat;
  platdata_irq_flags : option Z
}.

(** The code from the test of [err] after the three branches on. *)
Definition request_irq_finish (err : Z) (cur : Z) (st : arm_pmu_irqs)
  : Z * arm_pmu_irqs :=
  if negb (err =? 0) then (err, st)
  else (0, {| pmu_state := ARM_PMU_STATE_RUNNING;
              percpu_irq := percpu_irq st;
              active_irqs := cpumask_set_cpu cur (active_irqs st) |}).

(** [cpu_irq c] is [per_cpu(hw_events->irq, c)]. *)
Definition armpmu_request_irq (ic : irq_core) (cpu_irq : Z -> Z) (cur : Z)
           (st : arm_pmu_irqs) : Z * arm_pmu_irqs :=
  let irq_ := cpu_irq cur in
  if irq_ =? 0 then (0, st)
  else if irq_is_percpu ic irq_ && cpumask_empty (active_irqs st) then
    let err := request_percpu_irq ic irq_ in
    let st := {| pmu_state := pmu_state st; percpu_irq := irq_;
                 active_irqs := active_irqs st |} in
    request_irq_finish err cur st
  else if irq_is_percpu ic irq_ then
    let other_cpu := cpumask_first (nr_cpu_ids ic) (active_irqs st) in
    let other_irq := cpu_irq other_cpu in
    if negb (irq_ =? other_irq) then (- EINVAL, st)
    else request_irq_finish 0 cur st
  else
    let err := irq_force_affinity ic irq_ cur in
    if negb (err =? 0) && (num_possible_cpus ic >? 1) then (err, st)
    else
      let irq_flags :=
        match platdata_irq_flags ic with
        | Some f => if negb (f =? 0) then f
                    else Z.lor IRQF_PERCPU (Z.lor IRQF_NOBALANCING IRQF_NO_THREAD)
        | None => Z.lor IRQF_PERCPU (Z.lor IRQF_NOBALANCING IRQF_NO_THREAD)
        end in
      let err := request_irq ic irq_ irq_flags cur in
      request_irq_finish err cur st.

(** ** Registration and the legacy queries *)

Section Registration.

Variable HW : Type.

(** The banks in memory, by address. *)
Variable banks : nat -> arm_pmu HW.

(** The results of the three external calls of one [armpmu_register]. *)
Record register_results := {
  cpuhp_state_add_instance : Z;
  cpu_pm_register_notifier : Z;
  perf_pmu_register : Z
}.

Definition cpu_pmu_init (r : register_results) : Z :=
  let err := cpuhp_state_add_instance r in
  if negb (err =? 0) then err
  else
    let err := cpu_pm_register_notifier r in
    if negb (err =? 0) then err else 0.

(** The state is the pointer [__oprofile_cpu_pmu]; [None] is NULL. *)
Definition armpmu_register (p : nat) (r : register_results)
           (__oprofile_cpu_pmu : option nat) : Z * option nat :=
  let ret := cpu_pmu_init r in
  if negb (ret =? 0) then (ret, __oprofile_cpu_pmu)
  else
    let ret := perf_pmu_register r in
    if negb (ret =? 0) then (ret, __oprofile_cpu_pmu)
    else (0, match __oprofile_cpu_pmu with
             | None => Some p
             | Some q => Some q
             end).

Definition perf_pmu_name (__oprofile_cpu_pmu : option nat) : option string :=
  match __oprofile_cpu_pmu with
  | None => None
  | Some p => Some (name (banks p))
  end.

Definition perf_num_counters (__oprofile_cpu_pmu : option nat) : Z :=
  match __oprofile_cpu_pmu with
  | Some p => num_events (banks p)
  | None => 0
  end.

(** A run of registrations, in order. *)
Definition register_all (rs : list (nat * register_results)) (g : option nat)
  : option nat :=
  fold_left (fun g pr => snd (armpmu_register (fst pr) (snd pr) g)) rs g.

End Registration.

(** ** The remaining callbacks of the bank *)

Section Callbacks.

Variable HW : Type.
Variable armpmu : arm_pmu HW.

(** *** armpmu_read *)

Definition armpmu_read (e : nat) (w : world HW) : world HW :=
  snd (armpmu_event_update armpmu e w).

(** *** armpmu_del

    [clear_event_idx] is the optional hook of [struct arm_pmu] of that
    name; [idx] is read from the event before it is stopped. *)
Definition armpmu_del
           (clear_event_idx : option (pmu_hw_events -> perf_event -> pmu_hw_events))
           (e : nat) (flags : Z) (cur : Z) (w : world HW) : world HW :=
  let i := idx (hw (mem w e)) in
  let w := armpmu_stop armpmu e PERF_EF_UPDATE w in
  let w := set_percpu cur
             (set_events (upd_Z i None (events (percpu w cur))) (percpu w cur)) w in
  let w := set_percpu cur
             (set_used_mask (Z.clearbit (used_mask (percpu w cur)) i) (percpu w cur)) w in
  match clear_event_idx with
  | Some f => set_percpu cur (f (percpu w cur) (mem w e)) w
  | None => w
  end.

(** *** armpmu_enable, armpmu_disable, armpmu_filter_match

    The [pmu_enable] and [pmu_disable] callbacks; [cur] is
    [smp_processor_id()]. *)
Definition armpmu_enable (cur : Z) (w : world HW) : world HW :=
  let enabled := bitmap_weight (used_mask (percpu w cur)) (num_events armpmu) in
  if negb (cpumask_test_cpu cur (supported_cpus armpmu)) then w
  else if negb (enabled =? 0) then set_regs (start armpmu (regs w)) w
  else w.

Definition armpmu_disable (cur : Z) (w : world HW) : world HW :=
  if negb (cpumask_test_cpu cur (supported_cpus armpmu)) then w
  else set_regs (stop armpmu (regs w)) w.

(** [filter_match] is the optional hook of [struct arm_pmu] of that name. *)
Definition armpmu_filter_match (filter_match : option (perf_event -> Z))
           (cur : Z) (evt : perf_event) : Z :=
  let ret := if cpumask_test_cpu cur (supported_cpus armpmu) then 1 else 0 in
  match filter_match with
  | Some f => if negb (ret =? 0) then f evt else ret
  | None => ret
  end.

End Callbacks.

Arguments armpmu_read {HW}.
Arguments armpmu_del {HW}.
Arguments armpmu_enable {HW}.
Arguments armpmu_disable {HW}.
Arguments armpmu_filter_match {HW}.

(** ** InterruptRouter: release, bring-up of all cores, hotplug *)

(** The calls made to the interrupt core, in the order made. *)
Inductive irq_call :=
  | FreePercpuIrq (i : Z)
  | FreeIrq (i : Z) (c : Z)
  | EnablePercpuIrq (i : Z)
  | DisablePercpuIrq (i : Z).

Definition arm_pmu_state_eqb (a b : arm_pmu_state) : bool :=
  match a, b with
  | ARM_PMU_STATE_OFF, ARM_PMU_STATE_OFF => true
  | ARM_PMU_STATE_GOING_DOWN, ARM_PMU_STATE_GOING_DOWN => true
  | ARM_PMU_STATE_RUNNING, ARM_PMU_STATE_RUNNING => true
  | _, _ => false
  end.

(** [for_each_cpu(cpu, mask)]: the set bits of [mask] below [nr_cpu_ids],
    in increasing order. *)
Definition for_each_cpu (nr : nat) (mask : Z) : list Z :=
  filter (fun c => Z.testbit mask c) (map Z.of_nat (seq 0 nr)).

(** [cpumask_test_and_clear_cpu] followed by the rest of
    [armpmu_free_irq]; the state passes through
    [ARM_PMU_STATE_GOING_DOWN] before either branch sets it OFF. *)
Definition armpmu_free_irq (ic : irq_core) (cpu_irq : Z -> Z) (cur : Z)
           (st : arm_pmu_irqs) : arm_pmu_irqs * list irq_call :=
  let irq_ := cpu_irq cur in
  if negb (cpumask_test_cpu cur (active_irqs st)) then (st, [])
  else
    let st := {| pmu_state := ARM_PMU_STATE_GOING_DOWN;
                 percpu_irq := percpu_irq st;
                 active_irqs := Z.clearbit (active_irqs st) cur |} in
    if irq_is_percpu ic irq_
    then ({| pmu_state := ARM_PMU_STATE_OFF; percpu_irq := -1; active_irqs := 0 |},
          [FreePercpuIrq irq_])
    else ({| pmu_state := ARM_PMU_STATE_OFF; percpu_irq := percpu_irq st;
             active_irqs := active_irqs st |},
          [FreeIrq irq_ cur]).

Definition armpmu_free_irqs (ic : irq_core) (cpu_irq : Z -> Z) (supported : Z)
           (st : arm_pmu_irqs) : arm_pmu_irqs * list irq_call :=
  fold_left
    (fun acc c =>
       let '(st', calls) := armpmu_free_irq ic cpu_irq c (fst acc) in
       (st', snd acc ++ calls))
    (for_each_cpu (nr_cpu_ids ic) supported) (st, []).

(** The loop of [armpmu_request_irqs] over the cores still to visit.
    [err] is the current value of the local of that name. *)
Fixpoint armpmu_request_irqs_loop (ic : irq_core) (cpu_irq : Z -> Z)
         (cpus : list Z) (err : Z) (st : arm_pmu_irqs) : Z * arm_pmu_irqs :=
  match cpus with
  | [] => (err, st)
  | c :: rest =>
      let '(err, st) := armpmu_request_irq ic cpu_irq c st in
      if negb (err =? 0) then (err, st)
      else armpmu_request_irqs_loop ic cpu_irq rest err st
  end.

(** [err] is not initialised in the source: the value it holds when the
    loop is entered is the parameter [err0]. *)
Definition armpmu_request_irqs (ic : irq_core) (cpu_irq : Z -> Z) (supported : Z)
           (err0 : Z) (st : arm_pmu_irqs) : Z * arm_pmu_irqs :=
  armpmu_request_irqs_loop ic cpu_irq (for_each_cpu (nr_cpu_ids ic) supported) err0 st.

(** [armpmu_alloc], the fields modelled here: [None] when an allocation
    fails, otherwise the zeroed bank with [pmu_state] OFF and
    [percpu_irq = -1]. *)
Definition armpmu_alloc (kzalloc_ok alloc_percpu_ok : bool) : option arm_pmu_irqs :=
  if negb kzalloc_ok then None
  else if negb alloc_percpu_ok then None
  else Some {| pmu_state := ARM_PMU_STATE_OFF; percpu_irq := -1; active_irqs := 0 |}.

Section Hotplug.

Variable HW : Type.

(** [pmu] is [None] when [hlist_entry_safe] yields NULL; [plat_device]
    tells whether [armpmu->plat_device] is set.  The result is the return
    value, the registers after the reset hook, and the calls made. *)
Definition arm_perf_starting_cpu (ic : irq_core) (c : Z) (pmu_ : option (arm_pmu HW))
           (st : arm_pmu_irqs) (plat_device : bool) (r : HW)
  : Z * HW * list irq_call :=
  match pmu_ with
  | None => (0, r, [])
  | Some p =>
      if negb (cpumask_test_cpu c (supported_cpus p)) then (0, r, [])
      else
        let r := match reset p with Some f => f r | None => r end in
        if negb (arm_pmu_state_eqb (pmu_state st) ARM_PMU_STATE_OFF) && plat_device
        then
          let irq_ := percpu_irq st in
          if (irq_ >? 0) && irq_is_percpu ic irq_
          then (0, r, [EnablePercpuIrq irq_])
          else (0, r, [])
        else (0, r, [])
  end.

Definition arm_perf_stopping_cpu (ic : irq_core) (c : Z) (pmu_ : option (arm_pmu HW))
           (st : arm_pmu_irqs) (plat_device : bool) (r : HW)
  : Z * HW * list irq_call :=
  match pmu_ with
  | None => (0, r, [])
  | Some p =>
      if negb (cpumask_test_cpu c (supported_cpus p)) then (0, r, [])
      else if arm_pmu_state_eqb (pmu_state st) ARM_PMU_STATE_RUNNING && plat_device
      then
        let irq_ := percpu_irq st in
        if (irq_ >? 0) && irq_is_percpu ic irq_
        then (0, r, [DisablePercpuIrq irq_])
        else (0, r, [])
      else (0, r, [])
  end.

End Hotplug.

Arguments arm_perf_starting_cpu {HW}.
Arguments arm_perf_stopping_cpu {HW}.

(** ** Registration: the calls made

    The external calls of [cpu_pmu_init], [cpu_pmu_destroy] and
    [armpmu_register], in the order made, with the return value. *)
Inductive register_call :=
  | CpuhpAddInstance
  | CpuhpRemoveInstance
  | CpuPmRegister
  | CpuPmUnregister
  | PerfPmuRegister.

Definition cpu_pmu_init_calls (r : register_results) : Z * list register_call :=
  let err := cpuhp_state_add_instance r in
  if negb (err =? 0) then (err, [CpuhpAddInstance])
  else
    let err := cpu_pm_register_notifier r in
    if negb (err =? 0)
    then (err, [CpuhpAddInstance; CpuPmRegister; CpuhpRemoveInstance])
    else (0, [CpuhpAddInstance; CpuPmRegister]).

Definition cpu_pmu_destroy_calls : list register_call :=
  [CpuPmUnregister; CpuhpRemoveInstance].

Definition armpmu_register_calls (r : register_results) : Z * list register_call :=
  let '(ret, calls) := cpu_pmu_init_calls r in
  if negb (ret =? 0) then (ret, calls)
  else
    let ret := perf_pmu_register r in
    if negb (ret =? 0)
    then (ret, calls ++ [PerfPmuRegister] ++ cpu_pmu_destroy_calls)
    else (0, calls ++ [PerfPmuRegister]).

(** ** PeriodAccountant.arm in the words of the specification

    "If [period_left <= -period], reset [period_left = period] and flag
    overflow.  If [period_left <= 0], add one full period and flag
    overflow."  The result is the reconciled [period_left] and the
    overflow flag. *)
Definition arm_reconcile (left0 period : Z) : Z * bool :=
  let left1 := if left0 <=? - period then period else left0 in
  let overflow := left0 <=? - period in
  if left1 <=? 0 then (left1 + period, true) else (left1, overflow).

(** "Clamp the value actually programmed into hardware to at most half of
    [max_period]." *)
Definition arm_clamp (maxp left0 : Z) : Z := Z.min left0 (Z.shiftr maxp 1).

(** ** Lifecycle predicates used in the statements *)

(** [evt1] is [evt0] after an [armpmu_stop] that found it running: for some
    state [r] of the registers, the raw value read there was accounted
    and both PERF_HES_STOPPED and PERF_HES_UPTODATE were set. *)
Definition stopped_from {HW : Type} (armpmu : arm_pmu HW) (evt0 evt1 : perf_event)
  : Prop :=
  exists r : HW,
    let new := u64 (read_counter armpmu evt0 r) in
    let delta := Z.land (u64 (new - prev_count (hw evt0))) (max_period armpmu) in
    evt1 =
    set_hw (set_hwc_state
              (Z.lor (hwc_state (hw evt0)) (Z.lor PERF_HES_STOPPED PERF_HES_UPTODATE))
              (set_period_left (s64 (period_left (hw evt0) - delta))
                               (set_prev_count new (hw evt0))))
           (set_count (u64 (count evt0 + delta)) evt0).

(** [evt] is as [armpmu_start] leaves an event: no lifecycle flag set, and
    [prev_count] holding the two's complement of [period_left] limited to
    [max_period >> 1]. *)
Definition armed {HW : Type} (armpmu : arm_pmu HW) (evt : perf_event) : Prop :=
  hwc_state (hw evt) = 0 /\
  prev_count (hw evt) =
  u64 (- (if u64 (period_left (hw evt)) >? Z.shiftr (max_period armpmu) 1
          then s64 (Z.shiftr (max_period armpmu) 1)
          else period_left (hw evt))).

(** What the entry loop of [cpu_pm_pmu_setup] maintains about event [e],
    from the world [w0] it started in: the per-core state and every
    scheduler state are those of [w0], and [e] is either untouched or
    stopped from what it was in [w0]. *)
Definition enter_inv {HW : Type} (armpmu : arm_pmu HW) (e : nat) (w0 w : world HW)
  : Prop :=
  percpu w = percpu w0 /\
  (forall x, ev_state (mem w x) = ev_state (mem w0 x)) /\
  (mem w e = mem w0 e \/ stopped_from armpmu (mem w0 e) (mem w e)).

(** What the exit loop maintains: per-core state, scheduler states and the
    running total of [e]. *)
Definition exit_inv {HW : Type} (e : nat) (w0 w : world HW) : Prop :=
  percpu w = percpu w0 /\
  (forall x, ev_state (mem w x) = ev_state (mem w0 x)) /\
  count (mem w e) = count (mem w0 e).

(** The loop of [cpu_pm_pmu_setup] cut at slot [i]: the world in which the
    loop reaches slot [i], the slots below it visited, and the rest of the
    loop from slot [i] on. *)
Definition cpu_pm_pmu_setup_upto {HW : Type} (armpmu : arm_pmu HW) (cmd cur i : Z)
           (w : world HW) : world HW :=
  fold_left (cpu_pm_pmu_setup_slot armpmu cmd cur)
            (map Z.of_nat (seq 0 (Z.to_nat i))) w.

Definition cpu_pm_pmu_setup_from {HW : Type} (armpmu : arm_pmu HW) (cmd cur i : Z)
           (w : world HW) : world HW :=
  fold_left (cpu_pm_pmu_setup_slot armpmu cmd cur)
            (map Z.of_nat (seq (Z.to_nat i)
                               (Z.to_nat (num_events armpmu) - Z.to_nat i))) w.

(** ** GroupValidator in the words of the specification

    "Validation of the whole group fails atomically if any member fails":
    the members validate one after the other against one scratch map, each
    seeing it as the members before left it. *)
Fixpoint members_validate {HW : Type} (armpmu : arm_pmu HW)
         (is_software_event : perf_event -> bool) (pmu_ : nat) (scratch : Z)
         (members : list perf_event) : bool :=
  match members with
  | [] => true
  | x :: rest =>
      negb (fst (validate_event armpmu is_software_event pmu_ scratch x) =? 0) &&
      members_validate armpmu is_software_event pmu_
        (snd (validate_event armpmu is_software_event pmu_ scratch x)) rest
  end.

(** A strategy for a bank of [n] slots: a slot it hands out is below [n],
    was free in the map it was given, and is marked in the map it
    returns. *)
Definition slot_strategy {HW : Type} (armpmu : arm_pmu HW) (n : nat) : Prop :=
  forall (m : Z) (evt : perf_event),
    0 <= fst (get_event_idx armpmu m evt) ->
    fst (get_event_idx armpmu m evt) < Z.of_nat n /\
    Z.testbit m (fst (get_event_idx armpmu m evt)) = false /\
    snd (get_event_idx armpmu m evt) = Z.setbit m (fst (get_event_idx armpmu m evt)).

(** A member that competes for a slot: backed by hardware, and neither in
    a state below PERF_EVENT_STATE_OFF nor off without enable-on-exec. *)
Definition competes (is_software_event : perf_event -> bool) (evt : perf_event)
  : bool :=
  negb (is_software_event evt) &&
  negb (ev_state evt <? PERF_EVENT_STATE_OFF) &&
  negb ((ev_state evt =? PERF_EVENT_STATE_OFF) && negb (enable_on_exec (attr evt))).

(** ** The error taxonomy of the specification

    The kinds of error the specification names for mapping and admission,
    and the kind of a return value of the EventMapper and of admission:
    [-ENOENT], which the EventMapper returns for a sentinel entry or a
    missing table, is NotSupported; [-EINVAL] is InvalidArgument;
    [-EOPNOTSUPP] is NotImplemented. *)
Inductive error_kind :=
  | NotSupported
  | InvalidArgument
  | NotImplemented.

Definition error_kind_of (ret : Z) : option error_kind :=
  if ret =? - ENOENT then Some NotSupported
  else if ret =? - EINVAL then Some InvalidArgument
  else if ret =? - EOPNOTSUPP then Some NotImplemented
  else None.

(** ** Registration in the words of the claim

    The first bank of a run of registrations whose registration
    succeeded, that is, whose three external calls all returned [0]. *)
Fixpoint first_registered (rs : list (nat * register_results)) : option nat :=
  match rs with
  | [] => None
  | (p, r) :: rest =>
      if (cpuhp_state_add_instance r =? 0) && (cpu_pm_register_notifier r =? 0)
         && (perf_pmu_register r =? 0)
      then Some p
      else first_registered rest
  end.

(** ** Invariants of the per-core slot state

    Every slot that has an owner is marked in [used_mask]. *)
Definition slots_owned (c : pmu_hw_events) : Prop :=
  forall (j : Z) (x : nat), events c j = Some x -> Z.testbit (used_mask c) j = true.

(** No event owns two slots. *)
Definition slots_exclusive (c : pmu_hw_events) : Prop :=
  forall (j j' : Z) (x : nat),
    events c j = Some x -> events c j' = Some x -> j = j'.

(** A strategy that hands out only free slots of an [n]-slot bank and
    leaves the map alone when it has none to hand out. *)
Definition honest_strategy {HW : Type} (armpmu : arm_pmu HW) (n : nat) : Prop :=
  slot_strategy armpmu n /\
  forall (m : Z) (evt : perf_event),
    fst (get_event_idx armpmu m evt) < 0 -> snd (get_event_idx armpmu m evt) = m.

(** A strategy that finds a slot whenever fewer than [n] are taken. *)
Definition finds_free_slot {HW : Type} (armpmu : arm_pmu HW) (n : nat) : Prop :=
  forall (m : Z) (evt : perf_event),
    bitmap_weight_nat m n < Z.of_nat n -> 0 <= fst (get_event_idx armpmu m evt).

(** A member that validates without a slot whatever the strategy does:
    a software event, or an event of the PMU [p] that is in a state below
    PERF_EVENT_STATE_OFF or off without enable-on-exec. *)
Definition takes_no_slot (is_software_event : perf_event -> bool) (p : nat)
           (evt : perf_event) : bool :=
  is_software_event evt ||
  (Nat.eqb (pmu evt) p &&
   ((ev_state evt <? PERF_EVENT_STATE_OFF) ||
    ((ev_state evt =? PERF_EVENT_STATE_OFF) && negb (enable_on_exec (attr evt))))).

(** ** What the registration calls leave registered

    The hotplug instance, the power-state notifier and the PMU itself: a
    registering call takes effect when it returned [0], a removing call
    always does. *)
Record registrations := {
  hp_instance : bool;
  pm_notifier : bool;
  perf_pmu : bool
}.

Definition apply_register_call (r : register_results) (s : registrations)
           (c : register_call) : registrations :=
  match c with
  | CpuhpAddInstance =>
      if cpuhp_state_add_instance r =? 0
      then {| hp_instance := true; pm_notifier := pm_notifier s; perf_pmu := perf_pmu s |}
      else s
  | CpuhpRemoveInstance =>
      {| hp_instance := false; pm_notifier := pm_notifier s; perf_pmu := perf_pmu s |}
  | CpuPmRegister =>
      if cpu_pm_register_notifier r =? 0
      then {| hp_instance := hp_instance s; pm_notifier := true; perf_pmu := perf_pmu s |}
      else s
  | CpuPmUnregister =>
      {| hp_instance := hp_instance s; pm_notifier := false; perf_pmu := perf_pmu s |}
  | PerfPmuRegister =>
      if perf_pmu_register r =? 0
      then {| hp_instance := hp_instance s; pm_notifier := pm_notifier s; perf_pmu := true |}
      else s
  end.

Definition nothing_registered : registrations :=
  {| hp_instance := false; pm_notifier := false; perf_pmu := false |}.

(** ** Sample banks and events

    A bank whose register file is the record of the capability calls made
    on it, most recent first.  A counter reads back the value last written
    to it.  The strategy is first-fit over [n] slots.  These instances run
    the definitions above on concrete inputs. *)

Inductive hw_op :=
  | HwEnable (i : Z)
  | HwDisable (i : Z)
  | HwWrite (i v : Z)
  | HwStart
  | HwStop
  | HwReset.

Fixpoint last_written (i : Z) (t : list hw_op) : Z :=
  match t with
  | [] => 0
  | HwWrite j v :: r => if j =? i then v else last_written i r
  | _ :: r => last_written i r
  end.

Fixpoint first_fit (m : Z) (i : Z) (n : nat) : Z * Z :=
  match n with
  | O => (-11, m)
  | S k => if Z.testbit m i then first_fit m (i + 1) k else (i, Z.setbit m i)
  end.

Definition sample_bank (addr : nat) (n : nat) (maxp cpus : Z)
           (strategy : Z -> perf_event -> Z * Z) (mapping : perf_event -> Z)
  : arm_pmu (list hw_op) :=
  {| armpmu_pmu := addr;
     name := "sample"%string;
     num_events := Z.of_nat n;
     max_period := maxp;
     supported_cpus := cpus;
     enable := fun evt t => HwEnable (idx (hw evt)) :: t;
     disable := fun evt t => HwDisable (idx (hw evt)) :: t;
     read_counter := fun evt t => last_written (idx (hw evt)) t;
     write_counter := fun evt v t => HwWrite (idx (hw evt)) v :: t;
     get_event_idx := strategy;
     set_event_filter := None;
     map_event := mapping;
     start := fun t => HwStart :: t;
     stop := fun t => HwStop :: t;
     reset := Some (fun t => HwReset :: t) |}.

Definition sample_attr (eoe : bool) (stype : Z) : perf_event_attr :=
  {| attr_type := 4; attr_config := 17; attr_sample_period := 0;
     sample_type := stype; enable_on_exec := eoe;
     exclude_idle := false; exclude_user := false;
     exclude_kernel := false; exclude_hv := false |}.

Definition sample_hwc (i st period left prev : Z) : hw_perf_event :=
  {| idx := i; hwc_state := st; sample_period := period; last_period := period;
     period_left := left; prev_count := prev;
     config_base := 0; config := 0; event_base := 0 |}.

Definition sample_event (a : perf_event_attr) (h : hw_perf_event)
           (total st c : Z) (p leader : nat) (sibs : list nat) : perf_event :=
  {| attr := a; hw := h; count := total; ev_state := st; cpu := c;
     pmu := p; group_leader := leader; sibling_list := sibs |}.

(** The helper predicates as the perf core defines them on the fields
    modelled here; the software PMU sits at address [0]. *)
Definition sample_is_software (evt : perf_event) : bool := Nat.eqb (pmu evt) 0.
Definition sample_is_sampling (evt : perf_event) : bool :=
  negb (attr_sample_period (attr evt) =? 0).
Definition sample_has_branch_stack (evt : perf_event) : bool :=
  negb (Z.land (sample_type (attr evt)) 2048 =? 0).

Definition sample_world (t : list hw_op) (m : nat -> perf_event)
           (c : Z -> pmu_hw_events) : world (list hw_op) :=
  {| regs := t; mem := m; percpu := c |}.

(** A 32-bit bank of four slots serving cores 0 to 3, and an event armed
    on slot 0 with a period of 1000 whose counter has since wrapped past
    zero and reads 100. *)
Definition bank32 : arm_pmu (list hw_op) :=
  sample_bank 1 4 4294967295 15 (fun m _ => first_fit m 0 4) (fun _ => 17).

Definition armed_event : perf_event :=
  sample_event (sample_attr false 0)
               (sample_hwc 0 0 1000 1000 18446744073709550616)
               5000 PERF_EVENT_STATE_ACTIVE (-1) 1 7 [].

Definition idle_percpu : Z -> pmu_hw_events :=
  fun _ => {| events := fun _ => None; used_mask := 0; irq := 0 |}.

Definition wrapped_world : world (list hw_op) :=
  sample_world [HwWrite 0 100] (fun _ => armed_event) idle_percpu.

(** What the overflow handler does to event 7: update, then re-arm. *)
Definition overflow_irq (w : world (list hw_op)) : world (list hw_op) :=
  snd (armpmu_event_set_period bank32 7 (snd (armpmu_event_update bank32 7 w))).

(** An event initialised with a period of 1000 and not yet armed. *)
Definition fresh_event : perf_event :=
  sample_event (sample_attr false 0) (sample_hwc 0 3 1000 1000 0)
               0 PERF_EVENT_STATE_INACTIVE (-1) 1 7 [].

Definition fresh_world : world (list hw_op) :=
  sample_world [] (fun _ => fresh_event) idle_percpu.

(** A group on the bank at address 1: leader at address 1 with siblings
    2 and 3, candidate at address 4; every member has the scheduler state
    [st] and the enable-on-exec bit [eoe]. *)
Definition group_member (st : Z) (eoe : bool) (sibs : list nat) : perf_event :=
  sample_event (sample_attr eoe 0) (sample_hwc (-1) 0 1000 1000 0)
               0 st (-1) 1 1 sibs.

Definition group_world (st : Z) (eoe : bool) : world (list hw_op) :=
  sample_world []
    (fun a => if Nat.eqb a 1 then group_member st eoe [2; 3]%nat
              else group_member st eoe [])
    idle_percpu.

(** Three slots, first fit. *)
Definition bank3 : arm_pmu (list hw_op) :=
  sample_bank 1 3 4294967295 15 (fun m _ => first_fit m 0 3) (fun _ => 17).

(** A bank whose strategy never finds a slot. *)
Definition full_bank : arm_pmu (list hw_op) :=
  sample_bank 1 3 4294967295 15 (fun m _ => (-11, m)) (fun _ => 17).

(** Core 0 with slot 0 in use by the event at address 7. *)
Definition one_slot_percpu : Z -> pmu_hw_events :=
  fun c =>
    if c =? 0
    then {| events := fun i => if i =? 0 then Some 7%nat else None;
            used_mask := 1; irq := 0 |}
    else idle_percpu c.

Definition counting_world : world (list hw_op) :=
  sample_world [HwEnable 0; HwWrite 0 4294966296] (fun _ => armed_event) one_slot_percpu.

(** An event bound to core 5, which [bank32] does not serve, asking for
    branch-stack sampling (PERF_SAMPLE_BRANCH_STACK is bit 11), and the
    same request following a task ([cpu = -1]). *)
Definition branch_event (c : Z) : perf_event :=
  sample_event (sample_attr false 2048) (sample_hwc (-1) 0 0 0 0)
               0 PERF_EVENT_STATE_OFF c 1 7 [].

Definition branch_world (c : Z) : world (list hw_op) :=
  sample_world [] (fun _ => branch_event c) idle_percpu.

(** An interrupt core on which every line is a per-cpu line and every
    request is refused with [-EBUSY]; a bank that holds no line; every
    core wired to line 23. *)
Definition busy_irq_core : irq_core :=
  {| irq_is_percpu := fun _ => true;
     request_percpu_irq := fun _ => - EBUSY;
     irq_force_affinity := fun _ _ => 0;
     request_irq := fun _ _ _ => - EBUSY;
     num_possible_cpus := 4;
     nr_cpu_ids := 4;
     platdata_irq_flags := None |}.

Definition no_line : arm_pmu_irqs :=
  {| pmu_state := ARM_PMU_STATE_OFF; percpu_irq := -1; active_irqs := 0 |}.

(** An interrupt core that grants every request; lines from 16 to 31 are
    per-cpu lines. *)
Definition granting_irq_core : irq_core :=
  {| irq_is_percpu := fun i => (16 <=? i) && (i <? 32);
     request_percpu_irq := fun _ => 0;
     irq_force_affinity := fun _ _ => 0;
     request_irq := fun _ _ _ => 0;
     num_possible_cpus := 4;
     nr_cpu_ids := 4;
     platdata_irq_flags := None |}.

(** The running group of [group_world] with the sibling at address 3 on
    the PMU at address 2. *)
Definition mixed_group_world : world (list hw_op) :=
  sample_world []
    (fun a => if Nat.eqb a 1 then group_member PERF_EVENT_STATE_ACTIVE false [2; 3]%nat
              else if Nat.eqb a 3
                   then sample_event (sample_attr false 0) (sample_hwc (-1) 0 1000 1000 0)
                                     0 PERF_EVENT_STATE_ACTIVE (-1) 2 1 []
                   else group_member PERF_EVENT_STATE_ACTIVE false [])
    idle_percpu.

(** Core 0 wired to the exclusive line 40, core 1 to the per-cpu line 23,
    the other cores to no line. *)
Definition mixed_lines : Z -> Z :=
  fun c => if c =? 0 then 40 else if c =? 1 then 23 else 0.

(** An interrupt core that grants every request but that of line 41;
    cores 0 and 1 wired to the exclusive lines 40 and 41. *)
Definition refusing_41 : irq_core :=
  {| irq_is_percpu := fun _ => false;
     request_percpu_irq := fun _ => 0;
     irq_force_affinity := fun _ _ => 0;
     request_irq := fun i _ _ => if i =? 41 then - EBUSY else 0;
     num_possible_cpus := 4;
     nr_cpu_ids := 4;
     platdata_irq_flags := None |}.

Definition exclusive_lines : Z -> Z :=
  fun c => if c =? 0 then 40 else if c =? 1 then 41 else 42.

Definition all_fail : register_results :=
  {| cpuhp_state_add_instance := 0; cpu_pm_register_notifier := 0;
     perf_pmu_register := - EINVAL |}.

(* ================================================================== *)
(** * Properties *)

(** ** Fixed-width arithmetic *)

Lemma u64_range z : 0 <= u64 z < 2 ^ 64.
Proof. unfold u64. apply Z.mod_pos_bound. lia. Qed.

Lemma u64_id z : 0 <= z < 2 ^ 64 -> u64 z = z.
Proof. intros H. unfold u64. apply Z.mod_small. exact H. Qed.

Lemma s64_range z : - 2 ^ 63 <= s64 z < 2 ^ 63.
Proof.
  unfold s64.
  pose proof (Z.mod_pos_bound (z + 2 ^ 63) (2 ^ 64) ltac:(lia)). lia.
Qed.

Lemma s64_id z : - 2 ^ 63 <= z < 2 ^ 63 -> s64 z = z.
Proof. intros H. unfold s64. rewrite Z.mod_small; lia. Qed.

Lemma testbit_small m n k :
  0 <= m < 2 ^ k -> k <= n -> Z.testbit m n = false.
Proof.
  intros [Hm Hlt] Hn.
  destruct (Z.eq_dec m 0) as [->|Hne]; [apply Z.testbit_0_l|].
  apply Z.bits_above_log2; [exact Hm|].
  assert (0 <= k).
  { destruct (Z.le_gt_cases 0 k) as [Hk|Hk]; [exact Hk|].
    rewrite Z.pow_neg_r in Hlt by exact Hk. lia. }
  assert (Z.log2 m < k) by (apply Z.log2_lt_pow2; lia).
  lia.
Qed.

(** Masking after a wrap to [k] bits is masking, when the mask has [k]
    bits. *)
Lemma land_mod_mask x m k :
  0 <= k -> 0 <= m < 2 ^ k -> Z.land (x mod 2 ^ k) m = Z.land x m.
Proof.
  intros Hk Hm. apply Z.bits_inj'. intros n Hn.
  rewrite !Z.land_spec.
  destruct (Z.lt_ge_cases n k) as [Hlt|Hge].
  - rewrite Z.mod_pow2_bits_low by exact Hlt. reflexivity.
  - rewrite (testbit_small m n k Hm Hge). rewrite !andb_false_r. reflexivity.
Qed.

Lemma land_u64_mask x m :
  0 <= m < 2 ^ 64 -> Z.land (u64 x) m = Z.land x m.
Proof. intros Hm. unfold u64. apply land_mod_mask; [lia|exact Hm]. Qed.

Lemma land_bounds a m : 0 <= m -> 0 <= Z.land a m <= m.
Proof.
  intros Hm. split.
  - apply Z.land_nonneg. right. exact Hm.
  - destruct (Z.le_gt_cases 0 a) as [Ha|Ha].
    + rewrite <- (Z2N.id a Ha), <- (Z2N.id m Hm) at 1.
      rewrite <- N2Z.inj_land.
      rewrite <- (Z2N.id m Hm) at 2.
      apply N2Z.inj_le. apply N.land_le_r.
    + (* a negative: compare bitwise through the complement *)
      assert (Hsplit : m = Z.lor (Z.land a m) (Z.land (Z.lnot a) m)).
      { apply Z.bits_inj'. intros n Hn.
        rewrite Z.lor_spec, !Z.land_spec, Z.lnot_spec by exact Hn.
        destruct (Z.testbit a n), (Z.testbit m n); reflexivity. }
      assert (Hdisj : Z.land (Z.land a m) (Z.land (Z.lnot a) m) = 0).
      { apply Z.bits_inj'. intros n Hn.
        rewrite !Z.land_spec, Z.lnot_spec, Z.bits_0 by exact Hn.
        destruct (Z.testbit a n), (Z.testbit m n); reflexivity. }
      assert (H1 : 0 <= Z.land (Z.lnot a) m) by (apply Z.land_nonneg; right; exact Hm).
      assert (H2 : 0 <= Z.land a m) by (apply Z.land_nonneg; right; exact Hm).
      pose proof (Z.add_lor_land (Z.land a m) (Z.land (Z.lnot a) m)) as Hadd.
      rewrite Hdisj, <- Hsplit in Hadd. lia.
Qed.

Lemma upd_nat_same {A : Type} (k : nat) (v : A) (f : nat -> A) : upd_nat k v f k = v.
Proof. unfold upd_nat. rewrite Nat.eqb_refl. reflexivity. Qed.

Lemma upd_nat_other {A : Type} (k k' : nat) (v : A) (f : nat -> A) :
  k' <> k -> upd_nat k v f k' = f k'.
Proof.
  intros H. unfold upd_nat.
  destruct (Nat.eqb_spec k' k) as [Heq|_]; [contradiction|reflexivity].
Qed.

(** ** PeriodAccountant *)

Section Accounting.

Variable HW : Type.
Variable armpmu : arm_pmu HW.

(** The event as [armpmu_event_update] leaves it, in terms of the raw
    value [new] and the [delta] it accounted. *)
Lemma event_update_commit_fields (evt : perf_event) (prev new : Z) :
  0 <= max_period armpmu < 2 ^ 64 ->
  event_update_commit armpmu evt prev new =
  set_hw (set_period_left
            (s64 (period_left (hw evt) - Z.land (new - prev) (max_period armpmu)))
            (set_prev_count new (hw evt)))
         (set_count (u64 (count evt + Z.land (new - prev) (max_period armpmu))) evt).
Proof.
  intros Hm. unfold event_update_commit.
  rewrite (land_u64_mask _ _ Hm). reflexivity.
Qed.

(** C1.  [armpmu_event_update] always returns.  Whatever other contexts do
    during its attempts, there is an attempt, reading [prev_count] in world
    [wp] and the counter in world [wr] and exchanging in world [wc], at
    which [prev_count] still held the value read; the function returns the
    raw value [new] read in that attempt, has replaced [prev_count] by it,
    has added [delta = (new - prev_count) & max_period], a value between [0]
    and [max_period], to the running total (a 64-bit sum) and subtracted it
    from [period_left].  Run undisturbed, that attempt is the first one;
    an attempt during which another context changed [prev_count] is
    abandoned and the loop reads again. *)
Theorem armpmu_event_update_accounts :
  forall (irqs : list ((world HW -> world HW) * (world HW -> world HW)))
         (e : nat) (w : world HW),
    0 <= max_period armpmu < 2 ^ 64 ->
    (forall irq1 irq2 rest,
        irqs = (irq1, irq2) :: rest ->
        prev_count (hw (mem (irq2 (irq1 w)) e)) <> prev_count (hw (mem w e)) ->
        armpmu_event_update_loop armpmu irqs e w =
        armpmu_event_update_loop armpmu rest e (irq2 (irq1 w))) /\
    exists wp wr wc : world HW,
      ((wr = wp /\ wc = wp) \/
       exists irq1 irq2, In (irq1, irq2) irqs /\ wr = irq1 wp /\ wc = irq2 wr) /\
      (irqs = [] -> wp = w) /\
      prev_count (hw (mem wc e)) = prev_count (hw (mem wp e)) /\
      let prev := prev_count (hw (mem wp e)) in
      let new := u64 (read_counter armpmu (mem wr e) (regs wr)) in
      let delta := Z.land (new - prev) (max_period armpmu) in
      0 <= delta <= max_period armpmu /\
      armpmu_event_update_loop armpmu irqs e w =
      (new,
       store e
         (set_hw (set_period_left (s64 (period_left (hw (mem wc e)) - delta))
                                  (set_prev_count new (hw (mem wc e))))
                 (set_count (u64 (count (mem wc e) + delta)) (mem wc e)))
         wc).
Proof.
  intros irqs e w Hm. split.
  - intros irq1 irq2 rest -> Hne. simpl.
    destruct (Z.eqb_spec (prev_count (hw (mem (irq2 (irq1 w)) e)))
                         (prev_count (hw (mem w e))))
      as [Heq|_]; [contradiction|reflexivity].
  - revert w. induction irqs as [|[irq1 irq2] rest IH]; intros w.
    + exists w, w, w. simpl.
      repeat split; auto; try (apply land_bounds; lia).
      rewrite (event_update_commit_fields _ _ _ Hm). reflexivity.
    + simpl.
      destruct (Z.eqb_spec (prev_count (hw (mem (irq2 (irq1 w)) e)))
                           (prev_count (hw (mem w e))))
        as [Heq|Hne].
      * exists w, (irq1 w), (irq2 (irq1 w)).
        split.
        { right. exists irq1, irq2. split; [left; reflexivity|split; reflexivity]. }
        split; [discriminate|].
        split; [exact Heq|].
        split; [apply land_bounds; lia|].
        rewrite (event_update_commit_fields _ _ _ Hm). reflexivity.
      * destruct (IH (irq2 (irq1 w))) as (wp & wr & wc & Hrel & _ & Hprev & Hb & Heq).
        exists wp, wr, wc.
        split.
        { destruct Hrel as [Hrel|(i1 & i2 & Hin & Hr & Hc)]; [left; exact Hrel|].
          right. exists i1, i2. split; [right; exact Hin|split; assumption]. }
        split; [discriminate|].
        split; [exact Hprev|].
        split; [exact Hb|exact Heq].
Qed.

(** C2, as the code has it.  For a period and a [period_left] that fit 63
    bits, [armpmu_event_set_period] reconciles [period_left] as specified
    and returns the overflow flag; with [clamped] the reconciled value
    limited to [max_period >> 1], it writes [(-clamped) & 0xffffffff] to the
    counter, which is [(-clamped) & max_period] on a 32-bit bank, and records
    in [prev_count] the full 64-bit two's complement of [clamped], whose low
    32 bits are the value written. *)
Theorem armpmu_event_set_period_programs :
  forall (e : nat) (w : world HW),
    0 <= max_period armpmu < 2 ^ 64 ->
    0 <= sample_period (hw (mem w e)) < 2 ^ 63 ->
    - 2 ^ 63 <= period_left (hw (mem w e)) < 2 ^ 63 ->
    let r := arm_reconcile (period_left (hw (mem w e))) (sample_period (hw (mem w e))) in
    let clamped := arm_clamp (max_period armpmu) (fst r) in
    let raw := Z.land (- clamped) 4294967295 in
    let res := armpmu_event_set_period armpmu e w in
    fst res = (if snd r then 1 else 0) /\
    period_left (hw (mem (snd res) e)) = fst r /\
    0 <= clamped <= Z.shiftr (max_period armpmu) 1 /\
    regs (snd res) = write_counter armpmu (mem (snd res) e) raw (regs w) /\
    prev_count (hw (mem (snd res) e)) = u64 (- clamped) /\
    Z.land (prev_count (hw (mem (snd res) e))) 4294967295 = raw /\
    (max_period armpmu = 4294967295 -> raw = Z.land (- clamped) (max_period armpmu)) /\
    count (mem (snd res) e) = count (mem w e) /\
    percpu (snd res) = percpu w.
Proof.
  intros e w Hm Hp Hl.
  assert (Hhalf : 0 <= Z.shiftr (max_period armpmu) 1 < 2 ^ 63).
  { rewrite Z.shiftr_div_pow2 by lia. change (2 ^ 1) with 2.
    split; [apply Z.div_pos; lia|apply Z.div_lt_upper_bound; lia]. }
  unfold armpmu_event_set_period, set_period_event, arm_reconcile, arm_clamp.
  rewrite (s64_id (sample_period (hw (mem w e)))) by lia.
  rewrite (s64_id (- sample_period (hw (mem w e)))) by lia.
  set (P := sample_period (hw (mem w e))) in *.
  set (L := period_left (hw (mem w e))) in *.
  set (H2 := Z.shiftr (max_period armpmu) 1) in *.
  assert (Hmask : forall c, Z.land (u64 (- c)) 4294967295 = Z.land (- c) 4294967295).
  { intros c. apply land_u64_mask. lia. }
  destruct (Z.leb_spec L (- P)) as [H1|H1];
    destruct (Z.leb_spec (if true then P else L) 0) as [H3|H3];
    destruct (Z.leb_spec L 0) as [H4|H4]; cbv beta iota zeta in *.
  all: try lia.
  all: repeat match goal with
       | |- context [s64 ?x] => rewrite (s64_id x) by lia
       | |- context [u64 (?a + ?b)] => rewrite (u64_id (a + b)) by lia
       | |- context [u64 ?x >? _] => rewrite (u64_id x) by lia
       end.
  all: rewrite Z.gtb_ltb.
  all: match goal with
       | |- context [?h <? ?x] => destruct (Z.ltb_spec h x) as [H5|H5]
       end.
  all: repeat match goal with
       | |- context [s64 ?x] => rewrite (s64_id x) by lia
       end.
  all: cbn [fst snd mem store regs set_regs hw set_hw prev_count set_prev_count
            period_left set_period_left set_last_period count percpu].
  all: rewrite ?upd_nat_same.
  all: cbn [fst snd mem store regs set_regs hw set_hw prev_count set_prev_count
            period_left set_period_left set_last_period count percpu].
  all: rewrite ?Hmask.
  all: try (rewrite Z.min_r by lia); try (rewrite Z.min_l by lia).
  all: repeat split; try reflexivity; try lia.
  all: try (intros ->; reflexivity).
Qed.

End Accounting.

(** A run of [armpmu_event_update_accounts] on the wrapped counter, with the
    overflow handler running inside the first attempt, before the
    exchange. *)
Lemma armpmu_event_update_accounts_witness :
  let irqs := [(fun w : world (list hw_op) => w, overflow_irq)] in
  let e := 7%nat in
  let w := wrapped_world in
  (forall irq1 irq2 rest,
      irqs = (irq1, irq2) :: rest ->
      prev_count (hw (mem (irq2 (irq1 w)) e)) <> prev_count (hw (mem w e)) ->
      armpmu_event_update_loop bank32 irqs e w =
      armpmu_event_update_loop bank32 rest e (irq2 (irq1 w))) /\
  exists wp wr wc : world (list hw_op),
    ((wr = wp /\ wc = wp) \/
     exists irq1 irq2, In (irq1, irq2) irqs /\ wr = irq1 wp /\ wc = irq2 wr) /\
    (irqs = [] -> wp = w) /\
    prev_count (hw (mem wc e)) = prev_count (hw (mem wp e)) /\
    let prev := prev_count (hw (mem wp e)) in
    let new := u64 (read_counter bank32 (mem wr e) (regs wr)) in
    let delta := Z.land (new - prev) (max_period bank32) in
    0 <= delta <= max_period bank32 /\
    armpmu_event_update_loop bank32 irqs e w =
    (new,
     store e
       (set_hw (set_period_left (s64 (period_left (hw (mem wc e)) - delta))
                                (set_prev_count new (hw (mem wc e))))
               (set_count (u64 (count (mem wc e) + delta)) (mem wc e)))
       wc).
Proof.
  apply (armpmu_event_update_accounts (list hw_op) bank32
           [(fun w : world (list hw_op) => w, overflow_irq)] 7%nat wrapped_world).
  simpl. lia.
Defined.


(** C2, the claim as stated fails: on a 32-bit bank, arming a period of
    1000 writes [0xFFFFFC18 = (-1000) & max_period] to the counter but
    records [0xFFFFFFFFFFFFFC18] in [prev_count], not the value written. *)
Lemma armpmu_event_set_period_prev_count_unmasked :
  let res := armpmu_event_set_period bank32 7 fresh_world in
  max_period bank32 = 4294967295 /\
  regs (snd res) = [HwWrite 0 (Z.land (- 1000) (max_period bank32))] /\
  regs (snd res) = [HwWrite 0 4294966296] /\
  prev_count (hw (mem (snd res) 7%nat)) = 18446744073709550616 /\
  prev_count (hw (mem (snd res) 7%nat)) <> 4294966296.
Proof. vm_compute. repeat split; discriminate. Qed.

(** [armpmu_event_set_period_programs] on the fresh event. *)
Lemma armpmu_event_set_period_programs_witness :
  let e := 7%nat in
  let w := fresh_world in
  let r := arm_reconcile (period_left (hw (mem w e))) (sample_period (hw (mem w e))) in
  let clamped := arm_clamp (max_period bank32) (fst r) in
  let raw := Z.land (- clamped) 4294967295 in
  let res := armpmu_event_set_period bank32 e w in
  fst res = (if snd r then 1 else 0) /\
  period_left (hw (mem (snd res) e)) = fst r /\
  0 <= clamped <= Z.shiftr (max_period bank32) 1 /\
  regs (snd res) = write_counter bank32 (mem (snd res) e) raw (regs w) /\
  prev_count (hw (mem (snd res) e)) = u64 (- clamped) /\
  Z.land (prev_count (hw (mem (snd res) e))) 4294967295 = raw /\
  (max_period bank32 = 4294967295 -> raw = Z.land (- clamped) (max_period bank32)) /\
  count (mem (snd res) e) = count (mem w e) /\
  percpu (snd res) = percpu w.
Proof.
  apply (armpmu_event_set_period_programs (list hw_op) bank32 7%nat fresh_world);
    simpl; lia.
Defined.

(** ** SubscriptionLifecycle: stop *)

Lemma stopped_after_lor (s : Z) :
  (Z.land (Z.lor s (Z.lor PERF_HES_STOPPED PERF_HES_UPTODATE)) PERF_HES_STOPPED =? 0)
  = false.
Proof.
  apply Z.eqb_neq. intros H.
  assert (Hb : Z.testbit (Z.land (Z.lor s (Z.lor PERF_HES_STOPPED PERF_HES_UPTODATE))
                                 PERF_HES_STOPPED) 0 = true).
  { rewrite Z.land_spec, Z.lor_spec. change (Z.lor PERF_HES_STOPPED PERF_HES_UPTODATE) with 3.
    change PERF_HES_STOPPED with 1. simpl.
    rewrite orb_true_r. reflexivity. }
  rewrite H in Hb. discriminate.
Qed.

Section Stop.

Variable HW : Type.
Variable armpmu : arm_pmu HW.

(** Once [armpmu_stop] has run, the event carries PERF_HES_STOPPED. *)
Lemma armpmu_stop_stopped (e : nat) (flags : Z) (w : world HW) :
  (Z.land (hwc_state (hw (mem (armpmu_stop armpmu e flags w) e))) PERF_HES_STOPPED =? 0)
  = false.
Proof.
  unfold armpmu_stop.
  destruct (Z.land (hwc_state (hw (mem w e))) PERF_HES_STOPPED =? 0) eqn:Ht.
  - cbn [mem store]. rewrite upd_nat_same. cbn [hw set_hw hwc_state set_hwc_state].
    apply stopped_after_lor.
  - exact Ht.
Qed.

(** C7.  Stopping twice is stopping once: the second [armpmu_stop] finds
    PERF_HES_STOPPED set and leaves the whole world, and so the running
    total and the lifecycle flags of the event, as the first left it; and
    [armpmu_stop] on an event that already carries PERF_HES_STOPPED changes
    nothing. *)
Theorem armpmu_stop_idempotent :
  forall (e : nat) (flags flags' : Z) (w : world HW),
    armpmu_stop armpmu e flags' (armpmu_stop armpmu e flags w) =
    armpmu_stop armpmu e flags w /\
    ((Z.land (hwc_state (hw (mem w e))) PERF_HES_STOPPED =? 0) = true \/
     armpmu_stop armpmu e flags w = w) /\
    count (mem (armpmu_stop armpmu e flags' (armpmu_stop armpmu e flags w)) e) =
    count (mem (armpmu_stop armpmu e flags w) e) /\
    hwc_state (hw (mem (armpmu_stop armpmu e flags' (armpmu_stop armpmu e flags w)) e)) =
    hwc_state (hw (mem (armpmu_stop armpmu e flags w) e)).
Proof.
  intros e flags flags' w.
  assert (Heq : armpmu_stop armpmu e flags' (armpmu_stop armpmu e flags w) =
                armpmu_stop armpmu e flags w).
  { unfold armpmu_stop at 1. rewrite armpmu_stop_stopped. reflexivity. }
  rewrite Heq. repeat split.
  unfold armpmu_stop.
  destruct (Z.land (hwc_state (hw (mem w e))) PERF_HES_STOPPED =? 0);
    [left|right]; reflexivity.
Qed.

Lemma armpmu_stop_percpu (e : nat) (flags : Z) (w : world HW) :
  percpu (armpmu_stop armpmu e flags w) = percpu w.
Proof.
  unfold armpmu_stop.
  destruct (Z.land (hwc_state (hw (mem w e))) PERF_HES_STOPPED =? 0); reflexivity.
Qed.

Lemma armpmu_stop_other (e x : nat) (flags : Z) (w : world HW) :
  x <> e -> mem (armpmu_stop armpmu e flags w) x = mem w x.
Proof.
  intros Hx. unfold armpmu_stop.
  destruct (Z.land (hwc_state (hw (mem w e))) PERF_HES_STOPPED =? 0);
    [|reflexivity].
  cbn [mem store armpmu_event_update armpmu_event_update_loop snd set_regs].
  rewrite !(upd_nat_other _ _ _ _ Hx). reflexivity.
Qed.

Lemma armpmu_stop_ev_state (e x : nat) (flags : Z) (w : world HW) :
  ev_state (mem (armpmu_stop armpmu e flags w) x) = ev_state (mem w x).
Proof.
  destruct (Nat.eq_dec x e) as [->|Hx];
    [|rewrite armpmu_stop_other by exact Hx; reflexivity].
  unfold armpmu_stop.
  destruct (Z.land (hwc_state (hw (mem w e))) PERF_HES_STOPPED =? 0);
    [|reflexivity].
  cbn [mem store armpmu_event_update armpmu_event_update_loop snd set_regs].
  rewrite !upd_nat_same. reflexivity.
Qed.

Lemma armpmu_stop_running (e : nat) (flags : Z) (w : world HW) :
  Z.land (hwc_state (hw (mem w e))) PERF_HES_STOPPED = 0 ->
  stopped_from armpmu (mem w e) (mem (armpmu_stop armpmu e flags w) e).
Proof.
  intros Hs. unfold armpmu_stop. rewrite Hs, Z.eqb_refl.
  exists (disable armpmu (mem w e) (regs w)).
  cbn [mem store armpmu_event_update armpmu_event_update_loop snd set_regs regs].
  rewrite !upd_nat_same. reflexivity.
Qed.

Lemma armpmu_stop_noop (e : nat) (flags : Z) (w : world HW) :
  (Z.land (hwc_state (hw (mem w e))) PERF_HES_STOPPED =? 0) = false ->
  armpmu_stop armpmu e flags w = w.
Proof. intros Hs. unfold armpmu_stop. rewrite Hs. reflexivity. Qed.

(** *** armpmu_start *)

Lemma armpmu_start_percpu (e : nat) (flags : Z) (w : world HW) :
  percpu (armpmu_start armpmu e flags w) = percpu w.
Proof.
  unfold armpmu_start, armpmu_event_set_period.
  destruct (set_period_event armpmu _) as [[l evt] ret]. reflexivity.
Qed.

Lemma armpmu_start_other (e x : nat) (flags : Z) (w : world HW) :
  x <> e -> mem (armpmu_start armpmu e flags w) x = mem w x.
Proof.
  intros Hx. unfold armpmu_start, armpmu_event_set_period.
  destruct (set_period_event armpmu _) as [[l evt] ret].
  cbn [mem store snd set_regs].
  rewrite !(upd_nat_other _ _ _ _ Hx). reflexivity.
Qed.

Lemma set_period_event_keeps (evt : perf_event) :
  let evt' := snd (fst (set_period_event armpmu evt)) in
  count evt' = count evt /\ ev_state evt' = ev_state evt /\
  hwc_state (hw evt') = hwc_state (hw evt) /\
  prev_count (hw evt') =
  u64 (- (if u64 (period_left (hw evt')) >? Z.shiftr (max_period armpmu) 1
          then s64 (Z.shiftr (max_period armpmu) 1)
          else period_left (hw evt'))).
Proof.
  unfold set_period_event.
  destruct (period_left (hw evt) <=? s64 (- s64 (sample_period (hw evt))));
    [destruct (s64 (sample_period (hw evt)) <=? 0)
    |destruct (period_left (hw evt) <=? 0)];
    cbn; repeat split; reflexivity.
Qed.

Lemma armpmu_start_self (e : nat) (flags : Z) (w : world HW) :
  let evt' := mem (armpmu_start armpmu e flags w) e in
  armed armpmu evt' /\ count evt' = count (mem w e) /\
  ev_state evt' = ev_state (mem w e).
Proof.
  unfold armpmu_start, armpmu_event_set_period.
  cbn [mem store]. rewrite upd_nat_same.
  pose proof (set_period_event_keeps
                (set_hw (set_hwc_state 0 (hw (mem w e))) (mem w e))) as Hk.
  destruct (set_period_event armpmu _) as [[l evt] ret].
  cbn [fst snd] in Hk. destruct Hk as (Hc & He & Hs & Hp).
  cbn [mem store snd set_regs]. rewrite upd_nat_same.
  unfold armed. rewrite Hs, Hc, He. cbn. repeat split. exact Hp.
Qed.

End Stop.

(** ** PowerAndHotplugCoordinator: the power-state notifier *)

Lemma flags_set (s m : Z) :
  Z.land 3 m = m -> Z.land (Z.lor s 3) m = m.
Proof.
  intros H. rewrite Z.land_lor_distr_l, H.
  apply Z.bits_inj'. intros n _.
  rewrite Z.lor_spec, Z.land_spec.
  destruct (Z.testbit s n), (Z.testbit m n); reflexivity.
Qed.

Lemma bitmap_weight_nat_nonneg (m : Z) (k : nat) : 0 <= bitmap_weight_nat m k.
Proof.
  induction k as [|k IH]; simpl; [lia|].
  destruct (Z.testbit m (Z.of_nat k)); lia.
Qed.

Lemma bitmap_weight_nat_pos (m : Z) (k i : nat) :
  (i < k)%nat -> Z.testbit m (Z.of_nat i) = true -> 1 <= bitmap_weight_nat m k.
Proof.
  induction k as [|k IH]; intros Hi Hb; [lia|].
  simpl. pose proof (bitmap_weight_nat_nonneg m k).
  destruct (Nat.eq_dec i k) as [->|Hne].
  - rewrite Hb. lia.
  - assert (1 <= bitmap_weight_nat m k) by (apply IH; [lia|exact Hb]).
    destruct (Z.testbit m (Z.of_nat k)); lia.
Qed.

Lemma bitmap_weight_used (m n i : Z) :
  0 <= i < n -> Z.testbit m i = true -> (bitmap_weight m n =? 0) = false.
Proof.
  intros Hi Hb. apply Z.eqb_neq. unfold bitmap_weight.
  assert (1 <= bitmap_weight_nat m (Z.to_nat n)).
  { apply (bitmap_weight_nat_pos m (Z.to_nat n) (Z.to_nat i)); [lia|].
    rewrite Z2Nat.id by lia. exact Hb. }
  lia.
Qed.

Lemma slot_in_range (n i : Z) :
  0 <= i < n -> In i (map Z.of_nat (seq 0 (Z.to_nat n))).
Proof.
  intros Hi. apply in_map_iff. exists (Z.to_nat i).
  split; [apply Z2Nat.id; lia|]. apply in_seq. lia.
Qed.

(** A slot the loop skips leaves the world, and with it every invariant,
    as it was; the slot cannot be the one that holds the event. *)
Ltac slot_skipped :=
  split; [repeat split; assumption|]; split; [auto|discriminate].

Section PowerCycle.

Variable HW : Type.
Variable armpmu : arm_pmu HW.
Variable cur : Z.
Variable e : nat.
Variable w0 : world HW.

Lemma stopped_from_stopped (evt0 evt1 : perf_event) :
  stopped_from armpmu evt0 evt1 ->
  (Z.land (hwc_state (hw evt1)) PERF_HES_STOPPED =? 0) = false.
Proof.
  intros [r ->]. cbn [hw set_hw hwc_state set_hwc_state].
  apply stopped_after_lor.
Qed.

(** *** The entry loop *)

Lemma enter_slot_inv (w : world HW) (i : Z) :
  enter_inv armpmu e w0 w ->
  enter_inv armpmu e w0 (cpu_pm_pmu_setup_slot armpmu CPU_PM_ENTER cur w i) /\
  (stopped_from armpmu (mem w0 e) (mem w e) ->
   stopped_from armpmu (mem w0 e)
                (mem (cpu_pm_pmu_setup_slot armpmu CPU_PM_ENTER cur w i) e)) /\
  (Z.land (hwc_state (hw (mem w0 e))) PERF_HES_STOPPED = 0 ->
   test_bit i (used_mask (percpu w0 cur)) = true ->
   events (percpu w0 cur) i = Some e ->
   ev_state (mem w0 e) = PERF_EVENT_STATE_ACTIVE ->
   stopped_from armpmu (mem w0 e)
                (mem (cpu_pm_pmu_setup_slot armpmu CPU_PM_ENTER cur w i) e)).
Proof.
  intros (Hp & Hs & Hm).
  unfold cpu_pm_pmu_setup_slot. rewrite Hp.
  destruct (test_bit i (used_mask (percpu w0 cur))) eqn:Hbit; cbn [negb].
  2:{ slot_skipped. }
  destruct (events (percpu w0 cur) i) as [e'|] eqn:Hev.
  2:{ slot_skipped. }
  rewrite Hs.
  destruct (ev_state (mem w0 e') =? PERF_EVENT_STATE_ACTIVE) eqn:Hact; cbn [negb].
  2:{ split; [repeat split; assumption|]. split; [auto|].
      intros _ _ [= ->] Ha. rewrite Ha in Hact. discriminate. }
  change (CPU_PM_ENTER =? CPU_PM_ENTER) with true. cbv iota.
  destruct (Nat.eq_dec e' e) as [->|Hne].
  - (* the slot holds [e] *)
    assert (Hstop : stopped_from armpmu (mem w0 e) (mem w e) ->
                    armpmu_stop armpmu e PERF_EF_UPDATE w = w).
    { intros Hst. apply armpmu_stop_noop. apply (stopped_from_stopped _ _ Hst). }
    assert (Hrun : Z.land (hwc_state (hw (mem w0 e))) PERF_HES_STOPPED = 0 ->
                   stopped_from armpmu (mem w0 e)
                                (mem (armpmu_stop armpmu e PERF_EF_UPDATE w) e)).
    { intros Hz. destruct Hm as [Hm|Hm].
      - rewrite <- Hm. apply armpmu_stop_running. rewrite Hm. exact Hz.
      - rewrite (Hstop Hm). exact Hm. }
    split; [|split].
    + split; [rewrite armpmu_stop_percpu; exact Hp|].
      split; [intros x; rewrite armpmu_stop_ev_state; apply Hs|].
      destruct Hm as [Hm|Hm].
      * destruct (Z.land (hwc_state (hw (mem w0 e))) PERF_HES_STOPPED =? 0) eqn:Ht.
        -- right. apply Hrun. apply Z.eqb_eq. exact Ht.
        -- left. rewrite armpmu_stop_noop by (rewrite Hm; exact Ht). exact Hm.
      * right. rewrite (Hstop Hm). exact Hm.
    + intros Hst. rewrite (Hstop Hst). exact Hst.
    + intros Hz _ _ _. apply Hrun. exact Hz.
  - (* the slot holds another event *)
    assert (Hsame : mem (armpmu_stop armpmu e' PERF_EF_UPDATE w) e = mem w e).
    { apply armpmu_stop_other. intros Heq. apply Hne. symmetry. exact Heq. }
    rewrite Hsame.
    split; [|split].
    + split; [rewrite armpmu_stop_percpu; exact Hp|].
      split; [intros x; rewrite armpmu_stop_ev_state; apply Hs|].
      rewrite Hsame. exact Hm.
    + auto.
    + intros _ _ [= Heq]. contradiction.
Qed.

Lemma enter_fold_inv (l : list Z) (w : world HW) :
  enter_inv armpmu e w0 w ->
  enter_inv armpmu e w0
            (fold_left (cpu_pm_pmu_setup_slot armpmu CPU_PM_ENTER cur) l w) /\
  (stopped_from armpmu (mem w0 e) (mem w e) ->
   stopped_from armpmu (mem w0 e)
     (mem (fold_left (cpu_pm_pmu_setup_slot armpmu CPU_PM_ENTER cur) l w) e)).
Proof.
  revert w. induction l as [|i l IH]; intros w Hinv; simpl.
  - split; [exact Hinv|auto].
  - destruct (enter_slot_inv w i Hinv) as (Hinv' & Hkeep & _).
    destruct (IH _ Hinv') as (Hfin & Hkeep').
    split; [exact Hfin|]. intros Hst. apply Hkeep'. apply Hkeep. exact Hst.
Qed.

Lemma enter_fold_hit (l : list Z) (w : world HW) (i : Z) :
  enter_inv armpmu e w0 w ->
  In i l ->
  Z.land (hwc_state (hw (mem w0 e))) PERF_HES_STOPPED = 0 ->
  test_bit i (used_mask (percpu w0 cur)) = true ->
  events (percpu w0 cur) i = Some e ->
  ev_state (mem w0 e) = PERF_EVENT_STATE_ACTIVE ->
  stopped_from armpmu (mem w0 e)
    (mem (fold_left (cpu_pm_pmu_setup_slot armpmu CPU_PM_ENTER cur) l w) e).
Proof.
  revert w. induction l as [|j l IH]; intros w Hinv Hin Hz Hbit Hev Hact;
    [contradiction|].
  simpl. destruct (enter_slot_inv w j Hinv) as (Hinv' & _ & Hhit).
  destruct Hin as [->|Hin].
  - apply (enter_fold_inv l _ Hinv'). apply Hhit; assumption.
  - apply IH; assumption.
Qed.

(** *** The exit loop *)

Lemma exit_slot_inv (w : world HW) (i : Z) :
  exit_inv e w0 w ->
  exit_inv e w0 (cpu_pm_pmu_setup_slot armpmu CPU_PM_EXIT cur w i) /\
  (armed armpmu (mem w e) ->
   armed armpmu (mem (cpu_pm_pmu_setup_slot armpmu CPU_PM_EXIT cur w i) e)) /\
  (test_bit i (used_mask (percpu w0 cur)) = true ->
   events (percpu w0 cur) i = Some e ->
   ev_state (mem w0 e) = PERF_EVENT_STATE_ACTIVE ->
   armed armpmu (mem (cpu_pm_pmu_setup_slot armpmu CPU_PM_EXIT cur w i) e)).
Proof.
  intros (Hp & Hs & Hc).
  unfold cpu_pm_pmu_setup_slot. rewrite Hp.
  destruct (test_bit i (used_mask (percpu w0 cur))) eqn:Hbit; cbn [negb].
  2:{ slot_skipped. }
  destruct (events (percpu w0 cur) i) as [e'|] eqn:Hev.
  2:{ slot_skipped. }
  rewrite Hs.
  destruct (ev_state (mem w0 e') =? PERF_EVENT_STATE_ACTIVE) eqn:Hact; cbn [negb].
  2:{ split; [repeat split; assumption|]. split; [auto|].
      intros _ [= ->] Ha. rewrite Ha in Hact. discriminate. }
  change (CPU_PM_EXIT =? CPU_PM_ENTER) with false.
  change (CPU_PM_EXIT =? CPU_PM_EXIT) with true. cbv iota. cbn [orb].
  destruct (Nat.eq_dec e' e) as [->|Hne].
  - destruct (armpmu_start_self HW armpmu e PERF_EF_RELOAD w) as (Harm & Hcnt & Hst).
    split; [|split].
    + split; [rewrite armpmu_start_percpu; exact Hp|].
      split.
      * intros x. destruct (Nat.eq_dec x e) as [->|Hx].
        -- rewrite Hst. apply Hs.
        -- rewrite armpmu_start_other by exact Hx. apply Hs.
      * rewrite Hcnt. exact Hc.
    + intros _. exact Harm.
    + intros _ _ _. exact Harm.
  - assert (Hsame : mem (armpmu_start armpmu e' PERF_EF_RELOAD w) e = mem w e).
    { apply armpmu_start_other. intros Heq. apply Hne. symmetry. exact Heq. }
    destruct (armpmu_start_self HW armpmu e' PERF_EF_RELOAD w) as (_ & _ & Hst).
    rewrite Hsame.
    split; [|split].
    + split; [rewrite armpmu_start_percpu; exact Hp|].
      split.
      * intros x. destruct (Nat.eq_dec x e') as [->|Hx].
        -- rewrite Hst. apply Hs.
        -- rewrite armpmu_start_other by exact Hx. apply Hs.
      * rewrite Hsame. exact Hc.
    + auto.
    + intros _ [= Heq]. contradiction.
Qed.

Lemma exit_fold_inv (l : list Z) (w : world HW) :
  exit_inv e w0 w ->
  exit_inv e w0 (fold_left (cpu_pm_pmu_setup_slot armpmu CPU_PM_EXIT cur) l w) /\
  (armed armpmu (mem w e) ->
   armed armpmu
     (mem (fold_left (cpu_pm_pmu_setup_slot armpmu CPU_PM_EXIT cur) l w) e)).
Proof.
  revert w. induction l as [|i l IH]; intros w Hinv; simpl.
  - split; [exact Hinv|auto].
  - destruct (exit_slot_inv w i Hinv) as (Hinv' & Hkeep & _).
    destruct (IH _ Hinv') as (Hfin & Hkeep').
    split; [exact Hfin|]. intros Ha. apply Hkeep'. apply Hkeep. exact Ha.
Qed.

Lemma exit_fold_hit (l : list Z) (w : world HW) (i : Z) :
  exit_inv e w0 w ->
  In i l ->
  test_bit i (used_mask (percpu w0 cur)) = true ->
  events (percpu w0 cur) i = Some e ->
  ev_state (mem w0 e) = PERF_EVENT_STATE_ACTIVE ->
  armed armpmu
    (mem (fold_left (cpu_pm_pmu_setup_slot armpmu CPU_PM_EXIT cur) l w) e).
Proof.
  revert w. induction l as [|j l IH]; intros w Hinv Hin Hbit Hev Hact;
    [contradiction|].
  simpl. destruct (exit_slot_inv w j Hinv) as (Hinv' & _ & Hhit).
  destruct Hin as [->|Hin].
  - apply (exit_fold_inv l _ Hinv'). apply Hhit; assumption.
  - apply IH; assumption.
Qed.

End PowerCycle.

(** *** The loop slot by slot *)

Section PowerTrace.

Variable HW : Type.
Variable armpmu : arm_pmu HW.
Variable cur : Z.
Variable e : nat.

(** What [armpmu_stop] does to a running event: the slot is disabled,
    the counter is read in the registers so left, and the value read is
    accounted. *)
Lemma armpmu_stop_trace (flags : Z) (w : world HW) :
  Z.land (hwc_state (hw (mem w e))) PERF_HES_STOPPED = 0 ->
  let r_off := disable armpmu (mem w e) (regs w) in
  let raw := u64 (read_counter armpmu (mem w e) r_off) in
  let accounted := event_update_commit armpmu (mem w e) (prev_count (hw (mem w e))) raw in
  regs (armpmu_stop armpmu e flags w) = r_off /\
  mem (armpmu_stop armpmu e flags w) e =
  set_hw (set_hwc_state
            (Z.lor (hwc_state (hw accounted)) (Z.lor PERF_HES_STOPPED PERF_HES_UPTODATE))
            (hw accounted)) accounted.
Proof.
  intros Hs. unfold armpmu_stop. rewrite Hs, Z.eqb_refl.
  cbn [mem store armpmu_event_update armpmu_event_update_loop snd set_regs regs].
  rewrite !upd_nat_same. split; reflexivity.
Qed.

Lemma set_period_event_prev (evt : perf_event) :
  prev_count (hw (snd (fst (set_period_event armpmu evt)))) =
  u64 (- fst (fst (set_period_event armpmu evt))).
Proof.
  unfold set_period_event.
  destruct (period_left (hw evt) <=? s64 (- s64 (sample_period (hw evt))));
    [destruct (s64 (sample_period (hw evt)) <=? 0)
    |destruct (period_left (hw evt) <=? 0)];
    cbn; reflexivity.
Qed.

(** What [armpmu_start] does: the flags are cleared, the period is set
    again, the counter is written with the low 32 bits of the new
    [prev_count], and the slot is enabled. *)
Lemma armpmu_start_trace (flags : Z) (w : world HW) :
  let evt' := snd (fst (set_period_event armpmu
                          (set_hw (set_hwc_state 0 (hw (mem w e))) (mem w e)))) in
  mem (armpmu_start armpmu e flags w) e = evt' /\
  regs (armpmu_start armpmu e flags w) =
  enable armpmu evt'
         (write_counter armpmu evt' (Z.land (prev_count (hw evt')) 4294967295) (regs w)).
Proof.
  cbv zeta. rewrite set_period_event_prev.
  unfold armpmu_start, armpmu_event_set_period.
  cbn [mem store]. rewrite upd_nat_same.
  destruct (set_period_event armpmu _) as [[l evt] ret].
  cbn [mem store snd fst set_regs regs]. rewrite !upd_nat_same.
  split; reflexivity.
Qed.

Lemma armpmu_start_ev_state (x : nat) (flags : Z) (w : world HW) (y : nat) :
  ev_state (mem (armpmu_start armpmu x flags w) y) = ev_state (mem w y).
Proof.
  destruct (Nat.eq_dec y x) as [->|Hy].
  - apply (armpmu_start_self HW armpmu x flags w).
  - rewrite armpmu_start_other by exact Hy. reflexivity.
Qed.

(** A slot that [e] does not own leaves [e], the per-core state and every
    scheduler state as they were. *)
Lemma setup_slot_skips (cmd : Z) (w : world HW) (j : Z) :
  events (percpu w cur) j <> Some e ->
  percpu (cpu_pm_pmu_setup_slot armpmu cmd cur w j) = percpu w /\
  (forall x, ev_state (mem (cpu_pm_pmu_setup_slot armpmu cmd cur w j) x) =
             ev_state (mem w x)) /\
  mem (cpu_pm_pmu_setup_slot armpmu cmd cur w j) e = mem w e.
Proof.
  intros Hown. unfold cpu_pm_pmu_setup_slot.
  destruct (test_bit j (used_mask (percpu w cur))); cbn [negb];
    [|repeat split].
  destruct (events (percpu w cur) j) as [x|] eqn:Hev; [|repeat split].
  assert (Hne : e <> x) by (intros ->; apply Hown; reflexivity).
  destruct (ev_state (mem w x) =? PERF_EVENT_STATE_ACTIVE); cbn [negb];
    [|repeat split].
  destruct (cmd =? CPU_PM_ENTER).
  - split; [apply armpmu_stop_percpu|].
    split; [intros y; apply armpmu_stop_ev_state|].
    apply armpmu_stop_other. exact Hne.
  - destruct ((cmd =? CPU_PM_EXIT) || (cmd =? CPU_PM_ENTER_FAILED)); [|repeat split].
    split; [apply armpmu_start_percpu|].
    split; [intros y; apply armpmu_start_ev_state|].
    apply armpmu_start_other. exact Hne.
Qed.

Lemma setup_fold_skips (cmd : Z) (l : list Z) :
  forall w : world HW,
    (forall j, In j l -> events (percpu w cur) j <> Some e) ->
    percpu (fold_left (cpu_pm_pmu_setup_slot armpmu cmd cur) l w) = percpu w /\
    (forall x, ev_state (mem (fold_left (cpu_pm_pmu_setup_slot armpmu cmd cur) l w) x) =
               ev_state (mem w x)) /\
    mem (fold_left (cpu_pm_pmu_setup_slot armpmu cmd cur) l w) e = mem w e.
Proof.
  induction l as [|j l IH]; intros w Hl; [repeat split|].
  cbn [fold_left].
  destruct (setup_slot_skips cmd w j (Hl j (or_introl eq_refl))) as (Hp & Hs & Hm).
  destruct (IH (cpu_pm_pmu_setup_slot armpmu cmd cur w j)) as (Hp' & Hs' & Hm').
  { intros k Hk. rewrite Hp. apply Hl. right. exact Hk. }
  split; [rewrite Hp'; exact Hp|].
  split; [intros x; rewrite Hs'; apply Hs|].
  rewrite Hm'. exact Hm.
Qed.

(** The loop is its first [i] slots followed by the rest. *)
Lemma setup_split (cmd : Z) (i : Z) (w : world HW) :
  0 <= i <= num_events armpmu ->
  cpu_pm_pmu_setup armpmu cmd cur w =
  cpu_pm_pmu_setup_from armpmu cmd cur i (cpu_pm_pmu_setup_upto armpmu cmd cur i w).
Proof.
  intros Hi. unfold cpu_pm_pmu_setup, cpu_pm_pmu_setup_from, cpu_pm_pmu_setup_upto.
  rewrite <- fold_left_app, <- map_app.
  replace (Z.to_nat (num_events armpmu))
    with (Z.to_nat i + (Z.to_nat (num_events armpmu) - Z.to_nat i))%nat at 1 by lia.
  rewrite seq_app. reflexivity.
Qed.

Lemma setup_upto_succ (cmd : Z) (i : Z) (w : world HW) :
  0 <= i ->
  cpu_pm_pmu_setup_upto armpmu cmd cur (i + 1) w =
  cpu_pm_pmu_setup_slot armpmu cmd cur (cpu_pm_pmu_setup_upto armpmu cmd cur i w) i.
Proof.
  intros Hi. unfold cpu_pm_pmu_setup_upto.
  replace (Z.to_nat (i + 1)) with (Z.to_nat i + 1)%nat by lia.
  rewrite seq_app, map_app, fold_left_app. cbn [seq map fold_left Nat.add].
  rewrite Z2Nat.id by exact Hi. reflexivity.
Qed.

(** The slots below [i] and the slots above [i] are not slot [i]. *)
Lemma slots_below (i j : Z) :
  In j (map Z.of_nat (seq 0 (Z.to_nat i))) -> j <> i.
Proof.
  intros Hin. apply in_map_iff in Hin. destruct Hin as (k & <- & Hk).
  apply in_seq in Hk. lia.
Qed.

Lemma slots_above (n i j : Z) :
  0 <= i ->
  In j (map Z.of_nat (seq (Z.to_nat (i + 1)) (Z.to_nat n - Z.to_nat (i + 1)))) ->
  j <> i.
Proof.
  intros Hi Hin. apply in_map_iff in Hin. destruct Hin as (k & <- & Hk).
  apply in_seq in Hk. lia.
Qed.

(** The loop around the one slot that [e] owns: [e] is untouched until
    the loop reaches its slot and after it has left it. *)
Lemma setup_around (cmd : Z) (i : Z) (w : world HW) :
  0 <= i < num_events armpmu ->
  slots_exclusive (percpu w cur) ->
  events (percpu w cur) i = Some e ->
  let wi := cpu_pm_pmu_setup_upto armpmu cmd cur i w in
  let wi' := cpu_pm_pmu_setup_upto armpmu cmd cur (i + 1) w in
  (percpu wi = percpu w /\
   (forall x, ev_state (mem wi x) = ev_state (mem w x)) /\
   mem wi e = mem w e) /\
  wi' = cpu_pm_pmu_setup_slot armpmu cmd cur wi i /\
  cpu_pm_pmu_setup armpmu cmd cur w = cpu_pm_pmu_setup_from armpmu cmd cur (i + 1) wi' /\
  (percpu wi' = percpu w -> mem (cpu_pm_pmu_setup armpmu cmd cur w) e = mem wi' e).
Proof.
  intros Hi Hex Hev wi wi'.
  assert (Hother : forall j, j <> i -> events (percpu w cur) j <> Some e).
  { intros j Hj Hown. apply Hj. apply (Hex j i e Hown Hev). }
  assert (Hwi : percpu wi = percpu w /\
                (forall x, ev_state (mem wi x) = ev_state (mem w x)) /\
                mem wi e = mem w e).
  { apply setup_fold_skips. intros j Hj. apply Hother. apply (slots_below i j Hj). }
  split; [exact Hwi|].
  split; [apply setup_upto_succ; lia|].
  assert (Hsplit : cpu_pm_pmu_setup armpmu cmd cur w =
                   cpu_pm_pmu_setup_from armpmu cmd cur (i + 1) wi').
  { apply setup_split. lia. }
  split; [exact Hsplit|].
  intros Hp'. rewrite Hsplit. unfold cpu_pm_pmu_setup_from.
  apply setup_fold_skips. intros j Hj. rewrite Hp'. apply Hother.
  apply (slots_above (num_events armpmu) i j); [lia|exact Hj].
Qed.

End PowerTrace.

(** C3.  Let a subscription [e], scheduled (PERF_EVENT_STATE_ACTIVE) and
    running (PERF_HES_STOPPED clear), own a used slot [i] of a supported
    core.  On CPU_PM_ENTER the notifier answers NOTIFY_OK, calls the bank's
    stop hook first and then runs the loop over the slots, after which [e]
    has been stopped from the state it was in: the raw value read was
    accounted into the running total and both PERF_HES_STOPPED and
    PERF_HES_UPTODATE are set.  On the following CPU_PM_EXIT the notifier
    answers NOTIFY_OK, [e] is armed again with no lifecycle flag set, still
    scheduled, the bank's start hook is the last call made, and the running
    total is the one the entry left.

    When no event owns two slots, the calls made for [e] are these.  On
    entry nothing touches [e] until the loop reaches slot [i]; there its
    counter is disabled, on top of what the stop hook and the slots below
    left in the registers, the counter is read in the registers so left,
    and the difference [delta] to [prev_count] goes into the total.  On
    exit, after the reset hook if the bank has one, nothing touches [e]
    until the loop reaches slot [i]; there the period is set again, the
    counter is written with the low 32 bits of the new [prev_count] and
    the slot is enabled; the slots above follow and the start hook comes
    last.  The total after the round trip is the total before it plus
    [delta], the counts that the counter held when it was read on entry:
    when there are none, the total is the one before the round trip. *)
Theorem cpu_pm_round_trip :
  forall (HW : Type) (armpmu : arm_pmu HW) (cur i : Z) (e : nat) (w : world HW),
    cpumask_test_cpu cur (supported_cpus armpmu) = true ->
    0 <= i < num_events armpmu ->
    test_bit i (used_mask (percpu w cur)) = true ->
    events (percpu w cur) i = Some e ->
    ev_state (mem w e) = PERF_EVENT_STATE_ACTIVE ->
    Z.land (hwc_state (hw (mem w e))) PERF_HES_STOPPED = 0 ->
    let entered := cpu_pm_pmu_common armpmu CPU_PM_ENTER cur w in
    let exited := cpu_pm_pmu_common armpmu CPU_PM_EXIT cur (snd entered) in
    fst entered = NOTIFY_OK /\
    snd entered =
    cpu_pm_pmu_setup armpmu CPU_PM_ENTER cur (set_regs (stop armpmu (regs w)) w) /\
    stopped_from armpmu (mem w e) (mem (snd entered) e) /\
    Z.land (hwc_state (hw (mem (snd entered) e))) PERF_HES_STOPPED = PERF_HES_STOPPED /\
    Z.land (hwc_state (hw (mem (snd entered) e))) PERF_HES_UPTODATE = PERF_HES_UPTODATE /\
    ev_state (mem (snd entered) e) = PERF_EVENT_STATE_ACTIVE /\
    fst exited = NOTIFY_OK /\
    armed armpmu (mem (snd exited) e) /\
    ev_state (mem (snd exited) e) = PERF_EVENT_STATE_ACTIVE /\
    (exists r, regs (snd exited) = start armpmu r) /\
    count (mem (snd exited) e) = count (mem (snd entered) e) /\
    (slots_exclusive (percpu w cur) ->
     let w0 := set_regs (stop armpmu (regs w)) w in
     let wi := cpu_pm_pmu_setup_upto armpmu CPU_PM_ENTER cur i w0 in
     let r_off := disable armpmu (mem w e) (regs wi) in
     let raw := u64 (read_counter armpmu (mem w e) r_off) in
     let delta := Z.land (u64 (raw - prev_count (hw (mem w e)))) (max_period armpmu) in
     let accounted :=
       event_update_commit armpmu (mem w e) (prev_count (hw (mem w e))) raw in
     let evt1 := mem (snd entered) e in
     let w1 := match reset armpmu with
               | Some r => set_regs (r (regs (snd entered))) (snd entered)
               | None => snd entered
               end in
     let wj := cpu_pm_pmu_setup_upto armpmu CPU_PM_EXIT cur i w1 in
     let w2 := cpu_pm_pmu_setup_from armpmu CPU_PM_EXIT cur (i + 1)
                 (cpu_pm_pmu_setup_upto armpmu CPU_PM_EXIT cur (i + 1) w1) in
     let evt2 := mem (snd exited) e in
     (mem wi e = mem w e /\
      regs (cpu_pm_pmu_setup_upto armpmu CPU_PM_ENTER cur (i + 1) w0) = r_off /\
      snd entered =
      cpu_pm_pmu_setup_from armpmu CPU_PM_ENTER cur (i + 1)
        (cpu_pm_pmu_setup_upto armpmu CPU_PM_ENTER cur (i + 1) w0) /\
      evt1 =
      set_hw (set_hwc_state
                (Z.lor (hwc_state (hw accounted))
                       (Z.lor PERF_HES_STOPPED PERF_HES_UPTODATE))
                (hw accounted)) accounted /\
      prev_count (hw evt1) = raw /\
      count evt1 = u64 (count (mem w e) + delta)) /\
     (mem wj e = evt1 /\
      regs (cpu_pm_pmu_setup_upto armpmu CPU_PM_EXIT cur (i + 1) w1) =
      enable armpmu evt2
             (write_counter armpmu evt2 (Z.land (prev_count (hw evt2)) 4294967295)
                            (regs wj)) /\
      snd exited = set_regs (start armpmu (regs w2)) w2 /\
      evt2 = snd (fst (set_period_event armpmu
                         (set_hw (set_hwc_state 0 (hw evt1)) evt1)))) /\
     count evt2 = u64 (count (mem w e) + delta) /\
     (delta = 0 -> 0 <= count (mem w e) < 2 ^ 64 -> count evt2 = count (mem w e))).
Proof.
  intros HW armpmu cur i e w Hsup Hi Hbit Hev Hact Hrun.
  set (w0 := set_regs (stop armpmu (regs w)) w).
  assert (Hent : cpu_pm_pmu_common armpmu CPU_PM_ENTER cur w =
                 (NOTIFY_OK, cpu_pm_pmu_setup armpmu CPU_PM_ENTER cur w0)).
  { unfold cpu_pm_pmu_common. rewrite Hsup. cbn [negb].
    rewrite (bitmap_weight_used _ _ i Hi Hbit).
    change (CPU_PM_ENTER =? CPU_PM_EXIT) with false.
    change (CPU_PM_ENTER =? CPU_PM_ENTER) with true.
    destruct (reset armpmu); reflexivity. }
  cbv zeta. rewrite Hent. cbn [fst snd].
  set (w1 := cpu_pm_pmu_setup armpmu CPU_PM_ENTER cur w0).
  assert (Hinv0 : enter_inv armpmu e w0 w0).
  { split; [reflexivity|]. split; [reflexivity|left; reflexivity]. }
  destruct (enter_fold_inv HW armpmu cur e w0
              (map Z.of_nat (seq 0 (Z.to_nat (num_events armpmu)))) w0 Hinv0)
    as ((Hp1 & Hs1 & _) & _).
  fold (cpu_pm_pmu_setup armpmu CPU_PM_ENTER cur w0) in Hp1, Hs1. fold w1 in Hp1, Hs1.
  assert (Hst : stopped_from armpmu (mem w e) (mem w1 e)).
  { apply (enter_fold_hit HW armpmu cur e w0 _ w0 i Hinv0);
      [apply slot_in_range; exact Hi|exact Hrun|exact Hbit|exact Hev|exact Hact]. }
  (* the exit *)
  set (w1r := match reset armpmu with
              | Some r => set_regs (r (regs w1)) w1
              | None => w1
              end).
  assert (Hp1r : percpu w1r = percpu w).
  { unfold w1r. destruct (reset armpmu); cbn [percpu set_regs]; exact Hp1. }
  assert (Hm1r : mem w1r = mem w1).
  { unfold w1r. destruct (reset armpmu); reflexivity. }
  assert (Hext : cpu_pm_pmu_common armpmu CPU_PM_EXIT cur w1 =
                 (NOTIFY_OK,
                  set_regs (start armpmu (regs (cpu_pm_pmu_setup armpmu CPU_PM_EXIT cur w1r)))
                           (cpu_pm_pmu_setup armpmu CPU_PM_EXIT cur w1r))).
  { unfold cpu_pm_pmu_common. rewrite Hsup. cbn [negb].
    rewrite Hp1. change (percpu w0) with (percpu w).
    rewrite (bitmap_weight_used _ _ i Hi Hbit).
    change (CPU_PM_EXIT =? CPU_PM_EXIT) with true.
    change (CPU_PM_EXIT =? CPU_PM_ENTER) with false.
    cbn [orb]. unfold w1r. destruct (reset armpmu); reflexivity. }
  rewrite Hext. cbn [fst snd mem set_regs regs].
  set (w2 := cpu_pm_pmu_setup armpmu CPU_PM_EXIT cur w1r).
  assert (Hinv1 : exit_inv e w1r w1r).
  { split; [reflexivity|]. split; reflexivity. }
  destruct (exit_fold_inv HW armpmu cur e w1r
              (map Z.of_nat (seq 0 (Z.to_nat (num_events armpmu)))) w1r Hinv1)
    as ((_ & Hs2 & Hc2) & _).
  fold (cpu_pm_pmu_setup armpmu CPU_PM_EXIT cur w1r) in Hs2, Hc2. fold w2 in Hs2, Hc2.
  assert (Hact1 : ev_state (mem w1 e) = PERF_EVENT_STATE_ACTIVE).
  { rewrite Hs1. exact Hact. }
  assert (Harm : armed armpmu (mem w2 e)).
  { apply (exit_fold_hit HW armpmu cur e w1r _ w1r i Hinv1);
      [apply slot_in_range; exact Hi
      |rewrite Hp1r; exact Hbit
      |rewrite Hp1r; exact Hev
      |rewrite Hm1r; exact Hact1]. }
  rewrite Hm1r in Hs2, Hc2.
  split; [reflexivity|]. split; [reflexivity|]. split; [exact Hst|].
  assert (Hflags : hwc_state (hw (mem w1 e)) =
                   Z.lor (hwc_state (hw (mem w e))) 3).
  { destruct Hst as [r ->]. reflexivity. }
  split; [rewrite Hflags; apply flags_set; reflexivity|].
  split; [rewrite Hflags; apply flags_set; reflexivity|].
  split; [exact Hact1|].
  split; [reflexivity|]. split; [exact Harm|].
  split; [rewrite Hs2; exact Hact1|].
  split; [exists (regs w2); reflexivity|].
  split; [exact Hc2|].
  (* the calls made for [e] *)
  intros Hex.
  destruct (setup_around HW armpmu cur e CPU_PM_ENTER i w0 Hi Hex Hev)
    as ((Hpi & Hsi & Hmi) & Hstep & Hsplit & Hrest).
  change (mem w0 e) with (mem w e) in Hmi.
  change (percpu w0) with (percpu w) in Hpi.
  set (wi := cpu_pm_pmu_setup_upto armpmu CPU_PM_ENTER cur i w0) in *.
  assert (Hslot : cpu_pm_pmu_setup_slot armpmu CPU_PM_ENTER cur wi i =
                  armpmu_stop armpmu e PERF_EF_UPDATE wi).
  { unfold cpu_pm_pmu_setup_slot. rewrite Hpi, Hbit, Hev. cbn [negb].
    rewrite Hsi. change (mem w0 e) with (mem w e). rewrite Hact.
    rewrite Z.eqb_refl. reflexivity. }
  rewrite Hslot in Hstep.
  destruct (armpmu_stop_trace HW armpmu e PERF_EF_UPDATE wi) as (Hregs & Hmem).
  { rewrite Hmi. exact Hrun. }
  cbv zeta in Hregs, Hmem. rewrite Hmi in Hregs, Hmem.
  assert (Hm1 : mem w1 e = mem (armpmu_stop armpmu e PERF_EF_UPDATE wi) e).
  { unfold w1. rewrite <- Hstep. apply Hrest. rewrite Hstep.
    rewrite armpmu_stop_percpu. exact Hpi. }
  assert (Hcount1 : count (mem w1 e) =
                    u64 (count (mem w e) +
                         Z.land (u64 (u64 (read_counter armpmu (mem w e)
                                             (disable armpmu (mem w e) (regs wi)))
                                      - prev_count (hw (mem w e))))
                                (max_period armpmu))).
  { rewrite Hm1, Hmem. reflexivity. }
  (* exit *)
  assert (Hex1 : slots_exclusive (percpu w1r cur)) by (rewrite Hp1r; exact Hex).
  assert (Hev1 : events (percpu w1r cur) i = Some e) by (rewrite Hp1r; exact Hev).
  destruct (setup_around HW armpmu cur e CPU_PM_EXIT i w1r Hi Hex1 Hev1)
    as ((Hpj & Hsj & Hmj) & Hstepj & Hsplitj & Hrestj).
  set (wj := cpu_pm_pmu_setup_upto armpmu CPU_PM_EXIT cur i w1r) in *.
  assert (Hslotj : cpu_pm_pmu_setup_slot armpmu CPU_PM_EXIT cur wj i =
                   armpmu_start armpmu e PERF_EF_RELOAD wj).
  { unfold cpu_pm_pmu_setup_slot. rewrite Hpj, Hp1r, Hbit, Hev. cbn [negb].
    rewrite Hsj, Hm1r, Hact1. rewrite Z.eqb_refl. cbn [negb].
    change (CPU_PM_EXIT =? CPU_PM_ENTER) with false.
    change (CPU_PM_EXIT =? CPU_PM_EXIT) with true. reflexivity. }
  rewrite Hslotj in Hstepj.
  destruct (armpmu_start_trace HW armpmu e PERF_EF_RELOAD wj) as (Hmemj & Hregsj).
  cbv zeta in Hmemj, Hregsj.
  assert (Hm2 : mem w2 e = mem (armpmu_start armpmu e PERF_EF_RELOAD wj) e).
  { unfold w2. rewrite <- Hstepj. apply Hrestj. rewrite Hstepj.
    rewrite armpmu_start_percpu. exact Hpj. }
  rewrite Hm1r in Hmj.
  split; [|split; [|split]].
  - split; [exact Hmi|].
    split; [rewrite Hstep; exact Hregs|].
    split; [exact Hsplit|].
    split; [rewrite Hm1; exact Hmem|].
    split; [rewrite Hm1, Hmem; reflexivity|exact Hcount1].
  - split; [exact Hmj|].
    split; [rewrite Hstepj, Hm2, Hmemj; exact Hregsj|].
    split; [unfold w2; rewrite Hsplitj; reflexivity|].
    rewrite Hm2, Hmemj, Hmj. reflexivity.
  - rewrite Hc2. exact Hcount1.
  - intros Hquiet Hrange. rewrite Hc2, Hcount1, Hquiet, Z.add_0_r.
    apply u64_id. exact Hrange.
Qed.

(** [cpu_pm_round_trip] on core 0 of [bank32], whose counters read back
    what was last written to them: the event armed on slot 0 with a period
    of 1000 is disabled after the stop hook and comes out of the entry
    stopped with its total; after the exit the counter has been written
    with the value it was armed with and enabled again, the start hook
    last, and the total is the one before the round trip. *)
Lemma cpu_pm_round_trip_witness :
  let w := counting_world in
  let entered := cpu_pm_pmu_common bank32 CPU_PM_ENTER 0 w in
  let exited := cpu_pm_pmu_common bank32 CPU_PM_EXIT 0 (snd entered) in
  fst entered = NOTIFY_OK /\
  stopped_from bank32 (mem w 7%nat) (mem (snd entered) 7%nat) /\
  fst exited = NOTIFY_OK /\
  armed bank32 (mem (snd exited) 7%nat) /\
  regs (snd entered) = [HwDisable 0; HwStop; HwEnable 0; HwWrite 0 4294966296] /\
  regs (snd exited) =
  [HwStart; HwEnable 0; HwWrite 0 4294966296; HwReset;
   HwDisable 0; HwStop; HwEnable 0; HwWrite 0 4294966296] /\
  count (mem (snd entered) 7%nat) = 5000 /\
  count (mem (snd exited) 7%nat) = 5000.
Proof.
  destruct (cpu_pm_round_trip (list hw_op) bank32 0 0 7%nat counting_world)
    as (H1 & _ & H3 & _ & _ & _ & H7 & H8 & _ & _ & _ & H12);
    [reflexivity|simpl; lia|reflexivity|reflexivity|reflexivity|reflexivity|].
  destruct H12 as ((_ & _ & Hent & _ & _ & Hc1) & (_ & _ & Hext & _) & _ & Hquiet).
  { intros j j' x Hj Hj'. cbn in Hj, Hj'.
    destruct (Z.eqb_spec j 0) as [->|_]; [|discriminate].
    destruct (Z.eqb_spec j' 0) as [->|_]; [reflexivity|discriminate]. }
  split; [exact H1|]. split; [exact H3|]. split; [exact H7|].
  split; [exact H8|].
  split; [rewrite Hent; reflexivity|].
  split; [rewrite Hext; reflexivity|].
  split; [rewrite Hc1; reflexivity|].
  apply Hquiet; [reflexivity|simpl; lia].
Defined.


(** ** GroupValidator *)

Lemma bitmap_weight_nat_le (m : Z) (k : nat) : bitmap_weight_nat m k <= Z.of_nat k.
Proof.
  induction k as [|k IH]; [simpl; lia|].
  cbn [bitmap_weight_nat]. destruct (Z.testbit m (Z.of_nat k)); lia.
Qed.

Lemma bitmap_weight_nat_ext (m m' : Z) (k : nat) :
  (forall j, (j < k)%nat -> Z.testbit m (Z.of_nat j) = Z.testbit m' (Z.of_nat j)) ->
  bitmap_weight_nat m k = bitmap_weight_nat m' k.
Proof.
  induction k as [|k IH]; intros H; [reflexivity|].
  cbn [bitmap_weight_nat]. rewrite (H k) by lia. rewrite IH; [reflexivity|].
  intros j Hj. apply H. lia.
Qed.

(** Marking a free slot below [k] raises the weight by one. *)
Lemma bitmap_weight_nat_setbit (m : Z) (k i : nat) :
  (i < k)%nat -> Z.testbit m (Z.of_nat i) = false ->
  bitmap_weight_nat (Z.setbit m (Z.of_nat i)) k = bitmap_weight_nat m k + 1.
Proof.
  induction k as [|k IH]; intros Hi Hb; [lia|].
  cbn [bitmap_weight_nat].
  destruct (Nat.eq_dec i k) as [->|Hne].
  - rewrite Z.setbit_eq by lia. rewrite Hb.
    rewrite (bitmap_weight_nat_ext (Z.setbit m (Z.of_nat k)) m k); [lia|].
    intros j Hj. apply Z.setbit_neq; lia.
  - rewrite IH by (lia || exact Hb).
    rewrite Z.setbit_neq by lia. lia.
Qed.

Section GroupValidation.

Variable HW : Type.
Variable armpmu : arm_pmu HW.
Variable is_software_event : perf_event -> bool.

Lemma validate_siblings_members (pmu_ : nat) (m : Z) (sibs tail : list perf_event) :
  members_validate armpmu is_software_event pmu_ m (sibs ++ tail) =
  match validate_siblings armpmu is_software_event pmu_ m sibs with
  | None => false
  | Some m' => members_validate armpmu is_software_event pmu_ m' tail
  end.
Proof.
  revert m. induction sibs as [|x sibs IH]; intros m; [reflexivity|].
  cbn [app members_validate validate_siblings].
  destruct (validate_event armpmu is_software_event pmu_ m x) as [ok m'].
  cbn [fst snd]. destruct (ok =? 0); [reflexivity|]. cbn [negb andb]. apply IH.
Qed.

(** [validate_group] accepts exactly when the leader, the siblings and the
    candidate validate in this order against one scratch map that starts
    empty, and answers [-EINVAL] otherwise. *)
Lemma validate_group_members (e : nat) (w : world HW) :
  validate_group armpmu is_software_event e w =
  if members_validate armpmu is_software_event (pmu (mem w e)) 0
       (mem w (group_leader (mem w e))
        :: map (mem w) (sibling_list (mem w (group_leader (mem w e))))
        ++ [mem w e])
  then 0 else - EINVAL.
Proof.
  unfold validate_group. cbn [members_validate].
  destruct (validate_event armpmu is_software_event (pmu (mem w e)) 0
              (mem w (group_leader (mem w e)))) as [ok m].
  cbn [fst snd]. destruct (ok =? 0); [reflexivity|]. cbn [negb andb].
  rewrite validate_siblings_members.
  destruct (validate_siblings armpmu is_software_event (pmu (mem w e)) m _) as [m'|];
    [|reflexivity].
  cbn [members_validate].
  destruct (validate_event armpmu is_software_event (pmu (mem w e)) m' (mem w e))
    as [ok' m''].
  cbn [fst snd]. destruct (ok' =? 0); reflexivity.
Qed.

(** Members that all compete for a slot and validate leave room in the
    scratch map for each of them. *)
Lemma members_validate_capacity (n : nat) (pmu_ : nat) (members : list perf_event) :
  slot_strategy armpmu n ->
  forallb (competes is_software_event) members = true ->
  forall m : Z,
    members_validate armpmu is_software_event pmu_ m members = true ->
    bitmap_weight_nat m n + Z.of_nat (List.length members) <= Z.of_nat n.
Proof.
  intros Hstrat. induction members as [|x rest IH]; intros Hcomp m Hval.
  - cbn [List.length]. pose proof (bitmap_weight_nat_le m n). lia.
  - cbn [forallb] in Hcomp. apply andb_true_iff in Hcomp. destruct Hcomp as [Hx Hrest].
    cbn [members_validate] in Hval. apply andb_true_iff in Hval.
    destruct Hval as [Hok Hval].
    unfold competes in Hx.
    apply andb_true_iff in Hx. destruct Hx as [Hx Hoff].
    apply andb_true_iff in Hx. destruct Hx as [Hsw Hlow].
    unfold validate_event in Hok, Hval.
    destruct (is_software_event x); [discriminate|].
    destruct (Nat.eqb (pmu x) pmu_); cbn [negb] in Hok, Hval; [|discriminate].
    destruct (ev_state x <? PERF_EVENT_STATE_OFF); [discriminate|].
    destruct ((ev_state x =? PERF_EVENT_STATE_OFF) && negb (enable_on_exec (attr x)));
      [discriminate|].
    pose proof (Hstrat m x) as Hs.
    destruct (get_event_idx armpmu m x) as [i m'].
    cbn [fst snd] in Hok, Hval, Hs.
    destruct (Z.geb_spec i 0) as [Hi|Hi]; [|discriminate].
    destruct (Hs ltac:(lia)) as (Hlt & Hfree & ->).
    specialize (IH Hrest _ Hval).
    rewrite <- (Z2Nat.id i) in IH, Hfree by lia.
    rewrite bitmap_weight_nat_setbit in IH by (lia || exact Hfree).
    cbn [List.length]. lia.
Qed.

(** C4, as the code has it.  [validate_group] answers [0] exactly when the
    leader, the siblings and the candidate all validate, in this order,
    against one scratch map that starts empty, and [-EINVAL] otherwise.  A
    software member validates and leaves the map alone; a hardware member
    of another PMU fails; a member of this PMU validates without a slot
    when its state is below PERF_EVENT_STATE_OFF, or when it is off without
    enable-on-exec; any other member validates exactly when the strategy
    returns a non-negative index, and the map becomes what the strategy
    left.  When the strategy hands out only free slots of an [n]-slot bank
    and the group has more members than [n], all competing for a slot, the
    group is rejected. *)
Theorem validate_group_atomic :
  forall (n : nat) (e : nat) (w : world HW),
    let p := pmu (mem w e) in
    let members :=
      mem w (group_leader (mem w e))
      :: map (mem w) (sibling_list (mem w (group_leader (mem w e)))) ++ [mem w e] in
    (validate_group armpmu is_software_event e w = 0 <->
     members_validate armpmu is_software_event p 0 members = true) /\
    (validate_group armpmu is_software_event e w = 0 \/
     validate_group armpmu is_software_event e w = - EINVAL) /\
    (forall (m : Z) (x : perf_event),
        let v := validate_event armpmu is_software_event p m x in
        (is_software_event x = true -> v = (1, m)) /\
        (is_software_event x = false -> pmu x <> p -> v = (0, m)) /\
        (is_software_event x = false -> pmu x = p ->
         ev_state x < PERF_EVENT_STATE_OFF -> v = (1, m)) /\
        (is_software_event x = false -> pmu x = p ->
         ev_state x = PERF_EVENT_STATE_OFF -> enable_on_exec (attr x) = false ->
         v = (1, m)) /\
        (competes is_software_event x = true -> pmu x = p ->
         v = ((if fst (get_event_idx armpmu m x) >=? 0 then 1 else 0),
              snd (get_event_idx armpmu m x)))) /\
    (slot_strategy armpmu n ->
     forallb (competes is_software_event) members = true ->
     (n < List.length members)%nat ->
     validate_group armpmu is_software_event e w = - EINVAL).
Proof.
  intros n e w p members.
  pose proof (validate_group_members e w) as Hg. fold p in Hg. fold members in Hg.
  split; [|split; [|split]].
  - rewrite Hg. destruct (members_validate _ _ _ _ _); split; intros H;
      try reflexivity; try discriminate.
  - rewrite Hg. destruct (members_validate _ _ _ _ _); [left|right]; reflexivity.
  - intros m x v. unfold v, validate_event, competes.
    repeat split.
    + intros ->. reflexivity.
    + intros -> Hp. apply Nat.eqb_neq in Hp. rewrite Hp. reflexivity.
    + intros -> Hp Hlt. apply Nat.eqb_eq in Hp. rewrite Hp. cbn [negb].
      apply Z.ltb_lt in Hlt. rewrite Hlt. reflexivity.
    + intros -> Hp Hoff Heoe. apply Nat.eqb_eq in Hp. rewrite Hp. cbn [negb].
      rewrite Hoff, Heoe. reflexivity.
    + intros Hc Hp. apply Nat.eqb_eq in Hp. rewrite Hp.
      apply andb_true_iff in Hc. destruct Hc as [Hc Hoff].
      apply andb_true_iff in Hc. destruct Hc as [Hsw Hlow].
      apply negb_true_iff in Hsw, Hlow, Hoff. rewrite Hsw, Hlow, Hoff.
      cbn [negb]. destruct (get_event_idx armpmu m x). reflexivity.
  - intros Hstrat Hcomp Hlen. rewrite Hg.
    destruct (members_validate armpmu is_software_event p 0 members) eqn:Hval;
      [|reflexivity].
    pose proof (members_validate_capacity n p members Hstrat Hcomp 0 Hval) as Hcap.
    pose proof (bitmap_weight_nat_nonneg 0 n). lia.
Qed.

End GroupValidation.

(** C4, the claim as stated fails, twice.  A hardware member of this PMU in
    the error state with enable-on-exec set is neither software nor off
    without enable-on-exec, yet it validates on a bank whose strategy finds
    no slot.  And four hardware members that are off without enable-on-exec
    are accepted as a group on a bank of three slots. *)
Lemma validate_group_takes_no_slot_when_off :
  (let x := group_member (-2) true [] in
   sample_is_software x = false /\ pmu x = 1%nat /\
   enable_on_exec (attr x) = true /\
   fst (get_event_idx full_bank 0 x) < 0 /\
   validate_event full_bank sample_is_software 1 0 x = (1, 0)) /\
  (let w := group_world PERF_EVENT_STATE_OFF false in
   num_events bank3 = 3 /\
   List.length (mem w (group_leader (mem w 4%nat))
                :: map (mem w) (sibling_list (mem w (group_leader (mem w 4%nat))))
                ++ [mem w 4%nat]) = 4%nat /\
   forallb (fun x => negb (sample_is_software x))
           (mem w (group_leader (mem w 4%nat))
            :: map (mem w) (sibling_list (mem w (group_leader (mem w 4%nat))))
            ++ [mem w 4%nat]) = true /\
   validate_group bank3 sample_is_software 4 w = 0).
Proof. vm_compute. repeat split. Qed.

(** First fit over [k] slots from [i] hands out only free slots. *)
Lemma first_fit_free (m : Z) (k : nat) :
  forall i : Z,
    0 <= i ->
    0 <= fst (first_fit m i k) ->
    i <= fst (first_fit m i k) < i + Z.of_nat k /\
    Z.testbit m (fst (first_fit m i k)) = false /\
    snd (first_fit m i k) = Z.setbit m (fst (first_fit m i k)).
Proof.
  induction k as [|k IH]; intros i Hi; cbn [first_fit].
  - cbn [fst]. lia.
  - destruct (Z.testbit m i) eqn:Hb.
    + intros Hf. destruct (IH (i + 1) ltac:(lia) Hf) as (Hr & Hfree & Hset).
      repeat split; try assumption; lia.
    + cbn [fst snd]. intros _. repeat split; try assumption; lia.
Qed.

(** [validate_group_atomic] on four running members and three slots. *)
Lemma validate_group_atomic_witness :
  slot_strategy bank3 3 /\
  validate_group bank3 sample_is_software 4 (group_world PERF_EVENT_STATE_ACTIVE false)
  = - EINVAL.
Proof.
  assert (Hs : slot_strategy bank3 3).
  { intros m evt Hf.
    destruct (first_fit_free m 3 0 ltac:(lia) Hf) as (Hr & Hfree & Hset).
    split; [exact (proj2 Hr)|]. split; [exact Hfree|exact Hset]. }
  split; [exact Hs|].
  destruct (validate_group_atomic (list hw_op) bank3 sample_is_software 3 4%nat
              (group_world PERF_EVENT_STATE_ACTIVE false)) as (_ & _ & _ & Hfull).
  apply Hfull; [exact Hs|reflexivity|simpl; lia].
Defined.

(** ** SubscriptionLifecycle: add and admission *)

Section Admission.

Variable HW : Type.
Variable armpmu : arm_pmu HW.
Variable is_software_event : perf_event -> bool.
Variable is_sampling_event : perf_event -> bool.
Variable has_branch_stack : perf_event -> bool.

(** C5.  On a core outside [supported_cpus], [armpmu_add] returns its one
    fixed error, [-ENOENT], the specification's NoSuchDevice, without
    asking the strategy, and changes nothing.  On a core the bank serves,
    when the strategy returns a negative value [armpmu_add] returns that
    very value and writes nothing itself: registers, events, slot owners,
    the interrupt line and the other cores are untouched, and [used_mask]
    is as the strategy left it, so that the per-core state is unchanged
    when the strategy, having found no slot, left the map alone.  These are
    the only rejections: on a served core, a slot handed out by the
    strategy makes [armpmu_add] return [0]. *)
Theorem armpmu_add_rejects :
  forall (e : nat) (flags cur : Z) (w : world HW),
    (cpumask_test_cpu cur (supported_cpus armpmu) = false ->
     armpmu_add armpmu e flags cur w = (- ENOENT, w)) /\
    (cpumask_test_cpu cur (supported_cpus armpmu) = true ->
     fst (get_event_idx armpmu (used_mask (percpu w cur)) (mem w e)) < 0 ->
     let res := armpmu_add armpmu e flags cur w in
     fst res = fst (get_event_idx armpmu (used_mask (percpu w cur)) (mem w e)) /\
     regs (snd res) = regs w /\
     mem (snd res) = mem w /\
     (forall c, c <> cur -> percpu (snd res) c = percpu w c) /\
     events (percpu (snd res) cur) = events (percpu w cur) /\
     irq (percpu (snd res) cur) = irq (percpu w cur) /\
     used_mask (percpu (snd res) cur) =
     snd (get_event_idx armpmu (used_mask (percpu w cur)) (mem w e)) /\
     (snd (get_event_idx armpmu (used_mask (percpu w cur)) (mem w e)) =
      used_mask (percpu w cur) ->
      forall c, percpu (snd res) c = percpu w c)) /\
    (cpumask_test_cpu cur (supported_cpus armpmu) = true ->
     0 <= fst (get_event_idx armpmu (used_mask (percpu w cur)) (mem w e)) ->
     fst (armpmu_add armpmu e flags cur w) = 0) /\
    (fst (armpmu_add armpmu e flags cur w) < 0 <->
     cpumask_test_cpu cur (supported_cpus armpmu) = false \/
     fst (get_event_idx armpmu (used_mask (percpu w cur)) (mem w e)) < 0).
Proof.
  intros e flags cur w. unfold armpmu_add.
  split; [|split; [|split]].
  - intros ->. reflexivity.
  - intros -> Hneg. cbn [negb].
    destruct (get_event_idx armpmu (used_mask (percpu w cur)) (mem w e)) as [i m].
    cbn [fst snd] in *.
    apply Z.ltb_lt in Hneg. rewrite Hneg. cbn [fst snd regs mem percpu set_percpu].
    assert (Hcur : upd_Z cur (set_used_mask m (percpu w cur)) (percpu w) cur =
                   set_used_mask m (percpu w cur)).
    { unfold upd_Z. rewrite Z.eqb_refl. reflexivity. }
    assert (Hoth : forall c, c <> cur ->
                   upd_Z cur (set_used_mask m (percpu w cur)) (percpu w) c = percpu w c).
    { intros c Hc. unfold upd_Z. apply Z.eqb_neq in Hc. rewrite Hc. reflexivity. }
    rewrite Hcur. repeat split; try reflexivity; try exact Hoth.
    intros -> c. destruct (Z.eq_dec c cur) as [->|Hc]; [|apply Hoth; exact Hc].
    rewrite Hcur. destruct (percpu w cur). reflexivity.
  - intros -> Hpos. cbn [negb].
    destruct (get_event_idx armpmu (used_mask (percpu w cur)) (mem w e)) as [i m].
    cbn [fst] in Hpos. apply Z.ltb_ge in Hpos. rewrite Hpos. reflexivity.
  - destruct (cpumask_test_cpu cur (supported_cpus armpmu)); cbn [negb fst].
    + destruct (get_event_idx armpmu (used_mask (percpu w cur)) (mem w e)) as [i m].
      cbn [fst]. destruct (Z.ltb_spec i 0) as [Hlt|Hge]; cbn [fst].
      * split; [intros _; right; exact Hlt|intros _; exact Hlt].
      * split; [intros H; lia|intros [H|H]; [discriminate|lia]].
    + split; [intros _; left; reflexivity|intros _; reflexivity].
Qed.

(** C9, as the code has it.  [armpmu_event_init] tests the core the
    request is bound to before it looks at the branch stack.  A request
    for branch-stack sampling that follows a task, or is bound to a core
    the bank serves, is rejected with [-EOPNOTSUPP], which is
    NotImplemented; one bound to a core outside [supported_cpus] is
    rejected with [-ENOENT] first.  Either way the answer is given whatever
    the bank's [map_event], filter and strategy are and whatever kind the
    event has, and the world is left as it was. *)
Theorem armpmu_event_init_branch_stack :
  forall (e : nat) (w : world HW),
    has_branch_stack (mem w e) = true ->
    let res := armpmu_event_init armpmu is_software_event is_sampling_event
                                 has_branch_stack e w in
    (cpu (mem w e) = -1 \/
     cpumask_test_cpu (cpu (mem w e)) (supported_cpus armpmu) = true ->
     res = (- EOPNOTSUPP, w) /\
     error_kind_of (fst res) = Some NotImplemented) /\
    (cpu (mem w e) <> -1 ->
     cpumask_test_cpu (cpu (mem w e)) (supported_cpus armpmu) = false ->
     res = (- ENOENT, w)) /\
    (res = (- EOPNOTSUPP, w) \/ res = (- ENOENT, w)) /\
    (fst res = - EOPNOTSUPP <->
     cpu (mem w e) = -1 \/
     cpumask_test_cpu (cpu (mem w e)) (supported_cpus armpmu) = true).
Proof.
  intros e w Hbs res. unfold res, armpmu_event_init.
  destruct (Z.eqb_spec (cpu (mem w e)) (-1)) as [Hc|Hc]; cbn [negb andb].
  - rewrite Hbs. cbn [fst].
    split; [intros _; split; reflexivity|].
    split; [intros H; contradiction|].
    split; [left; reflexivity|].
    split; [intros _; left; exact Hc|reflexivity].
  - destruct (cpumask_test_cpu (cpu (mem w e)) (supported_cpus armpmu)) eqn:Hs;
      cbn [negb].
    + rewrite Hbs. cbn [fst].
      split; [intros _; split; reflexivity|].
      split; [discriminate|].
      split; [left; reflexivity|].
      split; [intros _; right; reflexivity|reflexivity].
    + cbn [fst].
      split; [intros [H|H]; [contradiction|discriminate]|].
      split; [reflexivity|].
      split; [right; reflexivity|].
      split; [discriminate|intros [H|H]; [contradiction|discriminate]].
Qed.

End Admission.

(** [armpmu_add_rejects] on core 5, which [bank32] does not serve, and on
    the bank whose strategy finds no slot and answers [-11]. *)
Lemma armpmu_add_rejects_witness :
  armpmu_add bank32 7 0 5 fresh_world = (- ENOENT, fresh_world) /\
  fst (armpmu_add full_bank 7 0 0 fresh_world) = -11 /\
  (forall c, percpu (snd (armpmu_add full_bank 7 0 0 fresh_world)) c = percpu fresh_world c) /\
  fst (armpmu_add bank32 7 0 0 fresh_world) = 0.
Proof.
  destruct (armpmu_add_rejects (list hw_op) full_bank 7%nat 0 0 fresh_world)
    as (_ & H & _).
  destruct (H eq_refl ltac:(simpl; lia)) as (H1 & _ & _ & _ & _ & _ & _ & H8).
  destruct (armpmu_add_rejects (list hw_op) bank32 7%nat 0 5 fresh_world) as (H0 & _).
  destruct (armpmu_add_rejects (list hw_op) bank32 7%nat 0 0 fresh_world)
    as (_ & _ & Hok & _).
  split; [exact (H0 eq_refl)|]. split; [exact H1|]. split; [exact (H8 eq_refl)|].
  apply Hok; [reflexivity|simpl; lia].
Defined.

(** C9, the claim as stated fails: a branch-stack request bound to core 5,
    which the bank does not serve, is rejected with [-ENOENT], not with
    [-EOPNOTSUPP]. *)
Lemma armpmu_event_init_branch_stack_foreign_core :
  sample_has_branch_stack (mem (branch_world 5) 7%nat) = true /\
  fst (armpmu_event_init bank32 sample_is_software sample_is_sampling
                         sample_has_branch_stack 7 (branch_world 5)) = - ENOENT /\
  - ENOENT <> - EOPNOTSUPP.
Proof. vm_compute. repeat split. discriminate. Qed.

(** [armpmu_event_init_branch_stack] on the request that follows a task
    and on the request bound to core 5, which [bank32] does not serve. *)
Lemma armpmu_event_init_branch_stack_witness :
  armpmu_event_init bank32 sample_is_software sample_is_sampling
                    sample_has_branch_stack 7 (branch_world (-1))
  = (- EOPNOTSUPP, branch_world (-1)) /\
  error_kind_of
    (fst (armpmu_event_init bank32 sample_is_software sample_is_sampling
                            sample_has_branch_stack 7 (branch_world (-1))))
  = Some NotImplemented /\
  armpmu_event_init bank32 sample_is_software sample_is_sampling
                    sample_has_branch_stack 7 (branch_world 5)
  = (- ENOENT, branch_world 5).
Proof.
  destruct (armpmu_event_init_branch_stack (list hw_op) bank32 sample_is_software
              sample_is_sampling sample_has_branch_stack 7%nat (branch_world (-1)))
    as (Htask & _); [reflexivity|].
  destruct (armpmu_event_init_branch_stack (list hw_op) bank32 sample_is_software
              sample_is_sampling sample_has_branch_stack 7%nat (branch_world 5))
    as (_ & Hforeign & _); [reflexivity|].
  destruct (Htask (or_introl eq_refl)) as [H1 H2].
  split; [exact H1|]. split; [exact H2|].
  apply Hforeign; [discriminate|reflexivity].
Defined.

(** ** InterruptRouter *)

(** What [armpmu_request_irq] guarantees on every path: a per-cpu line
    that differs from the line of the first active core is refused with
    [-EINVAL], which is InvalidArgument, and nothing is changed; a failure
    leaves the operating state and the active cores as they were; the
    state becomes RUNNING with the core marked active only when the call
    returns [0]. *)
Lemma armpmu_request_irq_outcomes :
  forall (ic : irq_core) (cpu_irq : Z -> Z) (cur : Z) (st : arm_pmu_irqs),
    let res := armpmu_request_irq ic cpu_irq cur st in
    (cpu_irq cur <> 0 ->
     irq_is_percpu ic (cpu_irq cur) = true ->
     cpumask_empty (active_irqs st) = false ->
     cpu_irq (cpumask_first (nr_cpu_ids ic) (active_irqs st)) <> cpu_irq cur ->
     res = (- EINVAL, st)) /\
    (fst res <> 0 ->
     pmu_state (snd res) = pmu_state st /\ active_irqs (snd res) = active_irqs st) /\
    (snd res = st \/
     (fst res <> 0 /\ percpu_irq (snd res) = cpu_irq cur) \/
     (fst res = 0 /\ pmu_state (snd res) = ARM_PMU_STATE_RUNNING /\
      active_irqs (snd res) = cpumask_set_cpu cur (active_irqs st))).
Proof.
  intros ic cpu_irq cur st res. unfold res, armpmu_request_irq, request_irq_finish.
  split; [|split].
  - intros Hirq Hper Hact Hmis.
    apply Z.eqb_neq in Hirq. rewrite Hirq, Hper, Hact. cbn [andb].
    assert (Hne : (cpu_irq cur =? cpu_irq (cpumask_first (nr_cpu_ids ic) (active_irqs st)))
                  = false).
    { apply Z.eqb_neq. intros Heq. apply Hmis. symmetry. exact Heq. }
    rewrite Hne. reflexivity.
  - destruct (cpu_irq cur =? 0); [cbn; intros H; contradiction H; reflexivity|].
    destruct (irq_is_percpu ic (cpu_irq cur) && cpumask_empty (active_irqs st)).
    { destruct (request_percpu_irq ic (cpu_irq cur) =? 0); cbn;
        [intros H; contradiction H; reflexivity|intros _; split; reflexivity]. }
    destruct (irq_is_percpu ic (cpu_irq cur)).
    { destruct (cpu_irq cur =? cpu_irq _); cbn;
        [intros H; contradiction H; reflexivity|intros _; split; reflexivity]. }
    destruct (negb (irq_force_affinity ic (cpu_irq cur) cur =? 0) &&
              (num_possible_cpus ic >? 1));
      [intros _; split; reflexivity|].
    destruct (request_irq ic (cpu_irq cur) _ cur =? 0); cbn;
      [intros H; contradiction H; reflexivity|intros _; split; reflexivity].
  - destruct (cpu_irq cur =? 0); [left; reflexivity|].
    destruct (irq_is_percpu ic (cpu_irq cur) && cpumask_empty (active_irqs st)).
    { destruct (Z.eqb_spec (request_percpu_irq ic (cpu_irq cur)) 0) as [Hz|Hz]; cbn;
        right; [right|left]; repeat split; assumption. }
    destruct (irq_is_percpu ic (cpu_irq cur)).
    { destruct (cpu_irq cur =? cpu_irq _); cbn; [right; right|left]; repeat split. }
    destruct (negb (irq_force_affinity ic (cpu_irq cur) cur =? 0) &&
              (num_possible_cpus ic >? 1));
      [left; reflexivity|].
    destruct (request_irq ic (cpu_irq cur) _ cur =? 0); cbn;
      [right; right|left]; repeat split.
Qed.

(** C6, where the code departs from the claim.  A bank holds no line
    ([percpu_irq = -1], no active core, OFF) and core 0 is wired to the
    per-cpu line 23.  [request_percpu_irq] fails with [-EBUSY]:
    [armpmu_request_irq] reports [-EBUSY] and leaves the operating state and
    the active cores as they were, but the recorded shared line is now 23.
    On an interrupt core that grants the request the same call succeeds. *)
Theorem armpmu_request_irq_records_line_on_failure :
  armpmu_request_irq busy_irq_core (fun _ => 23) 0 no_line =
  (- EBUSY, {| pmu_state := ARM_PMU_STATE_OFF; percpu_irq := 23; active_irqs := 0 |}) /\
  percpu_irq (snd (armpmu_request_irq busy_irq_core (fun _ => 23) 0 no_line)) <>
  percpu_irq no_line /\
  armpmu_request_irq granting_irq_core (fun _ => 23) 0 no_line =
  (0, {| pmu_state := ARM_PMU_STATE_RUNNING; percpu_irq := 23; active_irqs := 1 |}).
Proof. vm_compute. repeat split. discriminate. Qed.

(** ** EventMapper *)

Lemma byte_of (x k : Z) : 0 <= k -> Z.land (Z.shiftr x k) 255 = (x / 2 ^ k) mod 2 ^ 8.
Proof.
  intros Hk. rewrite Z.shiftr_div_pow2 by exact Hk.
  change 255 with (Z.ones 8). apply Z.land_ones. lia.
Qed.

Lemma u32_s32 (x : Z) : u32 (s32 x) = u32 x.
Proof.
  unfold u32, s32.
  rewrite <- Zminus_mod_idemp_l, Z.mod_mod by lia.
  rewrite Zminus_mod_idemp_l. f_equal. lia.
Qed.

Lemma s32_id (x : Z) : - 2 ^ 31 <= x < 2 ^ 31 -> s32 x = x.
Proof. intros H. unfold s32. rewrite Z.mod_small; lia. Qed.

Section Mapping.

Variable PERF_COUNT_HW_CACHE_MAX : Z.
Variable PERF_COUNT_HW_CACHE_OP_MAX : Z.
Variable PERF_COUNT_HW_CACHE_RESULT_MAX : Z.
Variable CACHE_OP_UNSUPPORTED : Z.
Variable PERF_COUNT_HW_MAX : Z.
Variable HW_OP_UNSUPPORTED : Z.

(** C8.  [armpmu_map_cache_event] reads the type from byte 0 of [config],
    the operation from byte 1 and the result from byte 2, so that
    [0x010203] gives type 3, operation 2, result 1.  A sub-field at or
    above its bound gives [-EINVAL] (InvalidArgument); with all three within
    bounds, a missing table or a sentinel entry gives [-ENOENT]
    (NotSupported), and any other entry is returned.  [armpmu_map_raw_event]
    returns the 32-bit word [config & raw_event_mask], which is that very
    number whenever the mask fits 31 bits, without testing anything:
    [0xABCD] under the mask [0xFF] gives [0xCD].  [armpmu_map_event] resolves
    the cache kind with the former and the raw kind, like the bank's own
    type, with the latter. *)
Theorem armpmu_map_event_decodes :
  forall (cache_map : option (Z -> Z -> Z -> Z)) (config raw_event_mask : Z)
         (event_map : option (Z -> Z)) (pmu_type : Z) (a : perf_event_attr),
    let cache_code :=
      armpmu_map_cache_event PERF_COUNT_HW_CACHE_MAX PERF_COUNT_HW_CACHE_OP_MAX
                             PERF_COUNT_HW_CACHE_RESULT_MAX CACHE_OP_UNSUPPORTED
                             cache_map config in
    (cache_type config = config mod 2 ^ 8 /\
     cache_op config = (config / 2 ^ 8) mod 2 ^ 8 /\
     cache_result config = (config / 2 ^ 16) mod 2 ^ 8) /\
    (cache_type 66051 = 3 /\ cache_op 66051 = 2 /\ cache_result 66051 = 1) /\
    (PERF_COUNT_HW_CACHE_MAX <= cache_type config \/
     PERF_COUNT_HW_CACHE_OP_MAX <= cache_op config \/
     PERF_COUNT_HW_CACHE_RESULT_MAX <= cache_result config ->
     cache_code = - EINVAL /\
     error_kind_of (cache_code) = Some InvalidArgument) /\
    (cache_type config < PERF_COUNT_HW_CACHE_MAX ->
     cache_op config < PERF_COUNT_HW_CACHE_OP_MAX ->
     cache_result config < PERF_COUNT_HW_CACHE_RESULT_MAX ->
     match cache_map with
     | None =>
         cache_code = - ENOENT /\
         error_kind_of (cache_code) = Some NotSupported
     | Some tbl =>
         let entry := u32 (tbl (cache_type config) (cache_op config) (cache_result config)) in
         if entry =? CACHE_OP_UNSUPPORTED
         then cache_code = - ENOENT /\
              error_kind_of (cache_code) = Some NotSupported
         else cache_code = s32 entry
     end) /\
    (0 <= raw_event_mask < 2 ^ 32 ->
     u32 (armpmu_map_raw_event raw_event_mask config) = Z.land config raw_event_mask) /\
    (0 <= raw_event_mask < 2 ^ 31 ->
     armpmu_map_raw_event raw_event_mask config = Z.land config raw_event_mask) /\
    armpmu_map_raw_event 255 43981 = 205 /\
    (s32 (attr_type a) = PERF_TYPE_HW_CACHE -> pmu_type <> PERF_TYPE_HW_CACHE ->
     armpmu_map_event PERF_COUNT_HW_MAX PERF_COUNT_HW_CACHE_MAX
                      PERF_COUNT_HW_CACHE_OP_MAX PERF_COUNT_HW_CACHE_RESULT_MAX
                      HW_OP_UNSUPPORTED CACHE_OP_UNSUPPORTED
                      pmu_type a event_map cache_map raw_event_mask =
     armpmu_map_cache_event PERF_COUNT_HW_CACHE_MAX PERF_COUNT_HW_CACHE_OP_MAX
                            PERF_COUNT_HW_CACHE_RESULT_MAX CACHE_OP_UNSUPPORTED
                            cache_map (attr_config a)) /\
    (s32 (attr_type a) = PERF_TYPE_RAW \/ s32 (attr_type a) = pmu_type ->
     armpmu_map_event PERF_COUNT_HW_MAX PERF_COUNT_HW_CACHE_MAX
                      PERF_COUNT_HW_CACHE_OP_MAX PERF_COUNT_HW_CACHE_RESULT_MAX
                      HW_OP_UNSUPPORTED CACHE_OP_UNSUPPORTED
                      pmu_type a event_map cache_map raw_event_mask =
     armpmu_map_raw_event raw_event_mask (attr_config a)).
Proof.
  intros cache_map config raw_event_mask event_map pmu_type a cache_code.
  unfold cache_code.
  split; [|split; [|split; [|split; [|split; [|split; [|split; [|split]]]]]]].
  - unfold cache_type, cache_op, cache_result.
    rewrite !byte_of by lia. rewrite Z.pow_0_r, Z.div_1_r. repeat split.
  - repeat split.
  - unfold armpmu_map_cache_event. intros H.
    destruct (Z.geb_spec (cache_type config) PERF_COUNT_HW_CACHE_MAX) as [H1|H1];
      [split; reflexivity|].
    destruct (Z.geb_spec (cache_op config) PERF_COUNT_HW_CACHE_OP_MAX) as [H2|H2];
      [split; reflexivity|].
    destruct (Z.geb_spec (cache_result config) PERF_COUNT_HW_CACHE_RESULT_MAX) as [H3|H3];
      [split; reflexivity|].
    lia.
  - unfold armpmu_map_cache_event. intros H1 H2 H3.
    destruct (Z.geb_spec (cache_type config) PERF_COUNT_HW_CACHE_MAX) as [H1'|_]; [lia|].
    destruct (Z.geb_spec (cache_op config) PERF_COUNT_HW_CACHE_OP_MAX) as [H2'|_]; [lia|].
    destruct (Z.geb_spec (cache_result config) PERF_COUNT_HW_CACHE_RESULT_MAX) as [H3'|_];
      [lia|].
    destruct cache_map as [tbl|]; [|split; reflexivity].
    cbv zeta.
    destruct (u32 (tbl (cache_type config) (cache_op config) (cache_result config))
              =? CACHE_OP_UNSUPPORTED); [split; reflexivity|reflexivity].
  - intros Hm. unfold armpmu_map_raw_event. rewrite u32_s32.
    pose proof (land_bounds config raw_event_mask ltac:(lia)).
    unfold u32. apply Z.mod_small. lia.
  - intros Hm. unfold armpmu_map_raw_event.
    pose proof (land_bounds config raw_event_mask ltac:(lia)).
    apply s32_id. lia.
  - reflexivity.
  - intros Hty Hpmu. unfold armpmu_map_event. rewrite Hty.
    apply Z.eqb_neq in Hpmu. rewrite Z.eqb_sym, Hpmu. reflexivity.
  - intros Hty. unfold armpmu_map_event.
    destruct (Z.eqb_spec (s32 (attr_type a)) pmu_type) as [_|Hne]; [reflexivity|].
    destruct Hty as [Hty|Hty]; [rewrite Hty; reflexivity|contradiction].
Qed.

End Mapping.

(** [armpmu_map_event_decodes] with the bounds of the perf ABI (7 cache
    types, 3 operations, 2 results) and the sentinel [0xFFFF]: result 2 of
    [0x020000] is out of bounds, the entry of [0x010203] is the sentinel,
    and the entry of [0] is the code [0x04]. *)
Lemma armpmu_map_event_decodes_witness :
  let tbl := fun t o r : Z => if (t =? 0) && (o =? 0) && (r =? 0) then 4 else 65535 in
  let cache_attr := {| attr_type := PERF_TYPE_HW_CACHE; attr_config := 0;
                       attr_sample_period := 0; sample_type := 0;
                       enable_on_exec := false; exclude_idle := false;
                       exclude_user := false; exclude_kernel := false;
                       exclude_hv := false |} in
  armpmu_map_cache_event 7 3 2 65535 (Some tbl) 131072 = - EINVAL /\
  armpmu_map_cache_event 7 3 2 65535 None 66051 = - ENOENT /\
  armpmu_map_cache_event 7 3 2 65535 (Some tbl) 66051 = - ENOENT /\
  armpmu_map_cache_event 7 3 2 65535 (Some tbl) 0 = 4 /\
  armpmu_map_raw_event 255 43981 = Z.land 43981 255 /\
  armpmu_map_event 10 7 3 2 65535 65535 8 cache_attr None (Some tbl) 255 = 4 /\
  armpmu_map_event 10 7 3 2 65535 65535 8 (sample_attr false 0) None (Some tbl) 255 = 17.
Proof.
  intros tbl cache_attr.
  destruct (armpmu_map_event_decodes 7 3 2 65535 10 65535
              (Some tbl) 131072 255 None 8 cache_attr)
    as (_ & _ & H1 & _).
  destruct (armpmu_map_event_decodes 7 3 2 65535 10 65535
              None 66051 255 None 8 cache_attr)
    as (_ & _ & _ & H2 & _).
  destruct (armpmu_map_event_decodes 7 3 2 65535 10 65535
              (Some tbl) 66051 255 None 8 cache_attr)
    as (_ & _ & _ & H3 & _).
  destruct (armpmu_map_event_decodes 7 3 2 65535 10 65535
              (Some tbl) 0 255 None 8 cache_attr)
    as (_ & _ & _ & H4 & _ & _ & _ & H6 & _).
  destruct (armpmu_map_event_decodes 7 3 2 65535 10 65535
              (Some tbl) 43981 255 None 8 (sample_attr false 0))
    as (_ & _ & _ & _ & _ & H5 & _ & _ & H7).
  assert (P1 := H1 ltac:(right; right; now vm_compute)).
  assert (P2 := H2 ltac:(now vm_compute) ltac:(now vm_compute) ltac:(now vm_compute)).
  assert (P3 := H3 ltac:(now vm_compute) ltac:(now vm_compute) ltac:(now vm_compute)).
  assert (P4 := H4 ltac:(now vm_compute) ltac:(now vm_compute) ltac:(now vm_compute)).
  assert (P5 := H5 ltac:(lia)).
  assert (P6 := H6 eq_refl ltac:(now vm_compute)).
  assert (P7 := H7 ltac:(left; reflexivity)).
  split; [exact (proj1 P1)|]. split; [exact (proj1 P2)|].
  split; [exact (proj1 P3)|]. split; [exact P4|]. split; [exact P5|].
  split; [rewrite P6; exact P4|rewrite P7; reflexivity].
Defined.

(** ** Registration and the legacy queries *)

Section Singleton.

Variable HW : Type.
Variable banks : nat -> arm_pmu HW.

Lemma armpmu_register_set (p q : nat) (r : register_results) :
  snd (armpmu_register p r (Some q)) = Some q.
Proof.
  unfold armpmu_register.
  destruct (negb (cpu_pmu_init r =? 0)); [reflexivity|].
  destruct (negb (perf_pmu_register r =? 0)); reflexivity.
Qed.

Lemma armpmu_register_unset (p : nat) (r : register_results) :
  snd (armpmu_register p r None) =
  if (cpuhp_state_add_instance r =? 0) && (cpu_pm_register_notifier r =? 0)
     && (perf_pmu_register r =? 0)
  then Some p else None.
Proof.
  unfold armpmu_register, cpu_pmu_init.
  destruct (cpuhp_state_add_instance r =? 0) eqn:H1; cbn [negb andb].
  - destruct (cpu_pm_register_notifier r =? 0) eqn:H2; cbn [negb andb].
    + change (0 =? 0) with true. cbn [negb].
      destruct (perf_pmu_register r =? 0); reflexivity.
    + rewrite H2. reflexivity.
  - rewrite H1. reflexivity.
Qed.

Lemma register_all_cons (p : nat) (r : register_results)
      (rs : list (nat * register_results)) (g : option nat) :
  register_all ((p, r) :: rs) g = register_all rs (snd (armpmu_register p r g)).
Proof. reflexivity. Qed.

Lemma register_all_set (rs : list (nat * register_results)) (q : nat) :
  register_all rs (Some q) = Some q.
Proof.
  induction rs as [|[p r] rs IH]; [reflexivity|].
  rewrite register_all_cons, armpmu_register_set. exact IH.
Qed.

Lemma register_all_first (rs : list (nat * register_results)) :
  register_all rs None = first_registered rs.
Proof.
  induction rs as [|[p r] rs IH]; [reflexivity|].
  rewrite register_all_cons, armpmu_register_unset. cbn [first_registered].
  destruct ((cpuhp_state_add_instance r =? 0) && (cpu_pm_register_notifier r =? 0)
            && (perf_pmu_register r =? 0));
    [apply register_all_set|exact IH].
Qed.

(** C10.  With no bank registered the name query returns NULL and the
    counter query [0].  After any run of registrations the singleton is
    the first bank whose registration succeeded, both queries report that
    bank's name and counter count, and no further registration changes
    what they report. *)
Theorem oprofile_pmu_first_registered :
  forall (rs more : list (nat * register_results)),
    perf_pmu_name HW banks None = None /\
    perf_num_counters HW banks None = 0 /\
    register_all rs None = first_registered rs /\
    perf_pmu_name HW banks (register_all rs None) =
    option_map (fun p => name (banks p)) (first_registered rs) /\
    perf_num_counters HW banks (register_all rs None) =
    match first_registered rs with
    | Some p => num_events (banks p)
    | None => 0
    end /\
    (forall (p q : nat) (r : register_results),
        snd (armpmu_register p r (Some q)) = Some q) /\
    match first_registered rs with
    | Some p =>
        register_all (rs ++ more) None = Some p /\
        perf_pmu_name HW banks (register_all (rs ++ more) None) = Some (name (banks p)) /\
        perf_num_counters HW banks (register_all (rs ++ more) None) = num_events (banks p)
    | None => register_all (rs ++ more) None = first_registered more
    end.
Proof.
  intros rs more.
  split; [reflexivity|]. split; [reflexivity|].
  split; [apply register_all_first|].
  split; [rewrite register_all_first; destruct (first_registered rs); reflexivity|].
  split; [rewrite register_all_first; destruct (first_registered rs); reflexivity|].
  split; [intros p q r; apply armpmu_register_set|].
  assert (Happ : register_all (rs ++ more) None =
                 register_all more (register_all rs None)).
  { unfold register_all. apply fold_left_app. }
  rewrite Happ, register_all_first.
  destruct (first_registered rs) as [p|].
  - rewrite register_all_set. repeat split.
  - apply register_all_first.
Qed.

End Singleton.

(* ================================================================== *)
(** * Further properties of the driver *)

(** ** Arming and accounting together *)

Lemma mod_mod_32_64 (x : Z) : (x mod 2 ^ 64) mod 2 ^ 32 = x mod 2 ^ 32.
Proof.
  apply Z.mod_mod_divide. exists (2 ^ 32). reflexivity.
Qed.

Lemma land_mask32 (x : Z) : Z.land x 4294967295 = x mod 2 ^ 32.
Proof. change 4294967295 with (Z.ones 32). apply Z.land_ones. lia. Qed.

Section ArmAndCount.

Variable HW : Type.
Variable armpmu : arm_pmu HW.

(** The outcome of [set_period_event] for a positive period that fits 63
    bits, field by field. *)
Lemma set_period_event_positive (evt : perf_event) :
  0 <= max_period armpmu < 2 ^ 64 ->
  0 < sample_period (hw evt) < 2 ^ 63 ->
  - 2 ^ 63 <= period_left (hw evt) < 2 ^ 63 ->
  let L := period_left (hw evt) in
  let P := sample_period (hw evt) in
  let L' := if L <=? - P then P else if L <=? 0 then L + P else L in
  let res := set_period_event armpmu evt in
  fst (fst res) = Z.min L' (Z.shiftr (max_period armpmu) 1) /\
  snd res = (if L <=? 0 then 1 else 0) /\
  period_left (hw (snd (fst res))) = L' /\
  prev_count (hw (snd (fst res))) = u64 (- fst (fst res)) /\
  sample_period (hw (snd (fst res))) = P /\
  hwc_state (hw (snd (fst res))) = hwc_state (hw evt) /\
  idx (hw (snd (fst res))) = idx (hw evt) /\
  count (snd (fst res)) = count evt /\
  ev_state (snd (fst res)) = ev_state evt /\
  (0 < L -> snd (fst res) = set_hw (set_prev_count (u64 (- fst (fst res))) (hw evt)) evt).
Proof.
  intros Hm Hp Hl.
  assert (Hhalf : 0 <= Z.shiftr (max_period armpmu) 1 < 2 ^ 63).
  { rewrite Z.shiftr_div_pow2 by lia. change (2 ^ 1) with 2.
    split; [apply Z.div_pos; lia|apply Z.div_lt_upper_bound; lia]. }
  unfold set_period_event. cbv zeta.
  rewrite (s64_id (sample_period (hw evt))) by lia.
  rewrite (s64_id (- sample_period (hw evt))) by lia.
  destruct (Z.leb_spec (period_left (hw evt)) (- sample_period (hw evt))) as [H1|H1].
  - destruct (Z.leb_spec (sample_period (hw evt)) 0) as [H3|H3]; [lia|].
    destruct (Z.leb_spec (period_left (hw evt)) 0) as [H4|H4]; [|lia].
    rewrite (u64_id (sample_period (hw evt))) by lia.
    rewrite Z.gtb_ltb.
    destruct (Z.ltb_spec (Z.shiftr (max_period armpmu) 1) (sample_period (hw evt)));
      [rewrite (s64_id (Z.shiftr (max_period armpmu) 1)) by lia; rewrite Z.min_r by lia
      |rewrite Z.min_l by lia];
      cbn; repeat split; try reflexivity; lia.
  - destruct (Z.leb_spec (period_left (hw evt)) 0) as [H4|H4].
    + rewrite (s64_id (period_left (hw evt) + sample_period (hw evt))) by lia.
      rewrite (u64_id (period_left (hw evt) + sample_period (hw evt))) by lia.
      rewrite Z.gtb_ltb.
      destruct (Z.ltb_spec (Z.shiftr (max_period armpmu) 1)
                           (period_left (hw evt) + sample_period (hw evt)));
        [rewrite (s64_id (Z.shiftr (max_period armpmu) 1)) by lia; rewrite Z.min_r by lia
        |rewrite Z.min_l by lia];
        cbn; repeat split; try reflexivity; lia.
    + rewrite (u64_id (period_left (hw evt))) by lia.
      rewrite Z.gtb_ltb.
      destruct (Z.ltb_spec (Z.shiftr (max_period armpmu) 1) (period_left (hw evt)));
        [rewrite (s64_id (Z.shiftr (max_period armpmu) 1)) by lia; rewrite Z.min_r by lia
        |rewrite Z.min_l by lia];
        cbn; repeat split; try reflexivity; lia.
Qed.

(** X1.  On a 32-bit bank, arm an event whose period is positive and fits
    63 bits, and let its counter advance by [k] counts, [k] below [2^32],
    from the value written: the next [armpmu_event_update] returns the
    counter value, adds exactly [k] to the running total and takes exactly
    [k] off [period_left]. *)
Theorem arm_then_update_accounts_counts :
  forall (e : nat) (w : world HW) (r : HW) (k : Z),
    max_period armpmu = 4294967295 ->
    0 < sample_period (hw (mem w e)) < 2 ^ 63 ->
    - 2 ^ 63 <= period_left (hw (mem w e)) < 2 ^ 63 ->
    0 <= k < 2 ^ 32 ->
    let armed_w := snd (armpmu_event_set_period armpmu e w) in
    let raw := Z.land (prev_count (hw (mem armed_w e))) 4294967295 in
    read_counter armpmu (mem armed_w e) r = (raw + k) mod 2 ^ 32 ->
    let res := armpmu_event_update armpmu e (set_regs r armed_w) in
    (exists evt', regs armed_w = write_counter armpmu evt' raw (regs w)) /\
    fst res = (raw + k) mod 2 ^ 32 /\
    count (mem (snd res) e) = u64 (count (mem w e) + k) /\
    period_left (hw (mem (snd res) e)) = period_left (hw (mem armed_w e)) - k /\
    prev_count (hw (mem (snd res) e)) = (raw + k) mod 2 ^ 32.
Proof.
  intros e w r k Hmax Hp Hl Hk armed_w raw Hread res.
  assert (Hm : 0 <= max_period armpmu < 2 ^ 64) by (rewrite Hmax; lia).
  destruct (set_period_event_positive (mem w e) Hm Hp Hl)
    as (Hc & _ & HL & Hprev & _ & _ & _ & Hcnt & _).
  assert (Hhalf : 0 <= Z.shiftr (max_period armpmu) 1 < 2 ^ 31).
  { rewrite Hmax. cbn. lia. }
  assert (Hmem : mem armed_w e = snd (fst (set_period_event armpmu (mem w e)))).
  { unfold armed_w, armpmu_event_set_period.
    destruct (set_period_event armpmu (mem w e)) as [[l evt] ret].
    cbn [snd fst mem set_regs store]. apply upd_nat_same. }
  assert (Hregs : exists evt', regs armed_w = write_counter armpmu evt' raw (regs w)).
  { unfold raw. rewrite Hmem, Hprev.
    unfold armed_w, armpmu_event_set_period.
    destruct (set_period_event armpmu (mem w e)) as [[l evt] ret].
    cbn [snd fst regs set_regs store].
    exists evt. rewrite !land_mask32. unfold u64. rewrite mod_mod_32_64. reflexivity. }
  split; [exact Hregs|].
  set (c := fst (fst (set_period_event armpmu (mem w e)))) in *.
  set (L' := period_left (hw (snd (fst (set_period_event armpmu (mem w e)))))) in *.
  assert (HL' : 0 < L' < 2 ^ 63).
  { rewrite HL.
    destruct (Z.leb_spec (period_left (hw (mem w e))) (- sample_period (hw (mem w e))));
      [lia|].
    destruct (Z.leb_spec (period_left (hw (mem w e))) 0); lia. }
  assert (Hcr : 0 < c < 2 ^ 31).
  { rewrite Hc. split.
    - apply Z.min_glb_lt.
      + destruct (Z.leb_spec (period_left (hw (mem w e))) (- sample_period (hw (mem w e))));
      [lia|].
        destruct (Z.leb_spec (period_left (hw (mem w e))) 0); lia.
      + rewrite Hmax. cbn. lia.
    - eapply Z.le_lt_trans; [apply Z.le_min_r|]. lia. }
  assert (Hraw : raw = 2 ^ 32 - c).
  { unfold raw. rewrite Hmem, Hprev, land_mask32. unfold u64.
    rewrite mod_mod_32_64. fold c.
    rewrite <- (Z.mod_add (- c) 1 (2 ^ 32)) by lia. rewrite Z.mod_small; lia. }
  assert (Hprev' : prev_count (hw (mem armed_w e)) = 2 ^ 64 - c).
  { rewrite Hmem, Hprev. fold c. unfold u64.
    rewrite <- (Z.mod_add (- c) 1 (2 ^ 64)) by lia. rewrite Z.mod_small; lia. }
  assert (Hnew : u64 ((raw + k) mod 2 ^ 32) = (raw + k) mod 2 ^ 32).
  { apply u64_id. pose proof (Z.mod_pos_bound (raw + k) (2 ^ 32) ltac:(lia)). lia. }
  assert (Hdelta : Z.land (u64 ((raw + k) mod 2 ^ 32 - prev_count (hw (mem armed_w e))))
                          (max_period armpmu) = k).
  { rewrite Hmax, land_mask32. unfold u64. rewrite mod_mod_32_64.
    rewrite Hprev', Hraw.
    rewrite Zminus_mod, Z.mod_mod by lia.
    rewrite <- Zminus_mod.
    replace (2 ^ 32 - c + k - (2 ^ 64 - c)) with (k + (1 - 2 ^ 32) * 2 ^ 32) by lia.
    rewrite Z.mod_add by lia. apply Z.mod_small. lia. }
  unfold res, armpmu_event_update.
  cbn [armpmu_event_update_loop fst snd mem store set_regs regs].
  rewrite upd_nat_same. rewrite Hread, Hnew.
  unfold event_update_commit. rewrite Hdelta.
  cbn [hw set_hw count set_count period_left set_period_left prev_count set_prev_count].
  split; [reflexivity|]. split; [rewrite Hmem, Hcnt; reflexivity|].
  split; [|reflexivity].
  rewrite Hmem. fold L'. apply s64_id. lia.
Qed.

(** X2.  For a positive period that fits 63 bits, [armpmu_event_set_period]
    returns [1] exactly when [period_left] had run out (was zero or
    negative) and [0] otherwise; it leaves [period_left] positive, within
    the period whenever it was at most the period before, and untouched
    when it was positive. *)
Theorem armpmu_event_set_period_overflow :
  forall (e : nat) (w : world HW),
    0 <= max_period armpmu < 2 ^ 64 ->
    0 < sample_period (hw (mem w e)) < 2 ^ 63 ->
    - 2 ^ 63 <= period_left (hw (mem w e)) < 2 ^ 63 ->
    let res := armpmu_event_set_period armpmu e w in
    (fst res = 1 <-> period_left (hw (mem w e)) <= 0) /\
    (fst res = 0 <-> 0 < period_left (hw (mem w e))) /\
    0 < period_left (hw (mem (snd res) e)) /\
    (period_left (hw (mem w e)) <= sample_period (hw (mem w e)) ->
     period_left (hw (mem (snd res) e)) <= sample_period (hw (mem w e))) /\
    (0 < period_left (hw (mem w e)) ->
     period_left (hw (mem (snd res) e)) = period_left (hw (mem w e))).
Proof.
  intros e w Hm Hp Hl res.
  destruct (set_period_event_positive (mem w e) Hm Hp Hl)
    as (_ & Hret & HL & _).
  unfold res, armpmu_event_set_period.
  destruct (set_period_event armpmu (mem w e)) as [[l evt] ret].
  cbn [fst snd mem store set_regs] in *. rewrite upd_nat_same. subst ret.
  rewrite HL.
  destruct (Z.leb_spec (period_left (hw (mem w e))) 0) as [H0|H0];
    destruct (Z.leb_spec (period_left (hw (mem w e))) (- sample_period (hw (mem w e))));
    repeat split; intros; try lia; try discriminate.
Qed.

(** X3.  For an event whose period is positive and fits 63 bits, arming
    it when it has just been armed changes nothing in the event, returns
    [0], and writes the same value to the counter again. *)
Theorem armpmu_event_set_period_again :
  forall (e : nat) (w : world HW),
    0 <= max_period armpmu < 2 ^ 64 ->
    0 < sample_period (hw (mem w e)) < 2 ^ 63 ->
    - 2 ^ 63 <= period_left (hw (mem w e)) < 2 ^ 63 ->
    let once := armpmu_event_set_period armpmu e w in
    let twice := armpmu_event_set_period armpmu e (snd once) in
    fst twice = 0 /\
    mem (snd twice) e = mem (snd once) e /\
    percpu (snd twice) = percpu w /\
    regs (snd twice) =
    write_counter armpmu (mem (snd once) e)
                  (Z.land (prev_count (hw (mem (snd once) e))) 4294967295)
                  (regs (snd once)).
Proof.
  intros e w Hm Hp Hl once twice.
  destruct (set_period_event_positive (mem w e) Hm Hp Hl)
    as (Hc & _ & HL & Hprev & HP & _).
  assert (Hmem : mem (snd once) e = snd (fst (set_period_event armpmu (mem w e)))).
  { unfold once, armpmu_event_set_period.
    destruct (set_period_event armpmu (mem w e)) as [[l evt] ret].
    cbn [snd fst mem set_regs store]. apply upd_nat_same. }
  assert (Hpc : percpu (snd once) = percpu w).
  { unfold once, armpmu_event_set_period.
    destruct (set_period_event armpmu (mem w e)) as [[l evt] ret]. reflexivity. }
  set (evt1 := mem (snd once) e) in *.
  assert (HL1 : 0 < period_left (hw evt1) < 2 ^ 63).
  { rewrite Hmem, HL.
    destruct (Z.leb_spec (period_left (hw (mem w e))) (- sample_period (hw (mem w e))));
      [lia|].
    destruct (Z.leb_spec (period_left (hw (mem w e))) 0); lia. }
  assert (HP1 : 0 < sample_period (hw evt1) < 2 ^ 63) by (rewrite Hmem, HP; lia).
  destruct (set_period_event_positive evt1 Hm HP1 ltac:(lia))
    as (Hc2 & Hret2 & HL2 & Hprev2 & _ & _ & _ & _ & _ & Hsame).
  specialize (Hsame ltac:(lia)).
  assert (Hcc : fst (fst (set_period_event armpmu evt1)) =
                fst (fst (set_period_event armpmu (mem w e)))).
  { rewrite Hc2, Hc.
    destruct (Z.leb_spec (period_left (hw evt1)) (- sample_period (hw evt1))); [lia|].
    destruct (Z.leb_spec (period_left (hw evt1)) 0); [lia|].
    rewrite Hmem, HL. reflexivity. }
  assert (Hevt : snd (fst (set_period_event armpmu evt1)) = evt1).
  { rewrite Hsame, Hcc. rewrite <- Hprev, <- Hmem. fold evt1.
    destruct evt1 as [a h c s cp p g sl]. destruct h. reflexivity. }
  unfold twice, armpmu_event_set_period. fold evt1.
  destruct (set_period_event armpmu evt1) as [[l evt] ret] eqn:Hsp.
  cbn [fst snd] in Hc2, Hret2, Hevt, Hcc.
  cbn [fst snd mem store set_regs regs percpu]. rewrite upd_nat_same.
  split.
  { rewrite Hret2. destruct (Z.leb_spec (period_left (hw evt1)) 0); [lia|reflexivity]. }
  split; [exact Hevt|]. split; [exact Hpc|].
  rewrite Hevt. f_equal. rewrite Hmem, Hprev, Hcc.
  rewrite !land_mask32. unfold u64. rewrite mod_mod_32_64. reflexivity.
Qed.

(** X4.  Reading an event twice while its counter stands still accounts
    the counts once: the second [armpmu_read] leaves every event, the
    registers and the per-core state as the first left them. *)
Theorem armpmu_read_twice :
  forall (e : nat) (w : world HW),
    let w1 := armpmu_read armpmu e w in
    read_counter armpmu (mem w1 e) (regs w1) = read_counter armpmu (mem w e) (regs w) ->
    let w2 := armpmu_read armpmu e w1 in
    (forall x, mem w2 x = mem w1 x) /\ regs w2 = regs w1 /\ percpu w2 = percpu w1 /\
    count (mem w2 e) = count (mem w1 e).
Proof.
  intros e w w1 Hread w2.
  assert (Hall : forall x, mem w2 x = mem w1 x).
  { intros x. unfold w2, armpmu_read, armpmu_event_update.
    cbn [armpmu_event_update_loop snd mem store].
    destruct (Nat.eq_dec x e) as [->|Hx]; [|apply upd_nat_other; exact Hx].
    rewrite upd_nat_same. rewrite Hread.
    unfold w1, armpmu_read, armpmu_event_update.
    cbn [armpmu_event_update_loop snd mem store]. rewrite upd_nat_same.
    unfold event_update_commit.
    cbn [hw set_hw count set_count period_left set_period_left prev_count set_prev_count].
    rewrite Z.sub_diag.
    change (u64 0) with 0. rewrite Z.land_0_l, Z.add_0_r, Z.sub_0_r.
    rewrite (u64_id (u64 _)) by apply u64_range.
    rewrite (s64_id (s64 _)) by apply s64_range.
    reflexivity. }
  split; [exact Hall|]. split; [reflexivity|]. split; [reflexivity|].
  rewrite Hall. reflexivity.
Qed.

End ArmAndCount.

(** [arm_then_update_accounts_counts] with a period of 1000 and 250 counts:
    the total goes from 0 to 250 and [period_left] from 1000 to 750. *)
Lemma arm_then_update_accounts_counts_witness :
  let armed_w := snd (armpmu_event_set_period bank32 7 fresh_world) in
  let res := armpmu_event_update bank32 7 (set_regs [HwWrite 0 4294966546] armed_w) in
  fst res = (4294966296 + 250) mod 2 ^ 32 /\
  count (mem (snd res) 7%nat) = u64 (0 + 250) /\
  period_left (hw (mem (snd res) 7%nat)) = 1000 - 250.
Proof.
  destruct (arm_then_update_accounts_counts (list hw_op) bank32 7%nat fresh_world
              [HwWrite 0 4294966546] 250)
    as (_ & H1 & H2 & H3 & _);
    [reflexivity|simpl; lia|simpl; lia|lia|reflexivity|].
  split; [exact H1|]. split; [exact H2|exact H3].
Defined.

(** [armpmu_event_set_period_overflow] on the fresh event, whose
    [period_left] is positive. *)
Lemma armpmu_event_set_period_overflow_witness :
  fst (armpmu_event_set_period bank32 7 fresh_world) = 0 /\
  0 < period_left (hw (mem (snd (armpmu_event_set_period bank32 7 fresh_world)) 7%nat)).
Proof.
  destruct (armpmu_event_set_period_overflow (list hw_op) bank32 7%nat fresh_world)
    as (_ & H0 & Hpos & _); [simpl; lia|simpl; lia|simpl; lia|].
  split; [apply H0; simpl; lia|exact Hpos].
Defined.

(** [armpmu_event_set_period_again] on the fresh event. *)
Lemma armpmu_event_set_period_again_witness :
  let once := armpmu_event_set_period bank32 7 fresh_world in
  let twice := armpmu_event_set_period bank32 7 (snd once) in
  fst twice = 0 /\ mem (snd twice) 7%nat = mem (snd once) 7%nat.
Proof.
  destruct (armpmu_event_set_period_again (list hw_op) bank32 7%nat fresh_world)
    as (H1 & H2 & _); [simpl; lia|simpl; lia|simpl; lia|].
  split; [exact H1|exact H2].
Defined.

(** [armpmu_read_twice] on the wrapped counter, which stands at 100. *)
Lemma armpmu_read_twice_witness :
  let w1 := armpmu_read bank32 7 wrapped_world in
  let w2 := armpmu_read bank32 7 w1 in
  (forall x, mem w2 x = mem w1 x) /\ count (mem w2 7%nat) = count (mem w1 7%nat).
Proof.
  destruct (armpmu_read_twice (list hw_op) bank32 7%nat wrapped_world)
    as (H1 & _ & _ & H4); [reflexivity|].
  split; [exact H1|exact H4].
Defined.

(** ** Slots: add and del *)

Lemma upd_Z_same {A : Type} (k : Z) (v : A) (f : Z -> A) : upd_Z k v f k = v.
Proof. unfold upd_Z. rewrite Z.eqb_refl. reflexivity. Qed.

Lemma upd_Z_other {A : Type} (k k' : Z) (v : A) (f : Z -> A) :
  k' <> k -> upd_Z k v f k' = f k'.
Proof.
  intros H. unfold upd_Z.
  destruct (Z.eqb_spec k' k) as [Heq|_]; [contradiction|reflexivity].
Qed.

Lemma clearbit_setbit_free (m i : Z) :
  0 <= i -> Z.testbit m i = false -> Z.clearbit (Z.setbit m i) i = m.
Proof.
  intros Hi Hb. apply Z.bits_inj'. intros j Hj.
  rewrite Z.clearbit_eqb.
  destruct (Z.eqb_spec i j) as [<-|Hne].
  - rewrite Hb. apply andb_false_r.
  - rewrite Z.setbit_neq by assumption. apply andb_true_r.
Qed.

Section Slots.

Variable HW : Type.
Variable armpmu : arm_pmu HW.

Lemma set_period_event_idx (evt : perf_event) :
  idx (hw (snd (fst (set_period_event armpmu evt)))) = idx (hw evt).
Proof.
  unfold set_period_event.
  destruct (period_left (hw evt) <=? s64 (- s64 (sample_period (hw evt))));
    [destruct (s64 (sample_period (hw evt)) <=? 0)
    |destruct (period_left (hw evt) <=? 0)];
    reflexivity.
Qed.

Lemma armpmu_start_idx (e : nat) (flags : Z) (w : world HW) :
  idx (hw (mem (armpmu_start armpmu e flags w) e)) = idx (hw (mem w e)).
Proof.
  unfold armpmu_start, armpmu_event_set_period.
  cbn [mem store]. rewrite upd_nat_same.
  pose proof (set_period_event_idx (set_hw (set_hwc_state 0 (hw (mem w e))) (mem w e)))
    as Hi.
  destruct (set_period_event armpmu _) as [[l evt] ret].
  cbn [fst snd mem store set_regs] in *. rewrite upd_nat_same. exact Hi.
Qed.

(** The world [armpmu_add] builds before it looks at PERF_EF_START. *)
Lemma armpmu_add_success (e : nat) (flags cur : Z) (w : world HW) :
  cpumask_test_cpu cur (supported_cpus armpmu) = true ->
  0 <= fst (get_event_idx armpmu (used_mask (percpu w cur)) (mem w e)) ->
  let i := fst (get_event_idx armpmu (used_mask (percpu w cur)) (mem w e)) in
  let m := snd (get_event_idx armpmu (used_mask (percpu w cur)) (mem w e)) in
  let placed :=
    {| regs := regs w;
       mem := upd_nat e
                (set_hw (set_hwc_state (Z.lor PERF_HES_STOPPED PERF_HES_UPTODATE)
                                       (set_idx i (hw (mem w e)))) (mem w e))
                (upd_nat e (set_hw (set_idx i (hw (mem w e))) (mem w e)) (mem w));
       percpu := upd_Z cur
                   (set_events (upd_Z i (Some e) (events (percpu w cur)))
                               (set_used_mask m (percpu w cur)))
                   (upd_Z cur (set_used_mask m (percpu w cur)) (percpu w)) |} in
  armpmu_add armpmu e flags cur w =
  (0, if negb (Z.land flags PERF_EF_START =? 0)
      then armpmu_start armpmu e PERF_EF_RELOAD placed
      else placed).
Proof.
  intros Hsup Hi i m placed. unfold armpmu_add. rewrite Hsup. cbn [negb].
  unfold placed, i, m in *. clear placed i m.
  destruct (get_event_idx armpmu (used_mask (percpu w cur)) (mem w e)) as [i m].
  cbn [fst snd] in *.
  destruct (Z.ltb_spec i 0) as [Hneg|_]; [lia|].
  cbn [mem store set_percpu percpu regs]. rewrite !upd_nat_same, !upd_Z_same.
  reflexivity.
Qed.

(** What a successful [armpmu_add] leaves. *)
Lemma armpmu_add_placed :
  forall (e : nat) (flags cur : Z) (w : world HW),
    cpumask_test_cpu cur (supported_cpus armpmu) = true ->
    0 <= fst (get_event_idx armpmu (used_mask (percpu w cur)) (mem w e)) ->
    let i := fst (get_event_idx armpmu (used_mask (percpu w cur)) (mem w e)) in
    let m := snd (get_event_idx armpmu (used_mask (percpu w cur)) (mem w e)) in
    let res := armpmu_add armpmu e flags cur w in
    fst res = 0 /\
    idx (hw (mem (snd res) e)) = i /\
    events (percpu (snd res) cur) i = Some e /\
    (forall j, j <> i -> events (percpu (snd res) cur) j = events (percpu w cur) j) /\
    used_mask (percpu (snd res) cur) = m /\
    (forall c, c <> cur -> percpu (snd res) c = percpu w c) /\
    (forall x, x <> e -> mem (snd res) x = mem w x) /\
    count (mem (snd res) e) = count (mem w e) /\
    (Z.land flags PERF_EF_START = 0 ->
     hwc_state (hw (mem (snd res) e)) = Z.lor PERF_HES_STOPPED PERF_HES_UPTODATE /\
     regs (snd res) = regs w) /\
    (Z.land flags PERF_EF_START <> 0 ->
     armed armpmu (mem (snd res) e) /\
     snd res = armpmu_start armpmu e PERF_EF_RELOAD (snd (armpmu_add armpmu e 0 cur w))).
Proof.
  intros e flags cur w Hsup Hi i m res.
  pose proof (armpmu_add_success e flags cur w Hsup Hi) as Hadd.
  pose proof (armpmu_add_success e 0 cur w Hsup Hi) as Hadd0.
  cbv zeta in Hadd, Hadd0. fold i m in Hadd, Hadd0.
  change (negb (Z.land 0 PERF_EF_START =? 0)) with false in Hadd0. cbv iota in Hadd0.
  set (placed := {| regs := regs w; mem := _; percpu := _ |}) in *.
  assert (Hpm : mem placed e =
                set_hw (set_hwc_state (Z.lor PERF_HES_STOPPED PERF_HES_UPTODATE)
                                      (set_idx i (hw (mem w e)))) (mem w e)).
  { unfold placed. cbn [mem]. apply upd_nat_same. }
  assert (Hpo : forall x, x <> e -> mem placed x = mem w x).
  { intros x Hx. unfold placed. cbn [mem]. rewrite !upd_nat_other by exact Hx.
    reflexivity. }
  assert (Hpc : percpu placed cur =
                set_events (upd_Z i (Some e) (events (percpu w cur)))
                           (set_used_mask m (percpu w cur))).
  { unfold placed. cbn [percpu]. apply upd_Z_same. }
  assert (Hpco : forall c, c <> cur -> percpu placed c = percpu w c).
  { intros c Hc. unfold placed. cbn [percpu]. rewrite !upd_Z_other by exact Hc.
    reflexivity. }
  unfold res. rewrite Hadd. cbn [fst snd].
  destruct (Z.eqb_spec (Z.land flags PERF_EF_START) 0) as [Hz|Hnz]; cbn [negb].
  - split; [reflexivity|]. rewrite Hpm, Hpc.
    cbn [hw set_hw idx set_idx set_hwc_state hwc_state count events set_events
         used_mask set_used_mask].
    rewrite upd_Z_same.
    split; [reflexivity|]. split; [reflexivity|].
    split; [intros j Hj; apply upd_Z_other; exact Hj|].
    split; [reflexivity|]. split; [exact Hpco|]. split; [exact Hpo|].
    split; [reflexivity|].
    split; [intros _; split; reflexivity|intros Hc; contradiction].
  - destruct (armpmu_start_self HW armpmu e PERF_EF_RELOAD placed) as (Harm & Hcnt & _).
    split; [reflexivity|].
    rewrite armpmu_start_idx, armpmu_start_percpu, Hcnt, Hpm, Hpc.
    cbn [hw set_hw idx set_idx set_hwc_state hwc_state count events set_events
         used_mask set_used_mask].
    rewrite upd_Z_same.
    split; [reflexivity|]. split; [reflexivity|].
    split; [intros j Hj; apply upd_Z_other; exact Hj|].
    split; [reflexivity|]. split; [exact Hpco|].
    split; [intros x Hx; rewrite armpmu_start_other by exact Hx; apply Hpo; exact Hx|].
    split; [reflexivity|].
    split; [intros Hc; contradiction|].
    intros _. split; [exact Harm|]. rewrite Hadd0. reflexivity.
Qed.

(** X5.  A successful [armpmu_add] returns [0], records the slot in the
    event and the event as owner of the slot, leaves the other slots and
    the other events alone, and leaves the total as it was.  Without
    PERF_EF_START the event is left stopped and up to date and the
    registers untouched; with PERF_EF_START the outcome is that of adding
    without it and then calling [armpmu_start], and the event is armed. *)
Theorem armpmu_add_places :
  forall (e : nat) (flags cur : Z) (w : world HW),
    cpumask_test_cpu cur (supported_cpus armpmu) = true ->
    0 <= fst (get_event_idx armpmu (used_mask (percpu w cur)) (mem w e)) ->
    let i := fst (get_event_idx armpmu (used_mask (percpu w cur)) (mem w e)) in
    let m := snd (get_event_idx armpmu (used_mask (percpu w cur)) (mem w e)) in
    let res := armpmu_add armpmu e flags cur w in
    fst res = 0 /\
    idx (hw (mem (snd res) e)) = i /\
    events (percpu (snd res) cur) i = Some e /\
    (forall j, j <> i -> events (percpu (snd res) cur) j = events (percpu w cur) j) /\
    used_mask (percpu (snd res) cur) = m /\
    (forall c, c <> cur -> percpu (snd res) c = percpu w c) /\
    (forall x, x <> e -> mem (snd res) x = mem w x) /\
    count (mem (snd res) e) = count (mem w e) /\
    (Z.land flags PERF_EF_START = 0 ->
     hwc_state (hw (mem (snd res) e)) = Z.lor PERF_HES_STOPPED PERF_HES_UPTODATE /\
     regs (snd res) = regs w) /\
    (Z.land flags PERF_EF_START <> 0 ->
     armed armpmu (mem (snd res) e) /\
     snd res = armpmu_start armpmu e PERF_EF_RELOAD (snd (armpmu_add armpmu e 0 cur w))).
Proof. exact armpmu_add_placed. Qed.

(** What [armpmu_del] leaves on a bank without a [clear_event_idx] hook. *)
Lemma armpmu_del_released :
  forall (e : nat) (flags cur : Z) (w : world HW),
    let i := idx (hw (mem w e)) in
    let w' := armpmu_del armpmu None e flags cur w in
    events (percpu w' cur) i = None /\
    Z.testbit (used_mask (percpu w' cur)) i = false /\
    (forall j, j <> i ->
               events (percpu w' cur) j = events (percpu w cur) j /\
               Z.testbit (used_mask (percpu w' cur)) j =
               Z.testbit (used_mask (percpu w cur)) j) /\
    irq (percpu w' cur) = irq (percpu w cur) /\
    (forall c, c <> cur -> percpu w' c = percpu w c) /\
    (forall x, x <> e -> mem w' x = mem w x) /\
    (Z.land (hwc_state (hw (mem w' e))) PERF_HES_STOPPED =? 0) = false /\
    mem w' e = mem (armpmu_stop armpmu e PERF_EF_UPDATE w) e.
Proof.
  intros e flags cur w i w'. unfold w', armpmu_del. fold i.
  cbn [mem set_percpu percpu]. rewrite !upd_Z_same.
  rewrite armpmu_stop_percpu.
  cbn [events set_events used_mask set_used_mask irq].
  split; [apply upd_Z_same|]. split; [apply Z.clearbit_eq|].
  split.
  { intros j Hj. split; [apply upd_Z_other; exact Hj|].
    apply Z.clearbit_neq. intros Heq. apply Hj. symmetry. exact Heq. }
  split; [reflexivity|].
  split.
  { intros c Hc. rewrite !upd_Z_other by exact Hc. reflexivity. }
  split; [intros x Hx; apply armpmu_stop_other; exact Hx|].
  split; [apply armpmu_stop_stopped|reflexivity].
Qed.

(** X6.  On a bank without a [clear_event_idx] hook, [armpmu_del] leaves
    the event stopped, its slot without an owner and unmarked, and every
    other slot, core and event as they were. *)
Theorem armpmu_del_releases :
  forall (e : nat) (flags cur : Z) (w : world HW),
    let i := idx (hw (mem w e)) in
    let w' := armpmu_del armpmu None e flags cur w in
    events (percpu w' cur) i = None /\
    Z.testbit (used_mask (percpu w' cur)) i = false /\
    (forall j, j <> i ->
               events (percpu w' cur) j = events (percpu w cur) j /\
               Z.testbit (used_mask (percpu w' cur)) j =
               Z.testbit (used_mask (percpu w cur)) j) /\
    irq (percpu w' cur) = irq (percpu w cur) /\
    (forall c, c <> cur -> percpu w' c = percpu w c) /\
    (forall x, x <> e -> mem w' x = mem w x) /\
    (Z.land (hwc_state (hw (mem w' e))) PERF_HES_STOPPED =? 0) = false /\
    mem w' e = mem (armpmu_stop armpmu e PERF_EF_UPDATE w) e.
Proof. exact armpmu_del_released. Qed.



End Slots.

Lemma first_fit_full (m : Z) (k : nat) :
  forall i : Z, 0 <= i -> fst (first_fit m i k) < 0 -> snd (first_fit m i k) = m.
Proof.
  induction k as [|k IH]; intros i Hi; cbn [first_fit]; [reflexivity|].
  destruct (Z.testbit m i); [apply IH; lia|].
  cbn [fst]. lia.
Qed.

Lemma bank32_honest : honest_strategy bank32 4.
Proof.
  split.
  - intros m evt Hf.
    destruct (first_fit_free m 4 0 ltac:(lia) Hf) as (Hr & Hfree & Hset).
    split; [exact (proj2 Hr)|]. split; [exact Hfree|exact Hset].
  - intros m evt Hf. apply (first_fit_full m 4 0); [lia|exact Hf].
Qed.

(** [armpmu_add_places] on core 0 of the 32-bit bank, with PERF_EF_START:
    the fresh event gets slot 0 and is armed. *)
Lemma armpmu_add_places_witness :
  let res := armpmu_add bank32 7 PERF_EF_START 0 fresh_world in
  fst res = 0 /\
  idx (hw (mem (snd res) 7%nat)) = 0 /\
  events (percpu (snd res) 0) 0 = Some 7%nat /\
  armed bank32 (mem (snd res) 7%nat).
Proof.
  destruct (armpmu_add_places (list hw_op) bank32 7%nat PERF_EF_START 0 fresh_world)
    as (H1 & H2 & H3 & _ & _ & _ & _ & _ & _ & H10);
    [reflexivity|simpl; lia|].
  split; [exact H1|]. split; [exact H2|]. split; [exact H3|].
  apply H10. discriminate.
Defined.



(** ** Group validation: who is let in *)

Section GroupAdmission.

Variable HW : Type.
Variable armpmu : arm_pmu HW.
Variable is_software_event : perf_event -> bool.

Lemma members_validate_rejects (p : nat) (x : perf_event) (l : list perf_event) :
  In x l ->
  (forall m, fst (validate_event armpmu is_software_event p m x) = 0) ->
  forall m, members_validate armpmu is_software_event p m l = false.
Proof.
  intros Hin Hx. induction l as [|y l IH]; intros m; [contradiction|].
  cbn [members_validate]. destruct Hin as [->|Hin].
  - rewrite Hx. reflexivity.
  - rewrite IH by exact Hin. apply andb_false_r.
Qed.

Lemma validate_event_no_slot (p : nat) (m : Z) (x : perf_event) :
  takes_no_slot is_software_event p x = true ->
  validate_event armpmu is_software_event p m x = (1, m).
Proof.
  unfold takes_no_slot, validate_event. intros H.
  destruct (is_software_event x); [reflexivity|].
  cbn [orb] in H. apply andb_true_iff in H. destruct H as [Hp Hs].
  rewrite Hp. cbn [negb].
  destruct (ev_state x <? PERF_EVENT_STATE_OFF); [reflexivity|].
  cbn [orb] in Hs. rewrite Hs. reflexivity.
Qed.

Lemma validate_event_competes (p : nat) (m : Z) (x : perf_event) :
  competes is_software_event x = true -> pmu x = p ->
  validate_event armpmu is_software_event p m x =
  ((if fst (get_event_idx armpmu m x) >=? 0 then 1 else 0),
   snd (get_event_idx armpmu m x)).
Proof.
  unfold competes, validate_event. intros Hc Hp.
  apply Nat.eqb_eq in Hp. rewrite Hp.
  apply andb_true_iff in Hc. destruct Hc as [Hc Hoff].
  apply andb_true_iff in Hc. destruct Hc as [Hsw Hlow].
  apply negb_true_iff in Hsw, Hlow, Hoff. rewrite Hsw, Hlow, Hoff.
  cbn [negb]. destruct (get_event_idx armpmu m x). reflexivity.
Qed.

(** A member of the PMU, or a software member, either competes for a
    slot or takes none. *)
Lemma competes_or_not (p : nat) (x : perf_event) :
  is_software_event x || Nat.eqb (pmu x) p = true ->
  (competes is_software_event x = true /\ pmu x = p) \/
  (competes is_software_event x = false /\ takes_no_slot is_software_event p x = true).
Proof.
  unfold competes, takes_no_slot. intros H.
  destruct (is_software_event x); [right; split; reflexivity|].
  cbn [orb] in H. rewrite H. cbn [negb andb orb].
  destruct (ev_state x <? PERF_EVENT_STATE_OFF); [right; split; reflexivity|].
  destruct ((ev_state x =? PERF_EVENT_STATE_OFF) && negb (enable_on_exec (attr x)));
    [right; split; reflexivity|].
  left. split; [reflexivity|]. apply Nat.eqb_eq. exact H.
Qed.

(** With a strategy that hands out exactly the free slots of [n], the
    members validate from the map [m] exactly when the slots taken in [m]
    and the members that compete fit into [n]. *)
Lemma members_validate_fits (n : nat) (p : nat) :
  slot_strategy armpmu n -> finds_free_slot armpmu n ->
  forall (l : list perf_event) (m : Z),
    forallb (fun x => is_software_event x || Nat.eqb (pmu x) p) l = true ->
    (members_validate armpmu is_software_event p m l = true <->
     bitmap_weight_nat m n +
     Z.of_nat (List.length (filter (competes is_software_event) l)) <= Z.of_nat n).
Proof.
  intros Hstrat Hfind. induction l as [|x l IH]; intros m Hall.
  - cbn. pose proof (bitmap_weight_nat_le m n). split; [intros _; lia|reflexivity].
  - cbn [forallb] in Hall. apply andb_true_iff in Hall. destruct Hall as [Hx Hl].
    cbn [members_validate filter].
    destruct (competes_or_not p x Hx) as [[Hc Hp]|[Hc Hn]]; rewrite Hc.
    + rewrite (validate_event_competes p m x Hc Hp). cbn [fst snd].
      pose proof (Hstrat m x) as Hs. pose proof (Hfind m x) as Hf.
      pose proof (bitmap_weight_nat_nonneg m n) as Hnn.
      destruct (get_event_idx armpmu m x) as [i m']. cbn [fst snd] in *.
      cbn [List.length]. rewrite Nat2Z.inj_succ.
      destruct (Z.geb_spec i 0) as [Hi|Hi].
      * destruct (Hs ltac:(lia)) as (Hlt & Hfree & ->).
        change (negb (1 =? 0)) with true. cbn [andb].
        rewrite (IH _ Hl).
        rewrite <- (Z2Nat.id i) by lia.
        rewrite bitmap_weight_nat_setbit;
          [|lia|rewrite Z2Nat.id by lia; exact Hfree].
        lia.
      * change (negb (0 =? 0)) with false. cbn [andb].
        split; [discriminate|]. intros Hle. exfalso.
        assert (bitmap_weight_nat m n < Z.of_nat n) by lia.
        specialize (Hf ltac:(assumption)). lia.
    + rewrite (validate_event_no_slot p m x Hn). cbn [fst snd].
      change (negb (1 =? 0)) with true. cbn [andb]. apply IH. exact Hl.
Qed.

(** X9.  A group that contains, as leader or sibling, a hardware event of
    another PMU is rejected with [-EINVAL], whatever the other members and
    the strategy are. *)
Theorem validate_group_foreign_member :
  forall (e : nat) (w : world HW) (x : perf_event),
    In x (mem w (group_leader (mem w e))
          :: map (mem w) (sibling_list (mem w (group_leader (mem w e))))) ->
    is_software_event x = false ->
    pmu x <> pmu (mem w e) ->
    validate_group armpmu is_software_event e w = - EINVAL.
Proof.
  intros e w x Hin Hsw Hp.
  rewrite validate_group_members.
  rewrite (members_validate_rejects (pmu (mem w e)) x); [reflexivity| |].
  - rewrite app_comm_cons. apply in_or_app. left. exact Hin.
  - intros m. unfold validate_event. rewrite Hsw.
    apply Nat.eqb_neq in Hp. rewrite Hp. reflexivity.
Qed.

(** X10.  A group whose members all take no slot (software events, and
    events of this PMU that are in a state below OFF or off without
    enable-on-exec) is accepted, whatever the strategy is. *)
Theorem validate_group_no_slot_needed :
  forall (e : nat) (w : world HW),
    forallb (takes_no_slot is_software_event (pmu (mem w e)))
            (mem w (group_leader (mem w e))
             :: map (mem w) (sibling_list (mem w (group_leader (mem w e))))
             ++ [mem w e]) = true ->
    validate_group armpmu is_software_event e w = 0.
Proof.
  intros e w Hall. rewrite validate_group_members.
  assert (H : forall l m,
             forallb (takes_no_slot is_software_event (pmu (mem w e))) l = true ->
             members_validate armpmu is_software_event (pmu (mem w e)) m l = true).
  { induction l as [|x l IH]; intros m Hl; [reflexivity|].
    cbn [forallb] in Hl. apply andb_true_iff in Hl. destruct Hl as [Hx Hl].
    cbn [members_validate]. rewrite (validate_event_no_slot _ m x Hx).
    cbn [fst snd]. apply IH. exact Hl. }
  rewrite (H _ 0 Hall). reflexivity.
Qed.

(** X11.  When no member is a hardware event of another PMU and the
    strategy hands out exactly the free slots of an [n]-slot bank, the
    group is accepted if and only if the members that compete for a slot
    are at most [n]. *)
Theorem validate_group_fits :
  forall (n : nat) (e : nat) (w : world HW),
    slot_strategy armpmu n -> finds_free_slot armpmu n ->
    let members :=
      mem w (group_leader (mem w e))
      :: map (mem w) (sibling_list (mem w (group_leader (mem w e)))) ++ [mem w e] in
    forallb (fun x => is_software_event x || Nat.eqb (pmu x) (pmu (mem w e))) members
    = true ->
    (validate_group armpmu is_software_event e w = 0 <->
     (List.length (filter (competes is_software_event) members) <= n)%nat).
Proof.
  intros n e w Hstrat Hfind members Hall.
  rewrite validate_group_members. fold members.
  pose proof (members_validate_fits n (pmu (mem w e)) Hstrat Hfind members 0 Hall) as Hfit.
  assert (Hz : bitmap_weight_nat 0 n = 0).
  { clear. induction n as [|n IH]; [reflexivity|].
    cbn [bitmap_weight_nat]. rewrite IH, Z.testbit_0_l. reflexivity. }
  rewrite Hz in Hfit.
  destruct (members_validate armpmu is_software_event (pmu (mem w e)) 0 members).
  - split; [intros _|reflexivity]. apply Nat2Z.inj_le.
    apply Hfit. reflexivity.
  - split; [discriminate|]. intros Hle.
    assert (false = true); [|discriminate].
    apply Hfit. apply Nat2Z.inj_le in Hle. lia.
Qed.

End GroupAdmission.

Lemma first_fit_fails_full (m : Z) (k : nat) :
  forall i : Z,
    0 <= i -> fst (first_fit m i k) < 0 ->
    forall j, i <= j < i + Z.of_nat k -> Z.testbit m j = true.
Proof.
  induction k as [|k IH]; intros i Hi Hf j Hj; [lia|].
  cbn [first_fit] in Hf. destruct (Z.testbit m i) eqn:Hb.
  - destruct (Z.eq_dec j i) as [->|Hne]; [exact Hb|].
    apply (IH (i + 1)); [lia|exact Hf|lia].
  - cbn [fst] in Hf. lia.
Qed.

Lemma bitmap_weight_nat_all (m : Z) (k : nat) :
  (forall j, 0 <= j < Z.of_nat k -> Z.testbit m j = true) ->
  bitmap_weight_nat m k = Z.of_nat k.
Proof.
  induction k as [|k IH]; intros H; [reflexivity|].
  cbn [bitmap_weight_nat]. rewrite (H (Z.of_nat k)) by lia.
  rewrite IH; [lia|]. intros j Hj. apply H. lia.
Qed.

Lemma bank3_finds_free_slot : finds_free_slot bank3 3.
Proof.
  intros m evt Hw. cbn [get_event_idx bank3 sample_bank].
  destruct (Z.lt_ge_cases (fst (first_fit m 0 3)) 0) as [Hf|Hf]; [|exact Hf].
  exfalso.
  pose proof (bitmap_weight_nat_all m 3
                (fun j Hj => first_fit_fails_full m 3 0 ltac:(lia) Hf j ltac:(lia))).
  lia.
Qed.

Lemma bank3_slot_strategy : slot_strategy bank3 3.
Proof.
  intros m evt Hf.
  destruct (first_fit_free m 3 0 ltac:(lia) Hf) as (Hr & Hfree & Hset).
  split; [exact (proj2 Hr)|]. split; [exact Hfree|exact Hset].
Qed.

(** [validate_group_foreign_member] on the mixed group: the sibling at
    address 3 belongs to another PMU. *)
Lemma validate_group_foreign_member_witness :
  validate_group bank3 sample_is_software 4 mixed_group_world = - EINVAL.
Proof.
  apply (validate_group_foreign_member (list hw_op) bank3 sample_is_software 4%nat
           mixed_group_world (mem mixed_group_world 3%nat));
    [right; right; left; reflexivity|reflexivity|discriminate].
Defined.

(** [validate_group_no_slot_needed] on four members that are off without
    enable-on-exec, on the bank that has no slot to give. *)
Lemma validate_group_no_slot_needed_witness :
  validate_group full_bank sample_is_software 4 (group_world PERF_EVENT_STATE_OFF false)
  = 0.
Proof.
  apply (validate_group_no_slot_needed (list hw_op) full_bank sample_is_software 4%nat
           (group_world PERF_EVENT_STATE_OFF false)).
  reflexivity.
Defined.

(** [validate_group_fits] on the three-slot bank: four running members do
    not fit. *)
Lemma validate_group_fits_witness :
  validate_group bank3 sample_is_software 4 (group_world PERF_EVENT_STATE_ACTIVE false)
  = 0 <->
  (4 <= 3)%nat.
Proof.
  apply (validate_group_fits (list hw_op) bank3 sample_is_software 3 4%nat
           (group_world PERF_EVENT_STATE_ACTIVE false)
           bank3_slot_strategy bank3_finds_free_slot).
  reflexivity.
Defined.

(** ** Admission: what init touches and what it answers *)

Section Init.

Variable HW : Type.
Variable armpmu : arm_pmu HW.
Variable is_software_event : perf_event -> bool.
Variable is_sampling_event : perf_event -> bool.
Variable has_branch_stack : perf_event -> bool.

(** Every world [armpmu_event_init] can return is the old one or the old
    one with new [hw] fields for the event. *)
Lemma armpmu_event_init_world (e : nat) (w : world HW) :
  snd (armpmu_event_init armpmu is_software_event is_sampling_event
      has_branch_stack e w) = w \/
  exists h, snd (armpmu_event_init armpmu is_software_event is_sampling_event
      has_branch_stack e w) = store e (set_hw h (mem w e)) w.
Proof.
  unfold armpmu_event_init, __hw_perf_event_init.
  destruct (negb (cpu (mem w e) =? -1) && _); [left; reflexivity|].
  destruct (has_branch_stack (mem w e)); [left; reflexivity|].
  destruct (map_event armpmu (mem w e) =? - ENOENT); [left; reflexivity|].
  destruct (map_event armpmu (mem w e) <? 0); [left; reflexivity|].
  destruct (set_event_filter armpmu) as [f|].
  - destruct (f (clear_hwc_config (hw (mem w e))) (attr (mem w e))) as [r h].
    destruct (negb (r =? 0) && event_requires_mode_exclusion (attr (mem w e)));
      [right; eexists; reflexivity|].
    destruct (negb (Nat.eqb (group_leader (mem w e)) e));
      [destruct (negb (validate_group _ _ _ _ =? 0))|];
      right; eexists; reflexivity.
  - destruct (true && event_requires_mode_exclusion (attr (mem w e)));
      [right; eexists; reflexivity|].
    destruct (negb (Nat.eqb (group_leader (mem w e)) e));
      [destruct (negb (validate_group _ _ _ _ =? 0))|];
      right; eexists; reflexivity.
Qed.

(** X12.  [armpmu_event_init] writes nothing but the [hw] fields of the
    event it is given: registers, per-core state and every other event are
    untouched, and so are the event's attributes, total, scheduler state,
    core, PMU and group links. *)
Theorem armpmu_event_init_frame :
  forall (e : nat) (w : world HW),
    let w' := snd (armpmu_event_init armpmu is_software_event is_sampling_event
      has_branch_stack e w) in
    regs w' = regs w /\
    percpu w' = percpu w /\
    (forall x, x <> e -> mem w' x = mem w x) /\
    attr (mem w' e) = attr (mem w e) /\
    count (mem w' e) = count (mem w e) /\
    ev_state (mem w' e) = ev_state (mem w e) /\
    cpu (mem w' e) = cpu (mem w e) /\
    pmu (mem w' e) = pmu (mem w e) /\
    group_leader (mem w' e) = group_leader (mem w e) /\
    sibling_list (mem w' e) = sibling_list (mem w e).
Proof.
  intros e w w'. unfold w'.
  destruct (armpmu_event_init_world e w) as [->|[h ->]].
  - repeat split; reflexivity.
  - cbn [regs percpu mem store]. rewrite upd_nat_same.
    split; [reflexivity|]. split; [reflexivity|].
    split; [intros x Hx; apply upd_nat_other; exact Hx|].
    repeat split; reflexivity.
Qed.

(** X13.  [armpmu_event_init] answers [0], [-ENOENT], [-EOPNOTSUPP],
    [-EINVAL], or the negative value the bank's [map_event] returned.  When
    it answers [0], the request asked for no branch stack, follows a task
    or is bound to a served core, has a non-negative mapping, has passed
    group validation if it has a leader other than itself, and, if it is
    not a sampling event, carries [max_period >> 1] as its period, last
    period and [period_left]. *)
Theorem armpmu_event_init_outcome :
  forall (e : nat) (w : world HW),
    let res :=
      armpmu_event_init armpmu is_software_event is_sampling_event
      has_branch_stack e w in
    let evt := mem w e in
    (fst res = 0 \/ fst res = - ENOENT \/ fst res = - EOPNOTSUPP \/ fst res = - EINVAL \/
     (fst res = map_event armpmu evt /\ map_event armpmu evt < 0)) /\
    (fst res = 0 ->
     has_branch_stack evt = false /\
     (cpu evt = -1 \/ cpumask_test_cpu (cpu evt) (supported_cpus armpmu) = true) /\
     0 <= map_event armpmu evt /\
     (group_leader evt <> e ->
      validate_group armpmu is_software_event e (snd res) = 0) /\
     (is_sampling_event evt = false ->
      sample_period (hw (mem (snd res) e)) = Z.shiftr (max_period armpmu) 1 /\
      last_period (hw (mem (snd res) e)) = Z.shiftr (max_period armpmu) 1 /\
      period_left (hw (mem (snd res) e)) = s64 (Z.shiftr (max_period armpmu) 1))).
Proof.
  intros e w res evt. unfold res, evt.
  unfold armpmu_event_init, __hw_perf_event_init.
  destruct (negb (cpu (mem w e) =? -1) &&
            negb (cpumask_test_cpu (cpu (mem w e)) (supported_cpus armpmu))) eqn:Hgate.
  { cbn [fst]. split; [right; left; reflexivity|discriminate]. }
  assert (Hcpu : cpu (mem w e) = -1 \/
                 cpumask_test_cpu (cpu (mem w e)) (supported_cpus armpmu) = true).
  { apply andb_false_iff in Hgate. destruct Hgate as [H|H]; apply negb_false_iff in H.
    - left. apply Z.eqb_eq. exact H.
    - right. exact H. }
  destruct (has_branch_stack (mem w e)) eqn:Hbs.
  { cbn [fst]. split; [right; right; left; reflexivity|discriminate]. }
  destruct (map_event armpmu (mem w e) =? - ENOENT).
  { cbn [fst]. split; [right; left; reflexivity|discriminate]. }
  destruct (Z.ltb_spec (map_event armpmu (mem w e)) 0) as [Hneg|Hpos].
  { cbn [fst]. split; [right; right; right; right; split; [reflexivity|exact Hneg]|].
    intros H0. lia. }
  set (filtered :=
         match set_event_filter armpmu with
         | Some f =>
             let '(r, h) := f (clear_hwc_config (hw (mem w e))) (attr (mem w e)) in
             (negb (r =? 0), h)
         | None => (true, clear_hwc_config (hw (mem w e)))
         end).
  destruct filtered as [unfiltered hwc].
  destruct (unfiltered && event_requires_mode_exclusion (attr (mem w e))).
  { cbn [fst]. split; [right; right; left; reflexivity|discriminate]. }
  set (hwc' := if negb (is_sampling_event (mem w e)) then _ else _).
  set (w1 := store e (set_hw hwc' (mem w e)) w).
  assert (Hper : is_sampling_event (mem w e) = false ->
                 sample_period (hw (mem w1 e)) = Z.shiftr (max_period armpmu) 1 /\
                 last_period (hw (mem w1 e)) = Z.shiftr (max_period armpmu) 1 /\
                 period_left (hw (mem w1 e)) = s64 (Z.shiftr (max_period armpmu) 1)).
  { intros Hs. unfold w1. cbn [mem store]. rewrite upd_nat_same.
    unfold hwc'. rewrite Hs. cbn. repeat split. }
  destruct (Nat.eqb_spec (group_leader (mem w e)) e) as [Hlead|Hlead]; cbn [negb].
  - cbn [fst snd]. split; [left; reflexivity|]. intros _.
    split; [reflexivity|]. split; [exact Hcpu|]. split; [exact Hpos|].
    split; [intros Hc; contradiction|exact Hper].
  - destruct (Z.eqb_spec (validate_group armpmu is_software_event e w1) 0) as [Hv|Hv];
      cbn [negb fst snd].
    + split; [left; reflexivity|]. intros _.
      split; [reflexivity|]. split; [exact Hcpu|]. split; [exact Hpos|].
      split; [intros _; exact Hv|exact Hper].
    + split; [right; right; right; left; reflexivity|discriminate].
Qed.

End Init.

(** [armpmu_event_init_outcome] on the fresh event: it is accepted, and as
    it is not a sampling event its period is half the counter range. *)
Lemma armpmu_event_init_outcome_witness :
  let res := armpmu_event_init bank32 sample_is_software sample_is_sampling
                               sample_has_branch_stack 7 fresh_world in
  fst res = 0 /\
  sample_period (hw (mem (snd res) 7%nat)) = Z.shiftr (max_period bank32) 1.
Proof.
  destruct (armpmu_event_init_outcome (list hw_op) bank32 sample_is_software
              sample_is_sampling sample_has_branch_stack 7%nat fresh_world)
    as [_ H].
  destruct (H eq_refl) as (_ & _ & _ & _ & Hper).
  split; [reflexivity|]. apply Hper. reflexivity.
Defined.

(** ** The power-state notifier: what it leaves alone *)

Lemma slot_in_range_inv (n i : Z) :
  In i (map Z.of_nat (seq 0 (Z.to_nat n))) -> 0 <= i < n.
Proof.
  intros H. apply in_map_iff in H. destruct H as (k & <- & Hk).
  apply in_seq in Hk. lia.
Qed.

Section PowerFrame.

Variable HW : Type.
Variable armpmu : arm_pmu HW.
Variable cur : Z.

(** The owner of slot [i] that the loop acts on, if any: the slot is
    used, has owner [x], and [x] is scheduled. *)
Lemma slot_frame (cmd : Z) (w : world HW) (i : Z) :
  let w' := cpu_pm_pmu_setup_slot armpmu cmd cur w i in
  percpu w' = percpu w /\
  (forall x, ev_state (mem w' x) = ev_state (mem w x)) /\
  (forall x,
      ~ (test_bit i (used_mask (percpu w cur)) = true /\
         events (percpu w cur) i = Some x /\
         ev_state (mem w x) = PERF_EVENT_STATE_ACTIVE) ->
      mem w' x = mem w x) /\
  (cmd <> CPU_PM_ENTER -> forall x, count (mem w' x) = count (mem w x)) /\
  (cmd = CPU_PM_ENTER ->
   forall x, (Z.land (hwc_state (hw (mem w x))) PERF_HES_STOPPED =? 0) = false ->
             (Z.land (hwc_state (hw (mem w' x))) PERF_HES_STOPPED =? 0) = false) /\
  (cmd = CPU_PM_ENTER ->
   forall x, test_bit i (used_mask (percpu w cur)) = true ->
             events (percpu w cur) i = Some x ->
             ev_state (mem w x) = PERF_EVENT_STATE_ACTIVE ->
             (Z.land (hwc_state (hw (mem w' x))) PERF_HES_STOPPED =? 0) = false).
Proof.
  unfold cpu_pm_pmu_setup_slot.
  destruct (test_bit i (used_mask (percpu w cur))) eqn:Hbit; cbn [negb].
  2:{ repeat split; auto; discriminate. }
  destruct (events (percpu w cur) i) as [e'|] eqn:Hev.
  2:{ repeat split; auto; discriminate. }
  destruct (Z.eqb_spec (ev_state (mem w e')) PERF_EVENT_STATE_ACTIVE) as [Hact|Hact];
    cbn [negb].
  2:{ repeat split; auto. intros _ x _ [= <-] Hx. contradiction. }
  destruct (Z.eqb_spec cmd CPU_PM_ENTER) as [Hcmd|Hcmd].
  - (* stop *)
    split; [apply armpmu_stop_percpu|].
    split; [intros x; apply armpmu_stop_ev_state|].
    split.
    { intros x Hx. apply armpmu_stop_other. intros ->. apply Hx. auto. }
    split; [intros Hc; contradiction|].
    split.
    { intros _ x Hs. destruct (Nat.eq_dec x e') as [->|Hne].
      - apply armpmu_stop_stopped.
      - rewrite armpmu_stop_other by exact Hne. exact Hs. }
    intros _ x _ [= <-] _. apply armpmu_stop_stopped.
  - destruct ((cmd =? CPU_PM_EXIT) || (cmd =? CPU_PM_ENTER_FAILED)).
    + destruct (armpmu_start_self HW armpmu e' PERF_EF_RELOAD w) as (_ & Hcnt & Hst).
      split; [apply armpmu_start_percpu|].
      split.
      { intros x. destruct (Nat.eq_dec x e') as [->|Hne]; [exact Hst|].
        rewrite armpmu_start_other by exact Hne. reflexivity. }
      split.
      { intros x Hx. apply armpmu_start_other. intros ->. apply Hx. auto. }
      split.
      { intros _ x. destruct (Nat.eq_dec x e') as [->|Hne]; [exact Hcnt|].
        rewrite armpmu_start_other by exact Hne. reflexivity. }
      split; intros Hc; contradiction.
    + repeat split; auto; intros Hc; contradiction.
Qed.

Lemma setup_frame (cmd : Z) (l : list Z) :
  forall w : world HW,
    let w' := fold_left (cpu_pm_pmu_setup_slot armpmu cmd cur) l w in
    percpu w' = percpu w /\
    (forall x, ev_state (mem w' x) = ev_state (mem w x)) /\
    (forall x,
        (forall i, In i l ->
                   ~ (test_bit i (used_mask (percpu w cur)) = true /\
                      events (percpu w cur) i = Some x /\
                      ev_state (mem w x) = PERF_EVENT_STATE_ACTIVE)) ->
        mem w' x = mem w x) /\
    (cmd <> CPU_PM_ENTER -> forall x, count (mem w' x) = count (mem w x)) /\
    (cmd = CPU_PM_ENTER ->
     forall x, (Z.land (hwc_state (hw (mem w x))) PERF_HES_STOPPED =? 0) = false ->
               (Z.land (hwc_state (hw (mem w' x))) PERF_HES_STOPPED =? 0) = false) /\
    (cmd = CPU_PM_ENTER ->
     forall i x, In i l ->
                 test_bit i (used_mask (percpu w cur)) = true ->
                 events (percpu w cur) i = Some x ->
                 ev_state (mem w x) = PERF_EVENT_STATE_ACTIVE ->
                 (Z.land (hwc_state (hw (mem w' x))) PERF_HES_STOPPED =? 0) = false).
Proof.
  induction l as [|j l IH]; intros w.
  - cbn. repeat split; auto. intros _ i x Hin. contradiction.
  - cbn [fold_left].
    destruct (slot_frame cmd w j) as (Hp & Hs & Hm & Hc & Hk & Hh).
    destruct (IH (cpu_pm_pmu_setup_slot armpmu cmd cur w j))
      as (Hp' & Hs' & Hm' & Hc' & Hk' & Hh').
    cbv zeta.
    split; [rewrite Hp'; exact Hp|].
    split; [intros x; rewrite Hs'; apply Hs|].
    split.
    { intros x Hx. rewrite Hm'.
      - apply Hm. apply Hx. left. reflexivity.
      - intros i Hin. rewrite Hp, Hs. apply Hx. right. exact Hin. }
    split; [intros Hcmd x; rewrite (Hc' Hcmd); apply (Hc Hcmd)|].
    split; [intros Hcmd x Hst; apply (Hk' Hcmd); apply (Hk Hcmd); exact Hst|].
    intros Hcmd i x [<-|Hin] Hbit Hev Hact.
    + apply (Hk' Hcmd). apply (Hh Hcmd x Hbit Hev Hact).
    + apply (Hh' Hcmd i x Hin); rewrite ?Hp, ?Hs; assumption.
Qed.

(** A loop over slots whose scheduled owners are all stopped already
    changes nothing. *)
Lemma setup_enter_noop (l : list Z) :
  forall w : world HW,
    (forall i x, In i l ->
                 test_bit i (used_mask (percpu w cur)) = true ->
                 events (percpu w cur) i = Some x ->
                 ev_state (mem w x) = PERF_EVENT_STATE_ACTIVE ->
                 (Z.land (hwc_state (hw (mem w x))) PERF_HES_STOPPED =? 0) = false) ->
    fold_left (cpu_pm_pmu_setup_slot armpmu CPU_PM_ENTER cur) l w = w.
Proof.
  induction l as [|j l IH]; intros w H; [reflexivity|].
  cbn [fold_left].
  assert (Hj : cpu_pm_pmu_setup_slot armpmu CPU_PM_ENTER cur w j = w).
  { unfold cpu_pm_pmu_setup_slot.
    destruct (test_bit j (used_mask (percpu w cur))) eqn:Hbit; [|reflexivity].
    destruct (events (percpu w cur) j) as [x|] eqn:Hev; [|reflexivity].
    destruct (Z.eqb_spec (ev_state (mem w x)) PERF_EVENT_STATE_ACTIVE) as [Hact|_];
      [|reflexivity].
    cbn [negb]. change (CPU_PM_ENTER =? CPU_PM_ENTER) with true. cbv iota.
    apply armpmu_stop_noop. apply (H j x); auto. left. reflexivity. }
  rewrite Hj. apply IH. intros i x Hin. apply H. right. exact Hin.
Qed.

(** X14.  Whatever the command, the notifier answers NOTIFY_OK or
    NOTIFY_DONE, never changes the per-core slot state or a scheduler
    state, and leaves untouched every event that is not the scheduled
    owner of a used slot below [num_events] on this core.  On a core the
    bank does not serve it answers NOTIFY_DONE and changes nothing.  For
    every command but CPU_PM_ENTER no running total changes. *)
Theorem cpu_pm_notifier_frame :
  forall (cmd : Z) (w : world HW),
    let res := cpu_pm_pmu_common armpmu cmd cur w in
    (fst res = NOTIFY_OK \/ fst res = NOTIFY_DONE) /\
    percpu (snd res) = percpu w /\
    (forall x, ev_state (mem (snd res) x) = ev_state (mem w x)) /\
    (forall x,
        (forall i, 0 <= i < num_events armpmu ->
                   test_bit i (used_mask (percpu w cur)) = true ->
                   events (percpu w cur) i = Some x ->
                   ev_state (mem w x) <> PERF_EVENT_STATE_ACTIVE) ->
        mem (snd res) x = mem w x) /\
    (cpumask_test_cpu cur (supported_cpus armpmu) = false -> res = (NOTIFY_DONE, w)) /\
    (cmd <> CPU_PM_ENTER -> forall x, count (mem (snd res) x) = count (mem w x)).
Proof.
  intros cmd w res. unfold res, cpu_pm_pmu_common.
  destruct (cpumask_test_cpu cur (supported_cpus armpmu)); cbn [negb].
  2:{ cbn [fst snd]. repeat split; auto. }
  set (w0 := match reset armpmu with
             | Some r => if cmd =? CPU_PM_EXIT then set_regs (r (regs w)) w else w
             | None => w
             end).
  assert (Hp0 : percpu w0 = percpu w).
  { unfold w0. destruct (reset armpmu); [destruct (cmd =? CPU_PM_EXIT)|]; reflexivity. }
  assert (Hm0 : mem w0 = mem w).
  { unfold w0. destruct (reset armpmu); [destruct (cmd =? CPU_PM_EXIT)|]; reflexivity. }
  assert (Hframe : forall w1 : world HW,
             percpu w1 = percpu w -> mem w1 = mem w ->
             let w' := cpu_pm_pmu_setup armpmu cmd cur w1 in
             percpu w' = percpu w /\
             (forall x, ev_state (mem w' x) = ev_state (mem w x)) /\
             (forall x,
                 (forall i, 0 <= i < num_events armpmu ->
                            test_bit i (used_mask (percpu w cur)) = true ->
                            events (percpu w cur) i = Some x ->
                            ev_state (mem w x) <> PERF_EVENT_STATE_ACTIVE) ->
                 mem w' x = mem w x) /\
             (cmd <> CPU_PM_ENTER -> forall x, count (mem w' x) = count (mem w x))).
  { intros w1 Hp1 Hm1. unfold cpu_pm_pmu_setup.
    destruct (setup_frame cmd (map Z.of_nat (seq 0 (Z.to_nat (num_events armpmu)))) w1)
      as (Hp & Hs & Hm & Hc & _).
    cbv zeta. rewrite Hp1, Hm1 in *.
    split; [exact Hp|]. split; [exact Hs|]. split; [|exact Hc].
    intros x Hx. apply Hm. intros i Hin (Hbit & Hev & Hact).
    apply (Hx i (slot_in_range_inv _ _ Hin) Hbit Hev Hact). }
  destruct (bitmap_weight (used_mask (percpu w cur)) (num_events armpmu) =? 0).
  { cbn [fst snd]. rewrite Hp0, Hm0. split; [left; reflexivity|].
    repeat split; auto; discriminate. }
  destruct (cmd =? CPU_PM_ENTER).
  { cbn [fst snd].
    destruct (Hframe (set_regs (stop armpmu (regs w0)) w0) Hp0 Hm0) as (Hp & Hs & Hm & Hc).
    split; [left; reflexivity|]. split; [exact Hp|]. split; [exact Hs|].
    split; [exact Hm|]. split; [discriminate|exact Hc]. }
  destruct ((cmd =? CPU_PM_EXIT) || (cmd =? CPU_PM_ENTER_FAILED)).
  { cbn [fst snd mem percpu set_regs].
    destruct (Hframe w0 Hp0 Hm0) as (Hp & Hs & Hm & Hc).
    split; [left; reflexivity|]. split; [exact Hp|]. split; [exact Hs|].
    split; [exact Hm|]. split; [discriminate|exact Hc]. }
  cbn [fst snd]. rewrite Hp0, Hm0. split; [right; reflexivity|].
  repeat split; auto; discriminate.
Qed.

Lemma cpu_pm_enter_shape (v : world HW) :
  cpu_pm_pmu_common armpmu CPU_PM_ENTER cur v =
  if negb (cpumask_test_cpu cur (supported_cpus armpmu)) then (NOTIFY_DONE, v)
  else if bitmap_weight (used_mask (percpu v cur)) (num_events armpmu) =? 0
       then (NOTIFY_OK, v)
       else (NOTIFY_OK,
             cpu_pm_pmu_setup armpmu CPU_PM_ENTER cur (set_regs (stop armpmu (regs v)) v)).
Proof.
  unfold cpu_pm_pmu_common.
  change (CPU_PM_ENTER =? CPU_PM_EXIT) with false.
  change (CPU_PM_ENTER =? CPU_PM_ENTER) with true.
  destruct (reset armpmu); reflexivity.
Qed.

(** X15.  Entering the low-power state twice in a row stops and accounts
    the events once: the second CPU_PM_ENTER leaves every event and the
    per-core state as the first left them. *)
Theorem cpu_pm_enter_twice :
  forall (w : world HW),
    let once := snd (cpu_pm_pmu_common armpmu CPU_PM_ENTER cur w) in
    let twice := snd (cpu_pm_pmu_common armpmu CPU_PM_ENTER cur once) in
    mem twice = mem once /\ percpu twice = percpu once.
Proof.
  intros w once twice. unfold twice. rewrite cpu_pm_enter_shape.
  destruct (cpumask_test_cpu cur (supported_cpus armpmu)) eqn:Hsup; cbn [negb];
    [|split; reflexivity].
  destruct (bitmap_weight (used_mask (percpu once cur)) (num_events armpmu) =? 0) eqn:Hen;
    [split; reflexivity|].
  cbn [snd].
  assert (Honce : (once = w /\
                   (bitmap_weight (used_mask (percpu w cur)) (num_events armpmu) =? 0)
                   = true) \/
                  once = cpu_pm_pmu_setup armpmu CPU_PM_ENTER cur
                           (set_regs (stop armpmu (regs w)) w)).
  { unfold once. rewrite cpu_pm_enter_shape, Hsup. cbn [negb].
    destruct (bitmap_weight (used_mask (percpu w cur)) (num_events armpmu) =? 0);
      [left; split|right]; reflexivity. }
  assert (Hstopped :
            forall i x,
              In i (map Z.of_nat (seq 0 (Z.to_nat (num_events armpmu)))) ->
              test_bit i (used_mask (percpu once cur)) = true ->
              events (percpu once cur) i = Some x ->
              ev_state (mem once x) = PERF_EVENT_STATE_ACTIVE ->
              (Z.land (hwc_state (hw (mem once x))) PERF_HES_STOPPED =? 0) = false).
  { destruct Honce as [[Hw Hw0]|Hs].
    - (* the first call did nothing: no slot below num_events is in use *)
      exfalso. rewrite Hw, Hw0 in Hen. discriminate.
    - intros i x Hin Hbit Hev Hact.
      destruct (setup_frame CPU_PM_ENTER
                  (map Z.of_nat (seq 0 (Z.to_nat (num_events armpmu))))
                  (set_regs (stop armpmu (regs w)) w)) as (Hp & Hst & _ & _ & _ & Hh).
      fold (cpu_pm_pmu_setup armpmu CPU_PM_ENTER cur (set_regs (stop armpmu (regs w)) w))
        in Hp, Hst, Hh.
      rewrite <- Hs in Hp, Hst, Hh.
      apply (Hh eq_refl i x Hin).
      + rewrite <- Hp. exact Hbit.
      + rewrite <- Hp. exact Hev.
      + rewrite <- Hst. exact Hact. }
  unfold cpu_pm_pmu_setup. rewrite setup_enter_noop; [split; reflexivity|].
  exact Hstopped.
Qed.

End PowerFrame.

(** ** Interrupt lines: release, bring-up, hotplug *)

Lemma setbit_keeps (a n c : Z) : Z.testbit a c = true -> Z.testbit (Z.setbit a n) c = true.
Proof.
  intros H. rewrite Z.setbit_spec', Z.lor_spec, H. reflexivity.
Qed.

Lemma clearbit_only_clears (a n c : Z) :
  Z.testbit (Z.clearbit a n) c = true -> Z.testbit a c = true.
Proof. intros H. apply Z.clearbit_iff in H. exact (proj1 H). Qed.

(** X16.  [armpmu_free_irq] does nothing for a core that is not active.
    For an active core it leaves the state OFF and the core inactive; a
    per-cpu line is freed once, every core becomes inactive and the
    recorded line is reset to [-1]; an exclusive line is freed for this
    core only and the other cores stay as they were.  Freeing again does
    nothing more, and no core ever becomes active by a release. *)
Theorem armpmu_free_irq_releases :
  forall (ic : irq_core) (cpu_irq : Z -> Z) (cur : Z) (st : arm_pmu_irqs),
    let res := armpmu_free_irq ic cpu_irq cur st in
    (cpumask_test_cpu cur (active_irqs st) = false -> res = (st, [])) /\
    (cpumask_test_cpu cur (active_irqs st) = true ->
     pmu_state (fst res) = ARM_PMU_STATE_OFF /\
     (irq_is_percpu ic (cpu_irq cur) = true ->
      res = ({| pmu_state := ARM_PMU_STATE_OFF; percpu_irq := -1; active_irqs := 0 |},
             [FreePercpuIrq (cpu_irq cur)])) /\
     (irq_is_percpu ic (cpu_irq cur) = false ->
      percpu_irq (fst res) = percpu_irq st /\
      snd res = [FreeIrq (cpu_irq cur) cur] /\
      forall c, c <> cur ->
                cpumask_test_cpu c (active_irqs (fst res)) =
                cpumask_test_cpu c (active_irqs st))) /\
    cpumask_test_cpu cur (active_irqs (fst res)) = false /\
    armpmu_free_irq ic cpu_irq cur (fst res) = (fst res, []) /\
    (forall c, cpumask_test_cpu c (active_irqs (fst res)) = true ->
               cpumask_test_cpu c (active_irqs st) = true) /\
    (pmu_state st <> ARM_PMU_STATE_GOING_DOWN ->
     pmu_state (fst res) <> ARM_PMU_STATE_GOING_DOWN).
Proof.
  intros ic cpu_irq cur st res.
  assert (Hoff : cpumask_test_cpu cur (active_irqs (fst res)) = false).
  { unfold res, armpmu_free_irq, cpumask_test_cpu.
    destruct (Z.testbit (active_irqs st) cur) eqn:Hact; cbn [negb fst]; [|exact Hact].
    destruct (irq_is_percpu ic (cpu_irq cur)); cbn [fst active_irqs];
      [apply Z.testbit_0_l|apply Z.clearbit_eq]. }
  split; [|split; [|split; [exact Hoff|split; [|split]]]].
  - intros H. unfold res, armpmu_free_irq. rewrite H. reflexivity.
  - intros H. unfold res, armpmu_free_irq. rewrite H. cbn [negb].
    destruct (irq_is_percpu ic (cpu_irq cur)); cbn [fst snd pmu_state percpu_irq active_irqs].
    + split; [reflexivity|]. split; [reflexivity|discriminate].
    + split; [reflexivity|]. split; [discriminate|]. intros _.
      split; [reflexivity|]. split; [reflexivity|].
      intros c Hc. unfold cpumask_test_cpu. apply Z.clearbit_neq.
      intros Heq. apply Hc. symmetry. exact Heq.
  - unfold armpmu_free_irq at 1. rewrite Hoff. reflexivity.
  - intros c. unfold res, armpmu_free_irq, cpumask_test_cpu.
    destruct (Z.testbit (active_irqs st) cur); cbn [negb fst]; [|auto].
    destruct (irq_is_percpu ic (cpu_irq cur)); cbn [fst active_irqs].
    + rewrite Z.testbit_0_l. discriminate.
    + apply clearbit_only_clears.
  - unfold res, armpmu_free_irq.
    destruct (cpumask_test_cpu cur (active_irqs st)); cbn [negb fst]; [|auto].
    destruct (irq_is_percpu ic (cpu_irq cur)); cbn [fst pmu_state]; discriminate.
Qed.

(** X17.  On a bank as [armpmu_alloc] returns it, requesting the line of a
    core and freeing it again gives the bank back as it was, for a per-cpu
    line as for an exclusive one. *)
Theorem armpmu_request_free_round_trip :
  forall (ic : irq_core) (cpu_irq : Z -> Z) (cur : Z) (st : arm_pmu_irqs),
    armpmu_alloc true true = Some st ->
    0 <= cur ->
    cpu_irq cur <> 0 ->
    fst (armpmu_request_irq ic cpu_irq cur st) = 0 ->
    let requested := snd (armpmu_request_irq ic cpu_irq cur st) in
    pmu_state requested = ARM_PMU_STATE_RUNNING /\
    cpumask_test_cpu cur (active_irqs requested) = true /\
    fst (armpmu_free_irq ic cpu_irq cur requested) = st /\
    snd (armpmu_free_irq ic cpu_irq cur requested) =
    (if irq_is_percpu ic (cpu_irq cur)
     then [FreePercpuIrq (cpu_irq cur)]
     else [FreeIrq (cpu_irq cur) cur]).
Proof.
  intros ic cpu_irq cur st Halloc Hcur Hirq Hok requested.
  cbn in Halloc. injection Halloc as <-.
  unfold requested. revert Hok.
  unfold armpmu_request_irq, request_irq_finish.
  apply Z.eqb_neq in Hirq. rewrite Hirq.
  cbn [active_irqs percpu_irq pmu_state cpumask_empty].
  change (0 =? 0) with true. rewrite andb_true_r.
  assert (Hset : Z.testbit (Z.setbit 0 cur) cur = true) by (apply Z.setbit_eq; exact Hcur).
  assert (Hclr : Z.clearbit (Z.setbit 0 cur) cur = 0).
  { apply clearbit_setbit_free; [exact Hcur|apply Z.testbit_0_l]. }
  destruct (irq_is_percpu ic (cpu_irq cur)) eqn:Hper.
  - destruct (Z.eqb_spec (request_percpu_irq ic (cpu_irq cur)) 0) as [Hz|Hz];
      cbn [negb fst snd]; [intros _|intros H; contradiction].
    cbn [pmu_state active_irqs]. unfold armpmu_free_irq, cpumask_test_cpu, cpumask_set_cpu.
    cbn [active_irqs]. rewrite Hset, Hper. cbn [negb fst snd].
    repeat split.
  - destruct (negb (irq_force_affinity ic (cpu_irq cur) cur =? 0) &&
              (num_possible_cpus ic >? 1)) eqn:Haff.
    { cbn [fst]. intros H. apply andb_true_iff in Haff. destruct Haff as [Haff _].
      apply negb_true_iff in Haff. apply Z.eqb_neq in Haff. contradiction. }
    match goal with
    | |- context [request_irq ic ?i ?f ?c =? 0] =>
        destruct (Z.eqb_spec (request_irq ic i f c) 0) as [Hz|Hz]
    end;
      cbn [negb fst snd]; [intros _|intros H; contradiction].
    cbn [pmu_state active_irqs]. unfold armpmu_free_irq, cpumask_test_cpu, cpumask_set_cpu.
    cbn [active_irqs percpu_irq]. rewrite Hset, Hper, Hclr. cbn [negb fst snd].
    repeat split.
Qed.

Section BringUp.

Variable ic : irq_core.
Variable cpu_irq : Z -> Z.

Lemma request_irq_keeps_active (cur c : Z) (st : arm_pmu_irqs) :
  cpumask_test_cpu c (active_irqs st) = true ->
  cpumask_test_cpu c (active_irqs (snd (armpmu_request_irq ic cpu_irq cur st))) = true.
Proof.
  intros H.
  destruct (armpmu_request_irq_outcomes ic cpu_irq cur st) as (_ & Hfail & Hcases).
  cbv zeta in Hfail, Hcases.
  destruct Hcases as [->|[[Hne _]|(_ & _ & ->)]].
  - exact H.
  - rewrite (proj2 (Hfail Hne)). exact H.
  - apply setbit_keeps. exact H.
Qed.

Lemma request_irq_success (cur : Z) (st : arm_pmu_irqs) :
  cpu_irq cur <> 0 ->
  fst (armpmu_request_irq ic cpu_irq cur st) = 0 ->
  pmu_state (snd (armpmu_request_irq ic cpu_irq cur st)) = ARM_PMU_STATE_RUNNING /\
  active_irqs (snd (armpmu_request_irq ic cpu_irq cur st)) =
  cpumask_set_cpu cur (active_irqs st).
Proof.
  intros Hirq. unfold armpmu_request_irq, request_irq_finish.
  apply Z.eqb_neq in Hirq. rewrite Hirq.
  destruct (irq_is_percpu ic (cpu_irq cur) && cpumask_empty (active_irqs st)).
  { destruct (Z.eqb_spec (request_percpu_irq ic (cpu_irq cur)) 0); cbn;
      [intros _; split; reflexivity|intros H; contradiction]. }
  destruct (irq_is_percpu ic (cpu_irq cur)).
  { destruct (cpu_irq cur =? cpu_irq _); cbn;
      [intros _; split; reflexivity|discriminate]. }
  destruct (negb (irq_force_affinity ic (cpu_irq cur) cur =? 0) &&
            (num_possible_cpus ic >? 1)) eqn:Haff.
  { cbn [fst]. intros H. apply andb_true_iff in Haff. destruct Haff as [Haff _].
    apply negb_true_iff in Haff. apply Z.eqb_neq in Haff. contradiction. }
  match goal with
  | |- context [request_irq ic ?i ?f ?c =? 0] =>
      destruct (Z.eqb_spec (request_irq ic i f c) 0)
  end; cbn; [intros _; split; reflexivity|intros H; contradiction].
Qed.

Lemma request_irqs_loop_start (l : list Z) (err err' : Z) (st : arm_pmu_irqs) :
  l <> [] ->
  armpmu_request_irqs_loop ic cpu_irq l err st =
  armpmu_request_irqs_loop ic cpu_irq l err' st.
Proof. destruct l; [contradiction|reflexivity]. Qed.

Lemma request_irqs_loop_keeps_active (l : list Z) :
  forall (err : Z) (st : arm_pmu_irqs) (c : Z),
    cpumask_test_cpu c (active_irqs st) = true ->
    cpumask_test_cpu c
      (active_irqs (snd (armpmu_request_irqs_loop ic cpu_irq l err st))) = true.
Proof.
  induction l as [|c0 l IH]; intros err st c H; [exact H|].
  cbn [armpmu_request_irqs_loop].
  pose proof (request_irq_keeps_active c0 c st H) as H1.
  destruct (armpmu_request_irq ic cpu_irq c0 st) as [e1 st1]. cbn [snd] in H1.
  destruct (negb (e1 =? 0)); [exact H1|apply IH; exact H1].
Qed.

Lemma request_irqs_loop_all (l : list Z) :
  forall (st : arm_pmu_irqs),
    fst (armpmu_request_irqs_loop ic cpu_irq l 0 st) = 0 ->
    forall c, In c l -> 0 <= c -> cpu_irq c <> 0 ->
              cpumask_test_cpu c
                (active_irqs (snd (armpmu_request_irqs_loop ic cpu_irq l 0 st))) = true /\
              pmu_state (snd (armpmu_request_irqs_loop ic cpu_irq l 0 st)) =
              ARM_PMU_STATE_RUNNING.
Proof.
  induction l as [|c0 l IH]; intros st Hok c Hin Hc Hirq; [contradiction|].
  cbn [armpmu_request_irqs_loop] in *.
  pose proof (request_irq_success c0 st) as Hs.
  destruct (armpmu_request_irq ic cpu_irq c0 st) as [e1 st1] eqn:Hreq.
  cbn [fst snd] in Hs.
  destruct (Z.eqb_spec e1 0) as [->|Hne]; cbn [negb] in *; [|contradiction].
  assert (Hrun : forall l' st', pmu_state st' = ARM_PMU_STATE_RUNNING ->
                 fst (armpmu_request_irqs_loop ic cpu_irq l' 0 st') = 0 ->
                 pmu_state (snd (armpmu_request_irqs_loop ic cpu_irq l' 0 st')) =
                 ARM_PMU_STATE_RUNNING).
  { clear. induction l' as [|c1 l' IH']; intros st' Hr Hz; [exact Hr|].
    cbn [armpmu_request_irqs_loop] in *.
    destruct (armpmu_request_irq_outcomes ic cpu_irq c1 st') as (_ & _ & Hcases).
    cbv zeta in Hcases.
    destruct (armpmu_request_irq ic cpu_irq c1 st') as [e2 st2]. cbn [fst snd] in *.
    destruct (Z.eqb_spec e2 0) as [->|Hne]; cbn [negb] in *; [|contradiction].
    apply IH'; [|exact Hz].
    destruct Hcases as [->|[[Hne _]|(_ & Hr2 & _)]];
      [exact Hr|contradiction|exact Hr2]. }
  destruct Hin as [<-|Hin].
  - destruct (Hs Hirq eq_refl) as [Hr Ha].
    split; [|apply Hrun; assumption].
    apply request_irqs_loop_keeps_active. rewrite Ha.
    apply Z.setbit_eq. exact Hc.
  - apply IH; assumption.
Qed.

Lemma request_irqs_loop_first_failure (l : list Z) :
  forall (st : arm_pmu_irqs),
    fst (armpmu_request_irqs_loop ic cpu_irq l 0 st) <> 0 ->
    exists l1 c l2,
      l = l1 ++ c :: l2 /\
      fst (armpmu_request_irqs_loop ic cpu_irq l1 0 st) = 0 /\
      armpmu_request_irqs_loop ic cpu_irq l 0 st =
      armpmu_request_irq ic cpu_irq c (snd (armpmu_request_irqs_loop ic cpu_irq l1 0 st)).
Proof.
  induction l as [|c0 l IH]; intros st Hne; [cbn in Hne; contradiction|].
  cbn [armpmu_request_irqs_loop] in Hne |- *.
  destruct (armpmu_request_irq ic cpu_irq c0 st) as [e1 st1] eqn:Hreq.
  destruct (Z.eqb_spec e1 0) as [->|He]; cbn [negb] in *.
  - destruct (IH st1 Hne) as (l1 & c & l2 & -> & Hz & Heq).
    exists (c0 :: l1), c, l2. cbn [app armpmu_request_irqs_loop].
    rewrite Hreq. cbn [negb Z.eqb]. split; [reflexivity|].
    split; [exact Hz|exact Heq].
  - exists [], c0, l. cbn [app armpmu_request_irqs_loop fst snd].
    split; [reflexivity|]. split; [reflexivity|]. symmetry. exact Hreq.
Qed.

(** X18.  [armpmu_request_irqs] requests the lines of the served cores in
    increasing order and stops at the first failure: a non-zero answer is
    the answer of the first core whose request failed, and the state is
    the one that request left, the cores after it untouched.  An answer of
    [0] means every served core with a line is active and the bank
    RUNNING.  No core that was active stops being so.  When at least one
    core is served the answer does not depend on the uninitialised local
    [err]; when none is, the answer is that local's value. *)
Theorem armpmu_request_irqs_fail_fast :
  forall (supported err0 : Z) (st : arm_pmu_irqs),
    let cpus := for_each_cpu (nr_cpu_ids ic) supported in
    let res := armpmu_request_irqs ic cpu_irq supported err0 st in
    (cpus = [] -> res = (err0, st)) /\
    (cpus <> [] ->
     forall err1, armpmu_request_irqs ic cpu_irq supported err1 st = res) /\
    (forall c, cpumask_test_cpu c (active_irqs st) = true ->
               cpumask_test_cpu c (active_irqs (snd res)) = true) /\
    (cpus <> [] -> fst res = 0 ->
     forall c, In c cpus -> cpu_irq c <> 0 ->
               cpumask_test_cpu c (active_irqs (snd res)) = true /\
               pmu_state (snd res) = ARM_PMU_STATE_RUNNING) /\
    (cpus <> [] -> fst res <> 0 ->
     exists l1 c l2,
       cpus = l1 ++ c :: l2 /\
       fst (armpmu_request_irqs_loop ic cpu_irq l1 0 st) = 0 /\
       res = armpmu_request_irq ic cpu_irq c
               (snd (armpmu_request_irqs_loop ic cpu_irq l1 0 st))).
Proof.
  intros supported err0 st cpus res. unfold res, armpmu_request_irqs. fold cpus.
  split; [intros ->; reflexivity|].
  split; [intros Hne err1; apply request_irqs_loop_start; exact Hne|].
  split; [intros c; apply request_irqs_loop_keeps_active|].
  split.
  - intros Hne. rewrite (request_irqs_loop_start cpus err0 0 st Hne).
    intros Hok c Hin Hirq. apply request_irqs_loop_all; try assumption.
    unfold cpus, for_each_cpu in Hin. apply filter_In in Hin.
    destruct Hin as [Hin _]. apply in_map_iff in Hin.
    destruct Hin as (k & <- & _). lia.
  - intros Hne. rewrite (request_irqs_loop_start cpus err0 0 st Hne).
    apply request_irqs_loop_first_failure.
Qed.

(** The bank state [armpmu_free_irqs] leaves, as a fold of its own. *)
Lemma free_irqs_state (l : list Z) :
  forall (st : arm_pmu_irqs) (calls : list irq_call),
    fst (fold_left
           (fun acc c =>
              let '(st', calls') := armpmu_free_irq ic cpu_irq c (fst acc) in
              (st', snd acc ++ calls'))
           l (st, calls)) =
    fold_left (fun s c => fst (armpmu_free_irq ic cpu_irq c s)) l st.
Proof.
  induction l as [|c l IH]; intros st calls; [reflexivity|].
  cbn [fold_left fst snd].
  destruct (armpmu_free_irq ic cpu_irq c st) as [st' calls']. cbn [fst].
  apply IH.
Qed.

Lemma free_irq_only_clears (cur c : Z) (st : arm_pmu_irqs) :
  cpumask_test_cpu c (active_irqs (fst (armpmu_free_irq ic cpu_irq cur st))) = true ->
  cpumask_test_cpu c (active_irqs st) = true.
Proof.
  unfold armpmu_free_irq, cpumask_test_cpu.
  destruct (Z.testbit (active_irqs st) cur); cbn [negb fst]; [|auto].
  destruct (irq_is_percpu ic (cpu_irq cur)); cbn [fst active_irqs].
  - rewrite Z.testbit_0_l. discriminate.
  - apply clearbit_only_clears.
Qed.

Lemma free_irq_inactive (cur : Z) (st : arm_pmu_irqs) :
  cpumask_test_cpu cur (active_irqs (fst (armpmu_free_irq ic cpu_irq cur st))) = false.
Proof.
  unfold armpmu_free_irq, cpumask_test_cpu.
  destruct (Z.testbit (active_irqs st) cur) eqn:Hact; cbn [negb fst]; [|exact Hact].
  destruct (irq_is_percpu ic (cpu_irq cur)); cbn [fst active_irqs];
    [apply Z.testbit_0_l|apply Z.clearbit_eq].
Qed.

Lemma free_irqs_only_clears (l : list Z) :
  forall (st : arm_pmu_irqs) (c : Z),
    cpumask_test_cpu c
      (active_irqs (fold_left (fun s c => fst (armpmu_free_irq ic cpu_irq c s)) l st))
    = true ->
    cpumask_test_cpu c (active_irqs st) = true.
Proof.
  induction l as [|c0 l IH]; intros st c H; [exact H|].
  cbn [fold_left] in H. apply IH in H. apply (free_irq_only_clears c0 c st H).
Qed.

(** X19.  After [armpmu_free_irqs] no served core is active, no core has
    become active, and the bank is OFF if a served core was active
    before. *)
Theorem armpmu_free_irqs_clears :
  forall (supported : Z) (st : arm_pmu_irqs),
    let cpus := for_each_cpu (nr_cpu_ids ic) supported in
    let st' := fst (armpmu_free_irqs ic cpu_irq supported st) in
    (forall c, In c cpus -> cpumask_test_cpu c (active_irqs st') = false) /\
    (forall c, cpumask_test_cpu c (active_irqs st') = true ->
               cpumask_test_cpu c (active_irqs st) = true) /\
    ((exists c, In c cpus /\ cpumask_test_cpu c (active_irqs st) = true) ->
     pmu_state st' = ARM_PMU_STATE_OFF) /\
    ((forall c, In c cpus -> cpumask_test_cpu c (active_irqs st) = false) ->
     st' = st).
Proof.
  intros supported st cpus st'. unfold st', armpmu_free_irqs. fold cpus.
  rewrite free_irqs_state. clear st'. generalize cpus. clear cpus.
  intros l. split; [|split; [|split]].
  - revert st. induction l as [|c0 l IH]; intros st c Hin; [contradiction|].
    cbn [fold_left]. destruct Hin as [<-|Hin]; [|apply IH; exact Hin].
    destruct (cpumask_test_cpu c0 (active_irqs (fold_left _ l _))) eqn:H; [|reflexivity].
    apply free_irqs_only_clears in H. rewrite free_irq_inactive in H. discriminate.
  - intros c. apply free_irqs_only_clears.
  - revert st. induction l as [|c0 l IH]; intros st (c & Hin & Hact); [contradiction|].
    cbn [fold_left].
    assert (Hoff : forall l' s, pmu_state s = ARM_PMU_STATE_OFF ->
                   pmu_state (fold_left (fun s c => fst (armpmu_free_irq ic cpu_irq c s))
                                        l' s) = ARM_PMU_STATE_OFF).
    { clear. induction l' as [|c1 l' IH']; intros s Hs; [exact Hs|].
      cbn [fold_left]. apply IH'. unfold armpmu_free_irq.
      destruct (cpumask_test_cpu c1 (active_irqs s)); cbn [negb fst]; [|exact Hs].
      destruct (irq_is_percpu ic (cpu_irq c1)); reflexivity. }
    destruct (cpumask_test_cpu c0 (active_irqs st)) eqn:H0.
    + apply Hoff. unfold armpmu_free_irq. rewrite H0. cbn [negb].
      destruct (irq_is_percpu ic (cpu_irq c0)); reflexivity.
    + assert (Hsame : fst (armpmu_free_irq ic cpu_irq c0 st) = st).
      { unfold armpmu_free_irq. rewrite H0. reflexivity. }
      rewrite Hsame. apply IH. exists c. split; [|exact Hact].
      destruct Hin as [<-|Hin]; [rewrite H0 in Hact; discriminate|exact Hin].
  - revert st. induction l as [|c0 l IH]; intros st Hnone; [reflexivity|].
    cbn [fold_left].
    assert (Hsame : fst (armpmu_free_irq ic cpu_irq c0 st) = st).
    { unfold armpmu_free_irq. rewrite (Hnone c0) by (left; reflexivity). reflexivity. }
    rewrite Hsame. apply IH. intros c Hin. apply Hnone. right. exact Hin.
Qed.

(** X20.  While the bank is OFF the hotplug callbacks touch no interrupt
    line.  In particular, after a request that failed on a bank that was
    OFF, and after the release of an active core, a core coming online or
    going offline enables and disables nothing; both callbacks always
    return [0]. *)
Theorem hotplug_quiet_while_off :
  forall (HW : Type) (c cur : Z) (pmu_ : option (arm_pmu HW)) (st : arm_pmu_irqs)
         (plat_device : bool) (r : HW),
    (fst (fst (arm_perf_starting_cpu ic c pmu_ st plat_device r)) = 0 /\
     fst (fst (arm_perf_stopping_cpu ic c pmu_ st plat_device r)) = 0 /\
     snd (fst (arm_perf_stopping_cpu ic c pmu_ st plat_device r)) = r) /\
    (pmu_state st = ARM_PMU_STATE_OFF ->
     snd (arm_perf_starting_cpu ic c pmu_ st plat_device r) = [] /\
     snd (arm_perf_stopping_cpu ic c pmu_ st plat_device r) = []) /\
    (pmu_state st = ARM_PMU_STATE_OFF ->
     fst (armpmu_request_irq ic cpu_irq cur st) <> 0 ->
     let st' := snd (armpmu_request_irq ic cpu_irq cur st) in
     snd (arm_perf_starting_cpu ic c pmu_ st' plat_device r) = [] /\
     snd (arm_perf_stopping_cpu ic c pmu_ st' plat_device r) = []) /\
    (cpumask_test_cpu cur (active_irqs st) = true ->
     let st' := fst (armpmu_free_irq ic cpu_irq cur st) in
     snd (arm_perf_starting_cpu ic c pmu_ st' plat_device r) = [] /\
     snd (arm_perf_stopping_cpu ic c pmu_ st' plat_device r) = []).
Proof.
  intros HW c cur pmu_ st plat_device r.
  assert (Hoff : forall s, pmu_state s = ARM_PMU_STATE_OFF ->
                 snd (arm_perf_starting_cpu ic c pmu_ s plat_device r) = [] /\
                 snd (arm_perf_stopping_cpu ic c pmu_ s plat_device r) = []).
  { intros s Hs. unfold arm_perf_starting_cpu, arm_perf_stopping_cpu. rewrite Hs.
    destruct pmu_ as [p|]; [|split; reflexivity].
    destruct (cpumask_test_cpu c (supported_cpus p)); cbn; split; reflexivity. }
  split; [|split; [exact (Hoff st)|split]].
  - unfold arm_perf_starting_cpu, arm_perf_stopping_cpu.
    destruct pmu_ as [p|]; [|repeat split].
    destruct (cpumask_test_cpu c (supported_cpus p)); cbn [negb]; [|repeat split].
    destruct (negb (arm_pmu_state_eqb (pmu_state st) ARM_PMU_STATE_OFF) && plat_device);
      destruct (arm_pmu_state_eqb (pmu_state st) ARM_PMU_STATE_RUNNING && plat_device);
      destruct ((percpu_irq st >? 0) && irq_is_percpu ic (percpu_irq st));
      repeat split.
  - intros Hs Hfail st'. apply Hoff. unfold st'.
    destruct (armpmu_request_irq_outcomes ic cpu_irq cur st) as (_ & Hf & _).
    rewrite (proj1 (Hf Hfail)). exact Hs.
  - intros Hact st'. apply Hoff. unfold st', armpmu_free_irq. rewrite Hact.
    cbn [negb]. destruct (irq_is_percpu ic (cpu_irq cur)); reflexivity.
Qed.

End BringUp.

Section MappingAnswers.

Variable PERF_COUNT_HW_MAX : Z.
Variable PERF_COUNT_HW_CACHE_MAX : Z.
Variable PERF_COUNT_HW_CACHE_OP_MAX : Z.
Variable PERF_COUNT_HW_CACHE_RESULT_MAX : Z.
Variable HW_OP_UNSUPPORTED : Z.
Variable CACHE_OP_UNSUPPORTED : Z.

Lemma map_raw_event_range (mask config : Z) :
  0 <= mask < 2 ^ 31 -> 0 <= armpmu_map_raw_event mask config <= mask.
Proof.
  intros H. unfold armpmu_map_raw_event.
  pose proof (land_bounds config mask (proj1 H)) as Hb.
  rewrite s32_id; lia.
Qed.

Lemma map_hw_event_cases (event_map : option (Z -> Z)) (config : Z) :
  (forall tbl, event_map = Some tbl -> config < PERF_COUNT_HW_MAX ->
               0 <= tbl config < 2 ^ 31) ->
  let h := armpmu_map_hw_event PERF_COUNT_HW_MAX HW_OP_UNSUPPORTED event_map config in
  (PERF_COUNT_HW_MAX <= config -> h = - EINVAL) /\
  (config < PERF_COUNT_HW_MAX ->
   h = - ENOENT \/
   (0 <= h < 2 ^ 31 /\
    exists tbl, event_map = Some tbl /\ h = tbl config /\ h <> HW_OP_UNSUPPORTED)).
Proof.
  intros Htbl h. unfold h, armpmu_map_hw_event.
  destruct (Z.geb_spec config PERF_COUNT_HW_MAX) as [Hge|Hlt].
  - split; [reflexivity|lia].
  - split; [lia|]. intros _.
    destruct event_map as [tbl|]; [|left; reflexivity].
    pose proof (Htbl tbl eq_refl Hlt) as Hr. cbv zeta.
    rewrite (s32_id (tbl config)) by lia.
    destruct (Z.eqb_spec (tbl config) HW_OP_UNSUPPORTED) as [He|Hne];
      [left; reflexivity|right].
    split; [exact Hr|]. exists tbl. repeat split. exact Hne.
Qed.

Lemma cache_fields_nonneg (config : Z) :
  0 <= cache_type config /\ 0 <= cache_op config /\ 0 <= cache_result config.
Proof.
  unfold cache_type, cache_op, cache_result.
  repeat split; apply land_bounds; lia.
Qed.

Lemma map_cache_event_cases (cache_map : option (Z -> Z -> Z -> Z)) (config : Z) :
  (forall tbl, cache_map = Some tbl ->
               cache_type config < PERF_COUNT_HW_CACHE_MAX ->
               cache_op config < PERF_COUNT_HW_CACHE_OP_MAX ->
               cache_result config < PERF_COUNT_HW_CACHE_RESULT_MAX ->
               0 <= tbl (cache_type config) (cache_op config) (cache_result config)
               < 2 ^ 31) ->
  let c := armpmu_map_cache_event PERF_COUNT_HW_CACHE_MAX PERF_COUNT_HW_CACHE_OP_MAX
                                  PERF_COUNT_HW_CACHE_RESULT_MAX CACHE_OP_UNSUPPORTED
                                  cache_map config in
  (PERF_COUNT_HW_CACHE_MAX <= cache_type config \/
   PERF_COUNT_HW_CACHE_OP_MAX <= cache_op config \/
   PERF_COUNT_HW_CACHE_RESULT_MAX <= cache_result config -> c = - EINVAL) /\
  (cache_type config < PERF_COUNT_HW_CACHE_MAX ->
   cache_op config < PERF_COUNT_HW_CACHE_OP_MAX ->
   cache_result config < PERF_COUNT_HW_CACHE_RESULT_MAX ->
   c = - ENOENT \/
   (0 <= c < 2 ^ 31 /\
    exists tbl, cache_map = Some tbl /\
                c = tbl (cache_type config) (cache_op config) (cache_result config) /\
                c <> CACHE_OP_UNSUPPORTED)).
Proof.
  intros Htbl c. unfold c, armpmu_map_cache_event.
  destruct (Z.geb_spec (cache_type config) PERF_COUNT_HW_CACHE_MAX) as [H1|H1];
    [split; [reflexivity|lia]|].
  destruct (Z.geb_spec (cache_op config) PERF_COUNT_HW_CACHE_OP_MAX) as [H2|H2];
    [split; [reflexivity|lia]|].
  destruct (Z.geb_spec (cache_result config) PERF_COUNT_HW_CACHE_RESULT_MAX) as [H3|H3];
    [split; [reflexivity|lia]|].
  split; [lia|]. intros _ _ _.
  destruct cache_map as [tbl|]; [|left; reflexivity].
  pose proof (Htbl tbl eq_refl H1 H2 H3) as Hr. cbv zeta.
  assert (Hu : u32 (tbl (cache_type config) (cache_op config) (cache_result config)) =
               tbl (cache_type config) (cache_op config) (cache_result config)).
  { unfold u32. apply Z.mod_small. lia. }
  rewrite Hu. rewrite s32_id by lia.
  destruct (Z.eqb_spec (tbl (cache_type config) (cache_op config) (cache_result config))
                       CACHE_OP_UNSUPPORTED) as [He|Hne];
    [left; reflexivity|right].
  split; [exact Hr|]. exists tbl. repeat split. exact Hne.
Qed.

(** X21.  With tables whose entries within bounds are event codes below
    [2^31] and a raw mask below [2^31], [armpmu_map_event] answers a code in
    [[0, 2^31)], [-EINVAL] or [-ENOENT] and nothing else.  The bank's own
    kind and the raw kind never fail and give a code within the mask, also
    when the bank's own kind is the number of the hardware or of the cache
    kind.  [-EINVAL] is the answer exactly for a hardware kind with
    [config] at or above its bound and for a cache kind with a sub-field at
    or above its bound; any kind that is none of the four gives [-ENOENT];
    a code answered for the hardware or the cache kind is the table's entry
    and not the sentinel. *)
Theorem armpmu_map_event_answers :
  forall (pmu_type : Z) (a : perf_event_attr) (event_map : option (Z -> Z))
         (cache_map : option (Z -> Z -> Z -> Z)) (raw_event_mask : Z),
    0 <= raw_event_mask < 2 ^ 31 ->
    0 <= attr_config a ->
    (forall tbl c, event_map = Some tbl -> 0 <= c < PERF_COUNT_HW_MAX ->
                   0 <= tbl c < 2 ^ 31) ->
    (forall tbl t o r, cache_map = Some tbl ->
                       0 <= t < PERF_COUNT_HW_CACHE_MAX ->
                       0 <= o < PERF_COUNT_HW_CACHE_OP_MAX ->
                       0 <= r < PERF_COUNT_HW_CACHE_RESULT_MAX ->
                       0 <= tbl t o r < 2 ^ 31) ->
    let config := attr_config a in
    let kind := s32 (attr_type a) in
    let code := armpmu_map_event PERF_COUNT_HW_MAX PERF_COUNT_HW_CACHE_MAX
                                 PERF_COUNT_HW_CACHE_OP_MAX
                                 PERF_COUNT_HW_CACHE_RESULT_MAX
                                 HW_OP_UNSUPPORTED CACHE_OP_UNSUPPORTED
                                 pmu_type a event_map cache_map raw_event_mask in
    let bad_hw := kind = PERF_TYPE_HARDWARE /\ PERF_COUNT_HW_MAX <= config in
    let bad_cache :=
      kind = PERF_TYPE_HW_CACHE /\
      (PERF_COUNT_HW_CACHE_MAX <= cache_type config \/
       PERF_COUNT_HW_CACHE_OP_MAX <= cache_op config \/
       PERF_COUNT_HW_CACHE_RESULT_MAX <= cache_result config) in
    (0 <= code < 2 ^ 31 \/ code = - EINVAL \/ code = - ENOENT) /\
    (kind = pmu_type \/ kind = PERF_TYPE_RAW -> 0 <= code <= raw_event_mask) /\
    (code = - EINVAL <-> kind <> pmu_type /\ (bad_hw \/ bad_cache)) /\
    (kind <> pmu_type -> kind <> PERF_TYPE_HARDWARE -> kind <> PERF_TYPE_HW_CACHE ->
     kind <> PERF_TYPE_RAW -> code = - ENOENT) /\
    (0 <= code -> kind <> pmu_type -> kind = PERF_TYPE_HARDWARE ->
     exists tbl, event_map = Some tbl /\ code = tbl config /\
                 code <> HW_OP_UNSUPPORTED) /\
    (0 <= code -> kind <> pmu_type -> kind = PERF_TYPE_HW_CACHE ->
     exists tbl, cache_map = Some tbl /\
                 code = tbl (cache_type config) (cache_op config) (cache_result config) /\
                 code <> CACHE_OP_UNSUPPORTED).
Proof.
  intros pmu_type a event_map cache_map raw_event_mask Hmask Hcfg Hev Hca
         config kind code bad_hw bad_cache.
  pose proof (map_raw_event_range raw_event_mask config Hmask) as Hraw.
  destruct (cache_fields_nonneg config) as (Ht & Ho & Hr).
  destruct (map_hw_event_cases event_map config
              ltac:(intros tbl E Hlt; apply (Hev tbl config E); fold config in Hcfg; lia))
    as [Hhw1 Hhw2].
  destruct (map_cache_event_cases cache_map config
              ltac:(intros tbl E H1 H2 H3; apply (Hca tbl _ _ _ E); lia))
    as [Hc1 Hc2].
  cbv zeta in Hhw1, Hhw2, Hc1, Hc2.
  assert (HE : - EINVAL = -22) by reflexivity.
  assert (HN : - ENOENT = -2) by reflexivity.
  assert (Hkinds : PERF_TYPE_HARDWARE = 0 /\ PERF_TYPE_HW_CACHE = 3 /\ PERF_TYPE_RAW = 4)
    by (repeat split).
  destruct Hkinds as (K0 & K3 & K4).
  unfold code, bad_hw, bad_cache, armpmu_map_event. fold config. fold kind.
  destruct (Z.eqb_spec kind pmu_type) as [Hown|Hown].
  { split; [left; lia|]. split; [intros _; exact Hraw|].
    split; [split; [intros E; lia|intros [Hc _]; contradiction]|].
    split; [intros Hc; contradiction|].
    split; intros _ Hc; contradiction. }
  destruct (Z.eqb_spec kind PERF_TYPE_HARDWARE) as [Hhwk|Hhwk].
  { destruct (Z_lt_le_dec config PERF_COUNT_HW_MAX) as [Hlt|Hge].
    - destruct (Hhw2 Hlt) as [E|(Hrange & tbl & Etbl & Eh & Hns)].
      + rewrite E. split; [right; right; reflexivity|].
        split; [intros [Hc|Hc]; [contradiction|lia]|].
        split; [split; [intros E'; lia|intros [_ [[_ Hb]|[Hb _]]]; lia]|].
        split; [intros _ Hc; contradiction|].
        split; [intros Hneg; lia|intros _ _ Hc; lia].
      + split; [left; exact Hrange|].
        split; [intros [Hc|Hc]; [contradiction|lia]|].
        split; [split; [intros E'; lia|intros [_ [[_ Hb]|[Hb _]]]; lia]|].
        split; [intros _ Hc; contradiction|].
        split; [intros _ _ _; exists tbl; repeat split; assumption|intros _ _ Hc; lia].
    - rewrite (Hhw1 Hge). split; [right; left; reflexivity|].
      split; [intros [Hc|Hc]; [contradiction|lia]|].
      split; [split; [intros _; split; [exact Hown|left; split; assumption]|reflexivity]|].
      split; [intros _ Hc; contradiction|].
      split; [intros Hneg; lia|intros _ _ Hc; lia]. }
  destruct (Z.eqb_spec kind PERF_TYPE_HW_CACHE) as [Hck|Hck].
  { destruct (Z_lt_le_dec (cache_type config) PERF_COUNT_HW_CACHE_MAX) as [H1|H1];
      [destruct (Z_lt_le_dec (cache_op config) PERF_COUNT_HW_CACHE_OP_MAX) as [H2|H2];
       [destruct (Z_lt_le_dec (cache_result config) PERF_COUNT_HW_CACHE_RESULT_MAX)
          as [H3|H3]|]|].
    1: { destruct (Hc2 H1 H2 H3) as [E|(Hrange & tbl & Etbl & Eh & Hns)].
         - rewrite E. split; [right; right; reflexivity|].
           split; [intros [Hc|Hc]; [contradiction|lia]|].
           split; [split; [intros E'; lia|intros [_ [[Hb _]|[_ Hb]]]; lia]|].
           split; [intros _ _ Hc; contradiction|].
           split; [intros _ _ Hc; lia|intros Hneg; lia].
         - split; [left; exact Hrange|].
           split; [intros [Hc|Hc]; [contradiction|lia]|].
           split; [split; [intros E'; lia|intros [_ [[Hb _]|[_ Hb]]]; lia]|].
           split; [intros _ _ Hc; contradiction|].
           split; [intros _ _ Hc; lia|].
           intros _ _ _. exists tbl. repeat split; assumption. }
    all: rewrite Hc1 by lia;
      (split; [right; left; reflexivity|]);
      (split; [intros [Hc|Hc]; [contradiction|lia]|]);
      (split; [split; [intros _; split; [exact Hown|right; split; [assumption|lia]]
                      |reflexivity]|]);
      (split; [intros _ _ Hc; contradiction|]);
      (split; [intros _ _ Hc; lia|intros Hneg; lia]). }
  destruct (Z.eqb_spec kind PERF_TYPE_RAW) as [Hrk|Hrk].
  { split; [left; lia|]. split; [intros _; exact Hraw|].
    split; [split; [intros E; lia|intros [_ [[Hb _]|[Hb _]]]; lia]|].
    split; [intros _ _ _ Hc; contradiction|].
    split; intros _ _ Hc; lia. }
  split; [right; right; reflexivity|].
  split; [intros [Hc|Hc]; contradiction|].
  split; [split; [intros E; lia|intros [_ [[Hb _]|[Hb _]]]; contradiction]|].
  split; [reflexivity|].
  split; intros Hneg; lia.
Qed.

End MappingAnswers.

(** ** Registration: what a failed [armpmu_register] leaves behind *)

(** X22.  [armpmu_register] returns [0] exactly when its three external
    calls all returned [0], and then the hotplug instance, the power-state
    notifier and the PMU are registered.  Otherwise it returns the answer
    of the first call that failed, makes no call after it, removes again
    whatever the calls before it had registered, so that nothing is left
    registered, and leaves [__oprofile_cpu_pmu] alone. *)
Theorem armpmu_register_cleans_up :
  forall (p : nat) (r : register_results) (g : option nat),
    let ret := fst (armpmu_register_calls r) in
    let kept := fold_left (apply_register_call r) (snd (armpmu_register_calls r))
                          nothing_registered in
    fst (armpmu_register p r g) = ret /\
    ret = (if negb (cpuhp_state_add_instance r =? 0) then cpuhp_state_add_instance r
           else if negb (cpu_pm_register_notifier r =? 0) then cpu_pm_register_notifier r
                else perf_pmu_register r) /\
    (ret = 0 <-> cpuhp_state_add_instance r = 0 /\ cpu_pm_register_notifier r = 0 /\
                 perf_pmu_register r = 0) /\
    (ret = 0 ->
     kept = {| hp_instance := true; pm_notifier := true; perf_pmu := true |}) /\
    (ret <> 0 -> kept = nothing_registered /\ snd (armpmu_register p r g) = g) /\
    (cpuhp_state_add_instance r <> 0 ->
     snd (armpmu_register_calls r) = [CpuhpAddInstance]) /\
    (~ In PerfPmuRegister (snd (armpmu_register_calls r)) <->
     cpuhp_state_add_instance r <> 0 \/ cpu_pm_register_notifier r <> 0).
Proof.
  intros p r g ret kept.
  unfold kept, ret, armpmu_register_calls, armpmu_register, cpu_pmu_init,
    cpu_pmu_init_calls, cpu_pmu_destroy_calls, nothing_registered.
  destruct (cpuhp_state_add_instance r =? 0) eqn:E1.
  2: { do 3 (cbn; rewrite ?E1).
       apply Z.eqb_neq in E1.
       split; [reflexivity|]. split; [reflexivity|].
       split; [split; [intros E; contradiction|intros [E _]; contradiction]|].
       split; [intros E; contradiction|].
       split; [intros _; split; reflexivity|].
       split; [reflexivity|].
       split; [intros _; left; exact E1|].
       intros _ [E|[]]. discriminate. }
  destruct (cpu_pm_register_notifier r =? 0) eqn:E2.
  2: { do 3 (cbn; rewrite ?E1, ?E2).
       apply Z.eqb_eq in E1. apply Z.eqb_neq in E2.
       split; [reflexivity|]. split; [reflexivity|].
       split; [split; [intros E; contradiction|intros [_ [E _]]; contradiction]|].
       split; [intros E; contradiction|].
       split; [intros _; split; reflexivity|].
       split; [intros E; contradiction|].
       split; [intros _; right; exact E2|].
       intros _ [E|[E|[E|[]]]]; discriminate. }
  destruct (perf_pmu_register r =? 0) eqn:E3;
    do 3 (cbn; rewrite ?E1, ?E2, ?E3);
    apply Z.eqb_eq in E1; apply Z.eqb_eq in E2.
  - apply Z.eqb_eq in E3.
    split; [reflexivity|]. split; [symmetry; exact E3|].
    split; [split; [intros _; repeat split; assumption|reflexivity]|].
    split; [reflexivity|].
    split; [intros E; contradiction|].
    split; [intros E; contradiction|].
    split; [intros E; exfalso; apply E; right; right; left; reflexivity|].
    intros [E|E]; contradiction.
  - apply Z.eqb_neq in E3.
    split; [reflexivity|]. split; [reflexivity|].
    split; [split; [intros E; contradiction|intros [_ [_ E]]; contradiction]|].
    split; [intros E; contradiction|].
    split; [intros _; split; reflexivity|].
    split; [intros E; contradiction|].
    split; [intros E; exfalso; apply E; right; right; left; reflexivity|].
    intros [E|E]; contradiction.
Qed.

(** ** armpmu_enable, armpmu_disable, armpmu_filter_match *)

Lemma bitmap_weight_nat_none (m : Z) (k : nat) :
  (forall j, 0 <= j < Z.of_nat k -> Z.testbit m j = false) ->
  bitmap_weight_nat m k = 0.
Proof.
  induction k as [|k IH]; intros H; [reflexivity|].
  cbn [bitmap_weight_nat]. rewrite IH by (intros j Hj; apply H; lia).
  rewrite H by lia. reflexivity.
Qed.

(** X23.  [armpmu_enable] and [armpmu_disable] write nothing but the
    registers.  On a core the bank does not serve both do nothing and
    [armpmu_filter_match] answers [0] without asking the bank's hook.  On a
    core it serves, [armpmu_disable] always runs the stop hook, while
    [armpmu_enable] runs the start hook exactly when a slot below
    [num_events] is in use; and the answer of [armpmu_filter_match] is
    the hook's, or [1] when the bank has none. *)
Theorem armpmu_enable_starts_when_used :
  forall (HW : Type) (armpmu : arm_pmu HW) (filter_match : option (perf_event -> Z))
         (cur : Z) (w : world HW) (evt : perf_event),
    (mem (armpmu_enable armpmu cur w) = mem w /\
     percpu (armpmu_enable armpmu cur w) = percpu w /\
     mem (armpmu_disable armpmu cur w) = mem w /\
     percpu (armpmu_disable armpmu cur w) = percpu w) /\
    (cpumask_test_cpu cur (supported_cpus armpmu) = false ->
     armpmu_enable armpmu cur w = w /\
     armpmu_disable armpmu cur w = w /\
     armpmu_filter_match armpmu filter_match cur evt = 0) /\
    (cpumask_test_cpu cur (supported_cpus armpmu) = true ->
     regs (armpmu_disable armpmu cur w) = stop armpmu (regs w) /\
     ((exists i, 0 <= i < num_events armpmu /\
                 Z.testbit (used_mask (percpu w cur)) i = true) ->
      regs (armpmu_enable armpmu cur w) = start armpmu (regs w)) /\
     ((forall i, 0 <= i < num_events armpmu ->
                 Z.testbit (used_mask (percpu w cur)) i = false) ->
      armpmu_enable armpmu cur w = w) /\
     armpmu_filter_match armpmu filter_match cur evt =
     match filter_match with Some f => f evt | None => 1 end).
Proof.
  intros HW armpmu filter_match cur w evt.
  unfold armpmu_enable, armpmu_disable, armpmu_filter_match.
  split; [|split].
  - destruct (cpumask_test_cpu cur (supported_cpus armpmu)); cbn [negb];
      destruct (negb (bitmap_weight (used_mask (percpu w cur)) (num_events armpmu) =? 0));
      repeat split.
  - intros ->. cbn [negb]. change (0 =? 0) with true. cbn [negb].
    destruct filter_match; repeat split.
  - intros ->. cbn [negb]. change (1 =? 0) with false. cbn [negb].
    split; [reflexivity|]. split; [|split].
    + intros (i & Hi & Hbit).
      rewrite (bitmap_weight_used _ _ i Hi Hbit). reflexivity.
    + intros Hnone. unfold bitmap_weight.
      rewrite bitmap_weight_nat_none; [reflexivity|].
      intros j Hj. apply Hnone. lia.
    + destruct filter_match; reflexivity.
Qed.

(** ** The properties above on the sample banks *)

(** [armpmu_request_free_round_trip] on a granting interrupt core: core 1,
    wired to the per-cpu line 23, and core 0, wired to the exclusive line
    40, each requested and freed again on a bank that holds no line. *)
Lemma armpmu_request_free_round_trip_witness :
  fst (armpmu_free_irq granting_irq_core mixed_lines 1
         (snd (armpmu_request_irq granting_irq_core mixed_lines 1 no_line))) = no_line /\
  snd (armpmu_free_irq granting_irq_core mixed_lines 1
         (snd (armpmu_request_irq granting_irq_core mixed_lines 1 no_line))) =
  [FreePercpuIrq 23] /\
  fst (armpmu_free_irq granting_irq_core mixed_lines 0
         (snd (armpmu_request_irq granting_irq_core mixed_lines 0 no_line))) = no_line /\
  snd (armpmu_free_irq granting_irq_core mixed_lines 0
         (snd (armpmu_request_irq granting_irq_core mixed_lines 0 no_line))) =
  [FreeIrq 40 0].
Proof.
  destruct (armpmu_request_free_round_trip granting_irq_core mixed_lines 1 no_line)
    as (_ & _ & H1 & H2); [reflexivity|lia|now vm_compute|reflexivity|].
  destruct (armpmu_request_free_round_trip granting_irq_core mixed_lines 0 no_line)
    as (_ & _ & H3 & H4); [reflexivity|lia|now vm_compute|reflexivity|].
  split; [exact H1|]. split; [exact H2|]. split; [exact H3|exact H4].
Defined.

(** [armpmu_request_irqs_fail_fast] on three cores wired to the exclusive
    lines 40, 41 and 42: where line 41 is refused the answer is that of a
    failing request after a prefix that succeeded, whatever [err] held;
    where every request is granted, core 2 is active afterwards and the
    bank RUNNING. *)
Lemma armpmu_request_irqs_fail_fast_witness :
  armpmu_request_irqs refusing_41 exclusive_lines 7 5 no_line =
  armpmu_request_irqs refusing_41 exclusive_lines 7 99 no_line /\
  (exists l1 c l2,
     for_each_cpu (nr_cpu_ids refusing_41) 7 = l1 ++ c :: l2 /\
     fst (armpmu_request_irqs_loop refusing_41 exclusive_lines l1 0 no_line) = 0 /\
     armpmu_request_irqs refusing_41 exclusive_lines 7 99 no_line =
     armpmu_request_irq refusing_41 exclusive_lines c
       (snd (armpmu_request_irqs_loop refusing_41 exclusive_lines l1 0 no_line))) /\
  cpumask_test_cpu 2
    (active_irqs (snd (armpmu_request_irqs granting_irq_core exclusive_lines 7 99 no_line)))
  = true /\
  pmu_state (snd (armpmu_request_irqs granting_irq_core exclusive_lines 7 99 no_line)) =
  ARM_PMU_STATE_RUNNING.
Proof.
  destruct (armpmu_request_irqs_fail_fast refusing_41 exclusive_lines 7 99 no_line)
    as (_ & Hany & _ & _ & Hfail).
  destruct (armpmu_request_irqs_fail_fast granting_irq_core exclusive_lines 7 99 no_line)
    as (_ & _ & _ & Hall & _).
  split; [apply Hany; now vm_compute|].
  split; [apply Hfail; now vm_compute|].
  apply Hall; [now vm_compute|reflexivity| |now vm_compute].
  right; right; left; reflexivity.
Defined.

(** [armpmu_free_irqs_clears] on the bank with the three exclusive lines
    granted: afterwards core 2 is inactive and the bank OFF. *)
Lemma armpmu_free_irqs_clears_witness :
  let st := snd (armpmu_request_irqs granting_irq_core exclusive_lines 7 0 no_line) in
  cpumask_test_cpu 2
    (active_irqs (fst (armpmu_free_irqs granting_irq_core exclusive_lines 7 st))) = false /\
  pmu_state (fst (armpmu_free_irqs granting_irq_core exclusive_lines 7 st)) =
  ARM_PMU_STATE_OFF.
Proof.
  intros st.
  destruct (armpmu_free_irqs_clears granting_irq_core exclusive_lines 7 st)
    as (Hnone & _ & Hoff & _).
  split.
  - apply Hnone. right; right; left; reflexivity.
  - apply Hoff. exists 0. split; [left; reflexivity|reflexivity].
Defined.

(** [hotplug_quiet_while_off] after the refused request of the per-cpu line
    23: the bank has recorded the line, yet core 1 coming online or going
    offline enables and disables nothing. *)
Lemma hotplug_quiet_while_off_witness :
  let st' := snd (armpmu_request_irq busy_irq_core (fun _ => 23) 0 no_line) in
  percpu_irq st' = 23 /\
  snd (arm_perf_starting_cpu busy_irq_core 1 (Some bank32) st' true []) = [] /\
  snd (arm_perf_stopping_cpu busy_irq_core 1 (Some bank32) st' true []) = [].
Proof.
  intros st'.
  destruct (hotplug_quiet_while_off busy_irq_core (fun _ => 23) (list hw_op) 1 0
              (Some bank32) no_line true [])
    as (_ & _ & Hfail & _).
  split; [reflexivity|].
  apply Hfail; [reflexivity|now vm_compute].
Defined.

(** [armpmu_map_event_answers] with the bounds of the perf ABI, a table of
    hardware events that supports all but event 3, and no cache table: a
    hardware event of [config] 2 gives the entry 19, [config] 3 gives
    [-ENOENT], [config] 10 gives [-EINVAL], a cache event gives
    [-ENOENT], and a kind that is none of the four gives [-ENOENT]. *)
Lemma armpmu_map_event_answers_witness :
  let tbl := fun c : Z => if c =? 3 then 65535 else c + 17 in
  let av := fun (k c : Z) =>
              {| attr_type := k; attr_config := c; attr_sample_period := 0;
                 sample_type := 0; enable_on_exec := false; exclude_idle := false;
                 exclude_user := false; exclude_kernel := false;
                 exclude_hv := false |} in
  (exists t, Some tbl = Some t /\
             armpmu_map_event 10 7 3 2 65535 65535 8 (av 0 2) (Some tbl) None 255 = t 2 /\
             armpmu_map_event 10 7 3 2 65535 65535 8 (av 0 2) (Some tbl) None 255
             <> 65535) /\
  armpmu_map_event 10 7 3 2 65535 65535 8 (av 6 2) (Some tbl) None 255 = - ENOENT /\
  (armpmu_map_event 10 7 3 2 65535 65535 8 (av 0 10) (Some tbl) None 255 = - EINVAL <->
   s32 0 <> 8 /\
   ((s32 0 = PERF_TYPE_HARDWARE /\ 10 <= 10) \/
    (s32 0 = PERF_TYPE_HW_CACHE /\
     (7 <= cache_type 10 \/ 3 <= cache_op 10 \/ 2 <= cache_result 10)))) /\
  0 <= armpmu_map_event 10 7 3 2 65535 65535 8 (av 8 43981) (Some tbl) None 255 <= 255.
Proof.
  intros tbl av.
  assert (Htbl : forall t c, Some tbl = Some t -> 0 <= c < 10 -> 0 <= t c < 2 ^ 31).
  { intros t c E Hc. injection E as <-. unfold tbl.
    destruct (c =? 3); lia. }
  assert (Hnone : forall t (x o r : Z), @None (Z -> Z -> Z -> Z) = Some t ->
                  0 <= x < 7 -> 0 <= o < 3 -> 0 <= r < 2 -> 0 <= t x o r < 2 ^ 31)
    by (intros t x o r E; discriminate E).
  destruct (armpmu_map_event_answers 10 7 3 2 65535 65535 8 (av 0 2) (Some tbl) None 255)
    as (_ & _ & _ & _ & H1 & _);
    [lia|cbn; lia|exact Htbl|exact Hnone|].
  destruct (armpmu_map_event_answers 10 7 3 2 65535 65535 8 (av 6 2) (Some tbl) None 255)
    as (_ & _ & _ & H2 & _);
    [lia|cbn; lia|exact Htbl|exact Hnone|].
  destruct (armpmu_map_event_answers 10 7 3 2 65535 65535 8 (av 0 10) (Some tbl) None 255)
    as (_ & _ & H3 & _);
    [lia|cbn; lia|exact Htbl|exact Hnone|].
  destruct (armpmu_map_event_answers 10 7 3 2 65535 65535 8 (av 8 43981) (Some tbl) None 255)
    as (_ & H4 & _);
    [lia|cbn; lia|exact Htbl|exact Hnone|].
  split; [apply H1; now vm_compute|].
  split; [apply H2; now vm_compute|].
  split; [exact H3|].
  apply H4. left. reflexivity.
Defined.

(** [armpmu_register_cleans_up] where [perf_pmu_register] fails after the
    other two calls succeeded: the failure is returned, nothing is left
    registered and [__oprofile_cpu_pmu] stays NULL. *)
Lemma armpmu_register_cleans_up_witness :
  fst (armpmu_register 1 all_fail None) = - EINVAL /\
  fold_left (apply_register_call all_fail) (snd (armpmu_register_calls all_fail))
            nothing_registered = nothing_registered /\
  snd (armpmu_register 1 all_fail None) = None.
Proof.
  destruct (armpmu_register_cleans_up 1 all_fail None)
    as (Hret & Hval & _ & _ & Hfail & _).
  destruct Hfail as [Hkept Hg]; [now vm_compute|].
  split; [rewrite Hret, Hval; reflexivity|].
  split; [exact Hkept|exact Hg].
Defined.

(** [armpmu_enable_starts_when_used] on [bank32]: with slot 0 in use on
    core 0 the start hook runs; on core 1, where no slot is in use, and on
    core 5, which the bank does not serve, nothing happens. *)
Lemma armpmu_enable_starts_when_used_witness :
  regs (armpmu_enable bank32 0 counting_world) = HwStart :: regs counting_world /\
  armpmu_enable bank32 1 counting_world = counting_world /\
  armpmu_enable bank32 5 counting_world = counting_world /\
  armpmu_filter_match bank32 (Some (fun _ => 7)) 5 armed_event = 0.
Proof.
  destruct (armpmu_enable_starts_when_used (list hw_op) bank32 (Some (fun _ => 7))
              0 counting_world armed_event) as (_ & _ & H0).
  destruct (armpmu_enable_starts_when_used (list hw_op) bank32 (Some (fun _ => 7))
              1 counting_world armed_event) as (_ & _ & H1).
  destruct (armpmu_enable_starts_when_used (list hw_op) bank32 (Some (fun _ => 7))
              5 counting_world armed_event) as (_ & H5 & _).
  destruct (H0 eq_refl) as (_ & Hused & _).
  destruct (H1 eq_refl) as (_ & _ & Hfree & _).
  destruct (H5 eq_refl) as (He & _ & Hf).
  split; [apply Hused; exists 0; split; [now vm_compute|reflexivity]|].
  split; [apply Hfree; intros i Hi; apply Z.testbit_0_l|].
  split; [exact He|exact Hf].
Defined.
